(** * WireGuard Namespace Manager: a shallow embedding of [WGNM.py]

    The development follows the layout of the program: Python string
    primitives, the topology allocator, the per-port credential files and the
    content hash, the credential source adapter, the change detector, the
    namespace provisioner with the tunnel state store, the restore
    orchestrator and the background watcher.

    Conventions.
    - A Python [str] is a [string]; a character stands for the code point of
      the same number, and a text file is the text it decodes to.
    - A Python [int] is a [Z]; [pretty] is [str(int)] and the [{port}] of an
      f-string.
    - Terminal output, [debug_log] and the pauses of the provisioner
      ([time.sleep] between its commands) are not modelled; a modification
      time is an integer timestamp.
    - A command that is started gives a completed process: [sh] and [ip]
      are installed.  A text file that is there can be read, and writing a
      text file succeeds. *)

From Stdlib Require Import ZArith NArith Ascii String List Lia Bool HexadecimalString.
From stdpp Require Import base decidable option list sorting gmap strings pretty.

Local Open Scope string_scope.
Local Open Scope Z_scope.

(** ** Python string primitives *)

Module Py.

Definition LF : ascii := "010"%char.
Definition CR : ascii := "013"%char.
Definition DQUOTE : ascii := "034"%char.

(** [str.isspace] on one character, for the code points below 256. *)
Definition isspace (c : ascii) : bool :=
  let n := nat_of_ascii c in
  ((9 <=? n) && (n <=? 13) || (28 <=? n) && (n <=? 32)
   || (n =? 133) || (n =? 160))%nat.

Definition isempty (s : string) : bool :=
  match s with EmptyString => true | String _ _ => false end.

Fixpoint lstrip (s : string) : string :=
  match s with
  | EmptyString => EmptyString
  | String c s' => if isspace c then lstrip s' else s
  end.

Fixpoint rstrip (s : string) : string :=
  match s with
  | EmptyString => EmptyString
  | String c s' =>
      let r := rstrip s' in
      if isspace c && isempty r then EmptyString else String c r
  end.

(** [s.strip()] *)
Definition strip (s : string) : string := rstrip (lstrip s).

(** Text-mode reading with [newline=None]: a carriage return, alone or
    followed by a line feed, is read as one line feed. *)
Fixpoint universal_newlines (s : string) : string :=
  match s with
  | EmptyString => EmptyString
  | String c s' =>
      if Ascii.eqb c CR then
        String LF
          match s' with
          | EmptyString => EmptyString
          | String c2 s'' =>
              if Ascii.eqb c2 LF then universal_newlines s''
              else universal_newlines s'
          end
      else String c (universal_newlines s')
  end.

(** The lines of a text, each with its line feed, as [for line in f] and
    [f.readlines()] give them. *)
Fixpoint lines (s : string) : list string :=
  match s with
  | EmptyString => []
  | String c s' =>
      if Ascii.eqb c LF then String c EmptyString :: lines s'
      else match lines s' with
           | [] => [String c EmptyString]
           | l :: ls => String c l :: ls
           end
  end.

Definition readlines (content : string) : list string :=
  lines (universal_newlines content).

(** [sorted(xs)] on strings: ascending by code point. *)
Definition sorted (xs : list string) : list string :=
  merge_sort String.le xs.

(** [sep.join(xs)] *)
Fixpoint join (sep : string) (xs : list string) : string :=
  match xs with
  | [] => EmptyString
  | [x] => x
  | x :: rest => x +:+ sep +:+ join sep rest
  end.

(** [''.join(xs)] *)
Definition concat (xs : list string) : string :=
  fold_right String.append EmptyString xs.

Fixpoint startswith (p s : string) : bool :=
  match p, s with
  | EmptyString, _ => true
  | String a p', String b s' => Ascii.eqb a b && startswith p' s'
  | String _ _, EmptyString => false
  end.

Definition endswith (p s : string) : bool :=
  startswith (String.rev p) (String.rev s).

(** [sub in s] *)
Fixpoint contains (sub s : string) : bool :=
  startswith sub s
  || match s with
     | EmptyString => false
     | String _ s' => contains sub s'
     end.

(** [x in xs] for a list of strings *)
Definition mem (x : string) (xs : list string) : bool :=
  bool_decide (x ∈ xs).

(** [s.split()]: the maximal runs of non-space characters. *)
Fixpoint split_ws_go (cur : string) (s : string) : list string :=
  match s with
  | EmptyString => if isempty cur then [] else [String.rev cur]
  | String c s' =>
      if isspace c
      then (if isempty cur then [] else [String.rev cur]) ++ split_ws_go EmptyString s'
      else split_ws_go (String c cur) s'
  end.
Definition split_ws (s : string) : list string := split_ws_go EmptyString s.

(** [s.split(sep, 1)] for a one-character separator: the text before the
    first separator and, when there is one, the text after it. *)
Fixpoint split1 (sep : ascii) (s : string) : string * option string :=
  match s with
  | EmptyString => (EmptyString, None)
  | String c s' =>
      if Ascii.eqb c sep then (EmptyString, Some s')
      else let '(a, b) := split1 sep s' in (String c a, b)
  end.

(** [s.split(sep)] for a one-character separator. *)
Fixpoint split (sep : ascii) (s : string) : list string :=
  match s with
  | EmptyString => [EmptyString]
  | String c s' =>
      if Ascii.eqb c sep then EmptyString :: split sep s'
      else match split sep s' with
           | [] => [String c EmptyString]
           | x :: xs => String c x :: xs
           end
  end.

(** [s.splitlines()]: the lines without their terminators; below 256 the
    line boundaries are LF, CR, CR LF, VT, FF, FS, GS, RS and NEL. *)
Definition is_linebreak (c : ascii) : bool :=
  let n := nat_of_ascii c in
  ((10 <=? n) && (n <=? 13) || (28 <=? n) && (n <=? 30) || (n =? 133))%nat.
Fixpoint splitlines_go (cur : string) (s : string) : list string :=
  match s with
  | EmptyString => if isempty cur then [] else [String.rev cur]
  | String c s' =>
      if is_linebreak c then
        String.rev cur ::
          match s' with
          | EmptyString => []
          | String c2 s'' =>
              if Ascii.eqb c CR && Ascii.eqb c2 LF
              then splitlines_go EmptyString s''
              else splitlines_go EmptyString s'
          end
      else splitlines_go (String c cur) s'
  end.
Definition splitlines (s : string) : list string := splitlines_go EmptyString s.

(** [s.lower()], for the code points below 256: the ASCII capitals and
    the Latin-1 capitals (192-222 but the multiplication sign 215). *)
Definition lower_char (c : ascii) : ascii :=
  let n := nat_of_ascii c in
  if ((65 <=? n) && (n <=? 90)
      || (192 <=? n) && (n <=? 222) && negb (n =? 215))%nat
  then ascii_of_nat (n + 32) else c.
Fixpoint lower (s : string) : string :=
  match s with
  | EmptyString => EmptyString
  | String c s' => String (lower_char c) (lower s')
  end.

Definition is_ascii_digit (c : ascii) : bool :=
  let n := nat_of_ascii c in ((48 <=? n) && (n <=? 57))%nat.

(** [s.isdigit()]: non-empty and every character a digit; below 256 the
    digits are 0-9 and the superscripts 1, 2, 3. *)
Definition isdigit_char (c : ascii) : bool :=
  let n := nat_of_ascii c in
  (is_ascii_digit c || (n =? 178) || (n =? 179) || (n =? 185))%nat.
Fixpoint all_chars (p : ascii -> bool) (s : string) : bool :=
  match s with
  | EmptyString => true
  | String c s' => p c && all_chars p s'
  end.
Definition isdigit (s : string) : bool :=
  negb (isempty s) && all_chars isdigit_char s.

(** [int(s)] in base ten: surrounding white space, an optional sign, then
    digits, with single underscores allowed between digits.  [None] is
    [ValueError]. *)
Fixpoint digits_value (acc : Z) (prev_digit : bool) (s : string) : option Z :=
  match s with
  | EmptyString => if prev_digit then Some acc else None
  | String c s' =>
      if is_ascii_digit c
      then digits_value (10 * acc + (Z.of_nat (nat_of_ascii c) - 48)) true s'
      else if Ascii.eqb c "_"%char && prev_digit
           then match s' with
                | EmptyString => None
                | String c2 _ =>
                    if is_ascii_digit c2 then digits_value acc false s' else None
                end
           else None
  end.
Definition int (s : string) : option Z :=
  match strip s with
  | String "-"%char r => Z.opp <$> digits_value 0 false r
  | String "+"%char r => digits_value 0 false r
  | r => digits_value 0 false r
  end.

(** [shlex.quote] *)
Definition shell_safe (c : ascii) : bool :=
  let n := nat_of_ascii c in
  (is_ascii_digit c
   || (65 <=? n) && (n <=? 90) || (97 <=? n) && (n <=? 122)
   || existsb (Nat.eqb n) [95; 64; 37; 43; 61; 58; 44; 46; 47; 45])%nat.
Fixpoint escape_quotes (s : string) : string :=
  match s with
  | EmptyString => EmptyString
  | String c s' =>
      if Ascii.eqb c "'"%char
      then String "'" (String DQUOTE (String "'" (String DQUOTE (String "'" (escape_quotes s')))))
      else String c (escape_quotes s')
  end.
Definition quote (s : string) : string :=
  if isempty s then "''"
  else if all_chars shell_safe s then s
  else "'" +:+ escape_quotes s +:+ "'".

(** [os.path.join(dir, name)] for a relative [name] and a directory
    written without a trailing slash. *)
Definition path_join (dir name : string) : string := dir +:+ "/" +:+ name.

(** [shlex.split(s)] raises [ValueError] when the text ends inside a
    quotation or behind a backslash.  The reader is in a word or between
    words, inside single or double quotes, or behind a backslash, which
    escapes outside quotes and inside double quotes only. *)
Inductive shlex_state :=
| ShWord
| ShSingle
| ShDouble
| ShEscape (in_double : bool).

Definition BACKSLASH : ascii := "092"%char.
Definition SQUOTE : ascii := "039"%char.

Definition shlex_step (state : shlex_state) (c : ascii) : shlex_state :=
  match state with
  | ShWord =>
      if Ascii.eqb c BACKSLASH then ShEscape false
      else if Ascii.eqb c SQUOTE then ShSingle
      else if Ascii.eqb c DQUOTE then ShDouble
      else ShWord
  | ShSingle => if Ascii.eqb c SQUOTE then ShWord else ShSingle
  | ShDouble =>
      if Ascii.eqb c DQUOTE then ShWord
      else if Ascii.eqb c BACKSLASH then ShEscape true
      else ShDouble
  | ShEscape in_double => if in_double then ShDouble else ShWord
  end.

Fixpoint shlex_read (state : shlex_state) (s : string) : shlex_state :=
  match s with
  | EmptyString => state
  | String c s' => shlex_read (shlex_step state c) s'
  end.

Definition shlex_split_raises (s : string) : bool :=
  match shlex_read ShWord s with
  | ShWord => false
  | _ => true
  end.

End Py.

(** ** Topology allocator *)

Definition ns_name_of (port : Z) : string := "ns-" +:+ pretty port.
Definition veth_host_of (port : Z) : string := "veth-" +:+ pretty port.
Definition veth_ns_of (port : Z) : string := "vpeer-" +:+ pretty port.
Definition host_ip_of (octet : Z) : string := "10.100." +:+ pretty octet +:+ ".1".
Definition ns_ip_of (octet : Z) : string := "10.100." +:+ pretty octet +:+ ".2".
Definition subnet_of (octet : Z) : string := "10.100." +:+ pretty octet +:+ ".0/24".

(** The names and addresses provisioning derives for a port. *)
Record topology := {
  t_octet : Z;
  t_ns_name : string;
  t_veth_host : string;
  t_veth_ns : string;
  t_host_ip : string;
  t_ns_ip : string;
  t_subnet : string
}.

(** What [delete_setup] works on; the octet is [None] where it derives
    none. *)
Record cleanup_target := {
  c_ns_name : string;
  c_veth_host : string;
  c_ns_ip : string;
  c_subnet : string;
  c_octet : option Z
}.

(** Lines 2178-2184 of [create_setup]. *)
Definition create_topology (port : Z) : topology :=
  let subnet_octet := (port mod 250) + 2 in
  {| t_octet := subnet_octet;
     t_ns_name := "ns-" +:+ pretty port;
     t_veth_host := "veth-" +:+ pretty port;
     t_veth_ns := "vpeer-" +:+ pretty port;
     t_host_ip := "10.100." +:+ pretty subnet_octet +:+ ".1";
     t_ns_ip := "10.100." +:+ pretty subnet_octet +:+ ".2";
     t_subnet := "10.100." +:+ pretty subnet_octet +:+ ".0/24" |}.

(** Lines 677 and 690-695 of [restore_setup]. *)
Definition restore_topology (port : Z) : topology :=
  let ns_name := "ns-" +:+ pretty port in
  let subnet_octet := (port mod 250) + 2 in
  let veth_host := "veth-" +:+ pretty port in
  let veth_ns := "vpeer-" +:+ pretty port in
  let host_ip := "10.100." +:+ pretty subnet_octet +:+ ".1" in
  let ns_ip := "10.100." +:+ pretty subnet_octet +:+ ".2" in
  let subnet := "10.100." +:+ pretty subnet_octet +:+ ".0/24" in
  {| t_octet := subnet_octet; t_ns_name := ns_name; t_veth_host := veth_host;
     t_veth_ns := veth_ns; t_host_ip := host_ip; t_ns_ip := ns_ip; t_subnet := subnet |}.

(** Lines 2678-2703 of [delete_setup]: the namespace, link and addresses of
    the port, or the fixed ones of the legacy namespace [nsxray]. *)
Definition delete_topology (port : Z) (ns_list : list string) : cleanup_target :=
  let ns_name := "ns-" +:+ pretty port in
  let ns_name :=
    if Py.mem ns_name ns_list then ns_name
    else if (port =? 9349) && Py.mem "nsxray" ns_list then "nsxray"
    else ns_name in
  if String.eqb ns_name "nsxray" then
    {| c_ns_name := ns_name; c_veth_host := "veth-host";
       c_ns_ip := "10.200.200.2"; c_subnet := "10.200.200.0/24"; c_octet := None |}
  else
    let subnet_octet := (port mod 250) + 2 in
    {| c_ns_name := ns_name; c_veth_host := "veth-" +:+ pretty port;
       c_ns_ip := "10.100." +:+ pretty subnet_octet +:+ ".2";
       c_subnet := "10.100." +:+ pretty subnet_octet +:+ ".0/24";
       c_octet := Some subnet_octet |}.

(** [namespace_exists] of [delete_setup]. *)
Definition namespace_exists (port : Z) (ns_list : list string) : bool :=
  Py.mem ("ns-" +:+ pretty port) ns_list
  || (port =? 9349) && Py.mem "nsxray" ns_list.

(** Lines 2853-2854 of [debug_setup]: the octet and the host end of the
    link pair it shows. *)
Definition debug_topology (port : Z) : Z * string :=
  let subnet_octet := (port mod 250) + 2 in
  let veth_host := "veth-" +:+ pretty port in
  (subnet_octet, veth_host).

(** Lines 2882-2883 of [enable_realtime_logging], which [debug_setup]
    calls: the octet and the address its LOG rules match. *)
Definition logging_topology (port : Z) : Z * string :=
  let subnet_octet := (port mod 250) + 2 in
  let ns_ip := "10.100." +:+ pretty subnet_octet +:+ ".2" in
  (subnet_octet, ns_ip).

(** ** Text files *)

Abbreviation filesystem := (gmap string string).

Definition isfile_in (fs : filesystem) (path : string) : bool :=
  bool_decide (is_Some (fs !! path)).

(** ** Per-port credential files and the content hash *)

Definition UUID_FILE_DIR : string := "/tmp/setup-wg-uuids".
Definition UUID_HASH_FILE : string := Py.path_join UUID_FILE_DIR "last_hash.txt".
Definition UUID_DB_MTIME_FILE : string := Py.path_join UUID_FILE_DIR "last_db_mtime.txt".

Definition uuid_file (port : Z) : string :=
  Py.path_join UUID_FILE_DIR ("uuids-" +:+ pretty port +:+ ".txt").

(** [save_uuids_to_file]: one identifier per line, in ascending order. *)
Definition save_uuids_to_file (port : Z) (uuids : list string) (fs : filesystem)
  : filesystem :=
  <[uuid_file port := Py.concat (map (fun u => u +:+ String Py.LF "") (Py.sorted uuids))]> fs.

(** [load_uuids_from_file]: the stripped non-empty lines, [None] without
    the file. *)
Definition load_uuids_from_file (port : Z) (fs : filesystem) : option (list string) :=
  match fs !! uuid_file port with
  | None => None
  | Some content =>
      Some (map Py.strip
              (filter (fun line => negb (Py.isempty (Py.strip line)))
                      (Py.readlines content)))
  end.

(** The stripped non-empty lines of a text file:
    [[ln.strip() for ln in f.readlines() if ln.strip()]]. *)
Definition stripped_lines (content : string) : list string :=
  map Py.strip
    (filter (fun line => negb (Py.isempty (Py.strip line))) (Py.readlines content)).

(** [os.listdir(dir)]: the names directly under [dir].  The order Python
    gives is unspecified; here it is the order of [map_to_list]. *)
Fixpoint strip_prefix (p s : string) : option string :=
  match p, s with
  | EmptyString, _ => Some s
  | String a p', String b s' => if Ascii.eqb a b then strip_prefix p' s' else None
  | String _ _, EmptyString => None
  end.

Definition listdir (dir : string) (fs : filesystem) : list string :=
  omap (fun kv : string * string =>
          match strip_prefix (dir +:+ "/") kv.1 with
          | Some name =>
              if Py.isempty name || Py.contains "/" name then None else Some name
          | None => None
          end)
       (map_to_list fs).

(** ** Tunnel state store *)

Definition SETUP_STATE_DIR : string := "/etc/setup-wg".
Definition CONFIG_FILE : string := "/etc/setup-wg/config.json".
Definition PANEL_STATE_FILE : string := "/tmp/setup-wg-panel.state".

Definition state_file_name (port : Z) : string :=
  "tunnel-" +:+ pretty port +:+ ".state".
Definition state_file (port : Z) : string :=
  Py.path_join SETUP_STATE_DIR (state_file_name port).

Definition save_setup_state (port : Z) (wg_config_path : string) (fs : filesystem)
  : filesystem :=
  <[state_file port :=
      pretty port +:+ String Py.LF "" +:+ wg_config_path +:+ String Py.LF ""]> fs.

Definition delete_setup_state (port : Z) (fs : filesystem) : filesystem :=
  if isfile_in fs (state_file port) then delete (state_file port) fs else fs.

(** The port and configuration path a state record holds: its first two
    non-empty lines, the first read with [int]. *)
Definition parse_state_record (content : string) : option (Z * string) :=
  match stripped_lines content with
  | l0 :: l1 :: _ =>
      match Py.int l0 with
      | Some port => Some (port, l1)
      | None => None
      end
  | _ => None
  end.

(** One iteration of the loop of [load_all_setup_states]. *)
Definition load_state_step (acc : list (Z * string) * filesystem) (filename : string)
  : list (Z * string) * filesystem :=
  let '(tunnels, fs) := acc in
  if negb (Py.startswith "tunnel-" filename) || negb (Py.endswith ".state" filename)
  then acc
  else
    let state_file := Py.path_join SETUP_STATE_DIR filename in
    match fs !! state_file with
    | None => acc
    | Some content =>
        match parse_state_record content with
        | Some (port, wg_config_path) =>
            if isfile_in fs wg_config_path
            then ((tunnels ++ [(port, wg_config_path)])%list, fs)
            else (tunnels, delete state_file fs)
        | None => acc
        end
    end.

Definition load_all_setup_states (fs : filesystem)
  : list (Z * string) * filesystem :=
  fold_left load_state_step (listdir SETUP_STATE_DIR fs) ([], fs).

(** ** Change markers *)

(** [load_last_uuid_hash] *)
Definition load_last_uuid_hash (fs : filesystem) : option string :=
  Py.strip <$> fs !! UUID_HASH_FILE.

Definition save_last_uuid_hash (hash_value : string) (fs : filesystem) : filesystem :=
  <[UUID_HASH_FILE := hash_value]> fs.

(** The modification time of the credential source is a timestamp; the
    program compares it for equality and tests it for truth only.  It is
    written with [str] and read back with [float], here [pretty] and
    [Py.int]. *)
Definition load_last_db_mtime (fs : filesystem) : option Z :=
  match fs !! UUID_DB_MTIME_FILE with
  | None => None
  | Some content => Py.int (Py.strip content)
  end.

Definition save_last_db_mtime (mtime : Z) (fs : filesystem) : filesystem :=
  <[UUID_DB_MTIME_FILE := pretty mtime]> fs.

(** ** Credential source adapter *)

(** A column value as [sqlite3] returns it.  Of a real number only its
    truth value is observed. *)
Inductive sqlval :=
| SqlNull
| SqlInt (n : Z)
| SqlReal (nonzero : bool)
| SqlText (s : string)
| SqlBlob (bytes : string).

Definition sql_truthy (v : sqlval) : bool :=
  match v with
  | SqlNull => false
  | SqlInt n => negb (n =? 0)
  | SqlReal nz => nz
  | SqlText s => negb (Py.isempty s)
  | SqlBlob b => negb (Py.isempty b)
  end.

(** A value as [json.loads] returns it. *)
Unset Elimination Schemes.
Inductive json :=
| JNull
| JBool (b : bool)
| JNumber (n : Z)
| JString (s : string)
| JList (items : list json)
| JDict (items : list (string * json)).
Set Elimination Schemes.

Fixpoint dict_get (key : string) (items : list (string * json)) : option json :=
  match items with
  | [] => None
  | (k, v) :: rest => if String.eqb k key then Some v else dict_get key rest
  end.

Definition json_truthy (v : json) : bool :=
  match v with
  | JNull => false
  | JBool b => b
  | JNumber n => negb (n =? 0)
  | JString s => negb (Py.isempty s)
  | JList items => match items with [] => false | _ => true end
  | JDict items => match items with [] => false | _ => true end
  end.

(** A credential database as the program sees it: the answer of each query
    it makes ([None]: the query raises [sqlite3.Error]), what the raw scan of
    the file's bytes finds, and the file's modification time. *)
Record sqlite_db := {
  db_tables : option (list string);
  db_proxies_columns : option (list string);
  db_proxies_vless : option (list (sqlval * sqlval));
  db_users_columns : option (list string);
  db_users_uuid : option (list sqlval);
  db_raw_uuids : list string;
  db_mtime : Z
}.

(** ** The platform: what the program calls and does not define *)

Record completed_process := { returncode : Z; stdout : string }.

Record platform := {
  World : Type;
  (** [subprocess.run] of a command, in a namespace or on the host *)
  shell : option string -> string -> World -> completed_process * World;
  (** [ensure_xray_binary]: finds or installs the proxy binary; [None]
      when it raises [OSError], as its [os.chdir] and [os.replace] can *)
  ensure_xray_binary : World -> option bool * World;
  (** the text [create_xray_config] writes for a port and an allow-list *)
  render_xray_config : Z -> list string -> string;
  (** [hashlib.md5(text.encode('utf-8')).hexdigest()] *)
  md5_hexdigest : string -> string;
  (** [json.loads]; [None] is [JSONDecodeError] *)
  json_loads : string -> option json
}.

Inductive exn :=
| ValueError
| IndexError
| FileNotFoundError
| OSError
| KeyboardInterrupt.

(** [isinstance(e, Exception)]: what [except Exception] catches. *)
Definition is_Exception (e : exn) : bool :=
  match e with KeyboardInterrupt => false | _ => true end.

Inductive event :=
| Run (ns : option string) (cmd : string)      (* run_cmd(cmd, ns=ns) starts cmd *)
| CommandExists (cmd : string)                 (* command_exists(cmd) *)
| EnsureXray                                   (* ensure_xray_binary() *)
| Refresh (force_restart : bool)               (* refresh_uuids_for_all_namespaces is entered *)
| Sleep (seconds : Z).                         (* time.sleep of the watcher *)

#[global] Instance event_eq_dec : EqDecision event.
Proof. solve_decision. Defined.

Inductive result (A : Type) :=
| Ok (a : A)
| Raise (e : exn).
Arguments Ok {A} a.
Arguments Raise {A} e.

Section Program.
Context (P : platform).

(** The state the program runs in: the operating system behind the
    commands, the text files and databases, the module's globals, and the
    record of what was called. *)
Record machine := {
  world : World P;
  files : filesystem;
  dbs : gmap string sqlite_db;
  PANEL_DB_PATH : option string;
  PANEL_PANEL_NAME : option string;
  LAST_UUID_COUNT : option Z;
  LAST_UUID_HASH : option string;
  trace : list event
}.

Definition set_world (w : World P) (m : machine) : machine :=
  {| world := w; files := files m; dbs := dbs m;
     PANEL_DB_PATH := PANEL_DB_PATH m; PANEL_PANEL_NAME := PANEL_PANEL_NAME m;
     LAST_UUID_COUNT := LAST_UUID_COUNT m; LAST_UUID_HASH := LAST_UUID_HASH m;
     trace := trace m |}.
Definition set_files (fs : filesystem) (m : machine) : machine :=
  {| world := world m; files := fs; dbs := dbs m;
     PANEL_DB_PATH := PANEL_DB_PATH m; PANEL_PANEL_NAME := PANEL_PANEL_NAME m;
     LAST_UUID_COUNT := LAST_UUID_COUNT m; LAST_UUID_HASH := LAST_UUID_HASH m;
     trace := trace m |}.
Definition set_panel (name path : option string) (m : machine) : machine :=
  {| world := world m; files := files m; dbs := dbs m;
     PANEL_DB_PATH := path; PANEL_PANEL_NAME := name;
     LAST_UUID_COUNT := LAST_UUID_COUNT m; LAST_UUID_HASH := LAST_UUID_HASH m;
     trace := trace m |}.
Definition set_last_uuid (count : option Z) (hash : option string) (m : machine)
  : machine :=
  {| world := world m; files := files m; dbs := dbs m;
     PANEL_DB_PATH := PANEL_DB_PATH m; PANEL_PANEL_NAME := PANEL_PANEL_NAME m;
     LAST_UUID_COUNT := count; LAST_UUID_HASH := hash;
     trace := trace m |}.
Definition log (e : event) (m : machine) : machine :=
  {| world := world m; files := files m; dbs := dbs m;
     PANEL_DB_PATH := PANEL_DB_PATH m; PANEL_PANEL_NAME := PANEL_PANEL_NAME m;
     LAST_UUID_COUNT := LAST_UUID_COUNT m; LAST_UUID_HASH := LAST_UUID_HASH m;
     trace := (trace m ++ [e])%list |}.

(** Computations: state passing with exceptions. *)
Definition M (A : Type) : Type := machine -> result A * machine.

Definition ret {A} (a : A) : M A := fun m => (Ok a, m).
Definition raise {A} (e : exn) : M A := fun m => (Raise e, m).
Definition bind {A B} (c : M A) (k : A -> M B) : M B :=
  fun m =>
    match c m with
    | (Ok a, m') => k a m'
    | (Raise e, m') => (Raise e, m')
    end.
Notation "x <- c ;; k" := (bind c (fun x => k))
  (at level 100, c at next level, right associativity).
Notation "c ;; k" := (bind c (fun _ => k))
  (at level 100, right associativity).

Definition modify (f : machine -> machine) : M unit := fun m => (Ok tt, f m).
Definition gets {A} (f : machine -> A) : M A := fun m => (Ok (f m), m).

(** [try: c  except Exception: handler] *)
Definition try_except {A} (c : M A) (handler : exn -> M A) : M A :=
  fun m =>
    match c m with
    | (Raise e, m') => if is_Exception e then handler e m' else (Raise e, m')
    | r => r
    end.

(** [run_cmd(cmd, ns=ns)].  With a namespace, a command that holds none of
    [|], [>], [<], [&&] and [;] is split with [shlex.split] and started
    without a shell: a text that cannot be split raises [ValueError] and
    nothing is run. *)
Definition run_raises (ns : option string) (cmd : string) : bool :=
  match ns with
  | Some name =>
      negb (Py.isempty name)
      && negb (Py.contains "|" cmd || Py.contains ">" cmd || Py.contains "<" cmd
               || Py.contains "&&" cmd || Py.contains ";" cmd)
      && Py.shlex_split_raises cmd
  | None => false
  end.

Definition run_cmd (ns : option string) (cmd : string) : M completed_process :=
  fun m =>
    if run_raises ns cmd then (Raise ValueError, m)
    else
      let '(r, w) := shell P ns cmd (world m) in
      (Ok r, set_world w (log (Run ns cmd) m)).

(** [command_exists(cmd)]: a [bash -lc 'command -v ...'] that succeeds. *)
Definition command_exists (cmd : string) : M bool :=
  fun m =>
    let '(r, w) :=
      shell P None ("command -v " +:+ Py.quote cmd +:+ " >/dev/null 2>&1") (world m) in
    (Ok (returncode r =? 0), set_world w (log (CommandExists cmd) m)).

Definition call_ensure_xray_binary : M bool :=
  fun m =>
    let '(answer, w) := ensure_xray_binary P (world m) in
    let m' := set_world w (log EnsureXray m) in
    match answer with
    | Some b => (Ok b, m')
    | None => (Raise OSError, m')
    end.

(** [open(path).read()] *)
Definition read_text (path : string) : M string :=
  fun m =>
    match files m !! path with
    | Some content => (Ok content, m)
    | None => (Raise FileNotFoundError, m)
    end.

Definition write_text (path content : string) : M unit :=
  modify (fun m => set_files (<[path := content]> (files m)) m).

Definition isfile (path : string) : M bool :=
  gets (fun m => isfile_in (files m) path).

(** [get_uuids_hash] *)
Definition get_uuids_hash (uuids : list string) : string :=
  let sorted_uuids := Py.sorted uuids in
  let uuid_string := Py.join (String Py.LF "") sorted_uuids in
  md5_hexdigest P uuid_string.

(** ** Combinators *)

Fixpoint for_each {A} (xs : list A) (body : A -> M unit) : M unit :=
  match xs with
  | [] => ret tt
  | x :: rest => body x ;; for_each rest body
  end.

(** ** Panel selection *)

(** [load_config]: the decoded configuration file, an empty dictionary
    standing for the defaults (every key the program reads is [None]
    there). *)
Definition load_config (fs : filesystem) : list (string * json) :=
  match fs !! CONFIG_FILE with
  | None => []
  | Some text =>
      match json_loads P text with
      | Some (JDict items) => items
      | _ => []
      end
  end.

Definition config_get (key : string) (config : list (string * json)) : json :=
  match dict_get key config with
  | Some v => v
  | None => JNull
  end.

(** The globals hold strings; a value of another JSON type is kept as
    [None], which the program's tests [not db_path or not isfile(db_path)]
    do not tell from a path that names no file. *)
Definition json_str (v : json) : option string :=
  match v with JString s => Some s | _ => None end.

(** [load_panel_state] *)
Definition load_panel_state (m : machine) : machine :=
  let config := load_config (files m) in
  if json_truthy (config_get "panel_type" config)
     && json_truthy (config_get "panel_db_path" config)
  then set_panel (json_str (config_get "panel_type" config))
                 (json_str (config_get "panel_db_path" config)) m
  else
    match files m !! PANEL_STATE_FILE with
    | None => m
    | Some content =>
        match stripped_lines content with
        | l0 :: l1 :: _ => set_panel (Some l0) (Some l1) m
        | _ => m
        end
    end.

(** [db_path] when [db_path and os.path.isfile(db_path)], with its
    database. *)
Definition panel_db (m : machine) : option (string * sqlite_db) :=
  match PANEL_DB_PATH m with
  | Some path =>
      if Py.isempty path then None
      else match dbs m !! path with
           | Some db => Some (path, db)
           | None => None
           end
  | None => None
  end.

(** ** Credential source adapter *)

(** The identifier one row of [proxies] contributes. *)
Definition proxy_uuid (row : sqlval * sqlval) : option string :=
  let '(settings_json, user_id) := row in
  if sql_truthy settings_json && sql_truthy user_id then
    match settings_json with
    | SqlText text =>
        match json_loads P text with
        | Some (JDict settings) =>
            match dict_get "id" settings with
            | Some (JString uuid_val) =>
                if negb (Py.isempty (Py.strip uuid_val))
                then Some (Py.strip uuid_val) else None
            | _ => None
            end
        | _ => None
        end
    | _ => None
    end
  else None.

(** One row of [users]: appended unless already collected. *)
Definition add_user (uuids : list string) (val : sqlval) : list string :=
  match val with
  | SqlText s =>
      let v := Py.strip s in
      if negb (Py.isempty v) && negb (Py.mem v uuids)
      then (uuids ++ [v])%list else uuids
  | _ => uuids
  end.

(** The structured extraction: [Raise]-free, a failing query ends it with
    what was collected before. *)
Definition extract_structured (db : sqlite_db) : list string :=
  match db_tables db with
  | None => []
  | Some tables =>
      let proxies : option (list string) :=
        if Py.mem "proxies" tables then
          match db_proxies_columns db with
          | None => None
          | Some cols =>
              if Py.mem "settings" cols && Py.mem "user_id" cols then
                match db_proxies_vless db with
                | None => None
                | Some rows => Some (omap proxy_uuid rows)
                end
              else Some []
          end
        else Some [] in
      match proxies with
      | None => []
      | Some uuids =>
          if Py.mem "users" tables then
            match db_users_columns db with
            | None => uuids
            | Some cols =>
                if Py.mem "uuid" cols then
                  match db_users_uuid db with
                  | None => uuids
                  | Some vals => fold_left add_user vals uuids
                  end
                else uuids
            end
          else uuids
      end
  end.

(** [extract_uuids_from_sqlite] *)
Definition extract_uuids_from_sqlite (db : option sqlite_db) : list string :=
  match db with
  | None => []
  | Some db =>
      match extract_structured db with
      | [] => db_raw_uuids db
      | uuids => uuids
      end
  end.

(** ** Change detector *)

(** Lines 1289-1328 of [refresh_uuids_for_all_namespaces]: [None] when the
    extraction is empty and the function returns, otherwise the extraction
    and [uuids_changed]. *)
Definition detect_change (force_restart : bool) (db_path : string)
  : M (option (list string * bool)) :=
  fun m =>
    let current_db_mtime := db_mtime <$> dbs m !! db_path in
    let last_db_mtime := load_last_db_mtime (files m) in
    let db_file_changed :=
      match last_db_mtime with
      | None => true
      | Some _ => negb (bool_decide (current_db_mtime = last_db_mtime))
      end in
    let m1 :=
      if db_file_changed then set_files (save_last_uuid_hash "" (files m)) m else m in
    let uuids := extract_uuids_from_sqlite (dbs m1 !! db_path) in
    match uuids with
    | [] => (Ok None, m1)
    | _ =>
        let current_uuid_hash := get_uuids_hash uuids in
        let old_hash_from_file :=
          match load_last_uuid_hash (files m1) with
          | Some h => if Py.isempty h then None else Some h
          | None => None
          end in
        let old_hash :=
          match LAST_UUID_HASH m1 with
          | Some h => Some h
          | None => old_hash_from_file
          end in
        let m2 :=
          set_last_uuid (Some (Z.of_nat (length uuids))) (Some current_uuid_hash) m1 in
        let m3 := set_files (save_last_uuid_hash current_uuid_hash (files m2)) m2 in
        let m4 :=
          match current_db_mtime with
          | Some mtime =>
              if mtime =? 0 then m3
              else set_files (save_last_db_mtime mtime (files m3)) m3
          | None => m3
          end in
        let uuids_changed :=
          match old_hash with
          | None => true
          | Some h => negb (String.eqb h current_uuid_hash)
          end || db_file_changed || force_restart in
        (Ok (Some (uuids, uuids_changed)), m4)
    end.

(** ** Proxy config synchronizer *)

Definition NETNS_LIST : string := "ip netns list 2>/dev/null | awk '{print $1}'".
Definition NS_ADDR_QUERY : string :=
  "ip -4 addr show 2>/dev/null | grep -E 'inet [0-9]+\.[0-9]+\.[0-9]+\.[0-9]+' "
  +:+ "| awk '{print $2}' | cut -d'/' -f1 | grep '^10\.100' | head -1".
Definition port_query (ns_ip : string) : string :=
  "iptables -t nat -S PREROUTING 2>/dev/null | grep 'to-destination " +:+ ns_ip +:+ "' "
  +:+ "| head -1 | awk -F':' '{print $NF}' | awk '{print $1}'".
Definition pid_query (port : Z) : string :=
  "ss -ltnp 2>/dev/null | grep ':" +:+ pretty port +:+ " ' | sed -n 's/.*pid=\([0-9]*\).*/\1/p'".

(** The managed namespaces: [[n for n in stdout.splitlines() if
    n.startswith("ns-")]]. *)
Definition managed_namespaces : M (list string) :=
  res <- run_cmd None NETNS_LIST ;;
  ret (filter (fun n => Py.startswith "ns-" n) (Py.splitlines (stdout res))).

Definition int_or_raise (s : string) : M Z :=
  match Py.int s with
  | Some n => ret n
  | None => raise ValueError
  end.

Definition save_uuids (port : Z) (uuids : list string) : M unit :=
  modify (fun m => set_files (save_uuids_to_file port uuids (files m)) m).

(** The body of the loop taken when nothing changed: the per-port file
    is rewritten, the proxy is left alone. *)
Definition update_file_only (uuids : list string) (ns : string) : M unit :=
  res_ip <- run_cmd (Some ns) NS_ADDR_QUERY ;;
  let ns_ip := Py.strip (stdout res_ip) in
  if Py.isempty ns_ip then ret tt
  else
    res_port <- run_cmd None (port_query ns_ip) ;;
    let port_str := Py.strip (stdout res_port) in
    if Py.isdigit port_str then
      port <- int_or_raise port_str ;;
      save_uuids port uuids
    else ret tt.

(** The body of the loop taken when a restart is due. *)
Definition sync_namespace (uuids : list string) (ns : string) : M unit :=
  res_ip <- run_cmd (Some ns) NS_ADDR_QUERY ;;
  let ns_ip := Py.strip (stdout res_ip) in
  if Py.isempty ns_ip then ret tt
  else
    res_port <- run_cmd None (port_query ns_ip) ;;
    let port_str := Py.strip (stdout res_port) in
    if negb (Py.isdigit port_str) then ret tt
    else
      port <- int_or_raise port_str ;;
      save_uuids port uuids ;;
      have_xray <- call_ensure_xray_binary ;;
      if negb have_xray then ret tt
      else
        let xray_config := "/tmp/xray-" +:+ pretty port +:+ ".json" in
        write_text xray_config (render_xray_config P port uuids) ;;
        res_pids <- run_cmd (Some ns) (pid_query port) ;;
        let pids := Py.split_ws (stdout res_pids) in
        match pids with
        | [] => ret tt
        | _ =>
            _ <- run_cmd (Some ns)
                   ("kill " +:+ Py.join " " pids +:+ " 2>/dev/null || true") ;;
            ret tt
        end ;;
        _ <- run_cmd (Some ns)
               ("nohup /usr/local/bin/xray-ns -c " +:+ Py.quote xray_config
                +:+ " > /tmp/xray-" +:+ pretty port +:+ ".log 2>&1 &") ;;
        ret tt.

(** [refresh_uuids_for_all_namespaces(interactive=False, force_restart)],
    as every caller modelled here calls it. *)
Definition refresh_uuids_for_all_namespaces (force_restart : bool) : M unit :=
  modify (log (Refresh force_restart)) ;;
  db0 <- gets panel_db ;;
  match db0 with
  | Some _ => ret tt
  | None => modify load_panel_state
  end ;;
  db <- gets panel_db ;;
  match db with
  | None => ret tt
  | Some (db_path, _) =>
      decision <- detect_change force_restart db_path ;;
      match decision with
      | None => ret tt
      | Some (uuids, false) =>
          namespaces <- managed_namespaces ;;
          for_each namespaces (update_file_only uuids)
      | Some (uuids, true) =>
          namespaces <- managed_namespaces ;;
          for_each namespaces (sync_namespace uuids)
      end
  end.

(** ** Namespace provisioner *)

(** [run_cmd(cmd, capture_output=False)] where the result is dropped *)
Definition sh (cmd : string) : M unit := _ <- run_cmd None cmd ;; ret tt.
Definition sh_in (ns cmd : string) : M unit := _ <- run_cmd (Some ns) cmd ;; ret tt.

Definition QUIET : string := " 2>/dev/null || true".

Definition netns_add (ns : string) : string := "ip netns add " +:+ Py.quote ns.
Definition netns_delete (ns : string) : string :=
  "ip netns delete " +:+ Py.quote ns +:+ QUIET.
Definition link_delete (dev : string) : string :=
  "ip link delete " +:+ Py.quote dev +:+ QUIET.
Definition veth_add (veth_host veth_ns : string) : string :=
  "ip link add " +:+ Py.quote veth_host +:+ " type veth peer name " +:+ Py.quote veth_ns.
Definition wg_add (wg_name : string) : string :=
  "ip link add " +:+ Py.quote wg_name +:+ " type wireguard".
Definition wg_setconf (wg_config wg_name : string) : string :=
  "grep -vE '^(Address|DNS|Table|MTU|PreUp|PostUp|PreDown|PostDown)' "
  +:+ Py.quote wg_config +:+ " | wg setconf " +:+ Py.quote wg_name +:+ " /dev/stdin".

Definition dnat_rule (op proto : string) (port : Z) (ns_ip : string) : string :=
  "iptables -t nat " +:+ op +:+ " PREROUTING -p " +:+ proto +:+ " --dport "
  +:+ pretty port +:+ " -j DNAT --to-destination " +:+ ns_ip +:+ ":" +:+ pretty port.
Definition masquerade_rule (op subnet veth_host : string) : string :=
  "iptables -t nat " +:+ op +:+ " POSTROUTING -s " +:+ subnet +:+ " ! -o "
  +:+ veth_host +:+ " -j MASQUERADE".
Definition forward_in_rule (op proto ns_ip : string) (port : Z) : string :=
  "iptables " +:+ op +:+ " -p " +:+ proto +:+ " -d " +:+ ns_ip +:+ "/32 --dport "
  +:+ pretty port +:+ " -j ACCEPT".
Definition forward_out_rule (op proto ns_ip : string) : string :=
  "iptables " +:+ op +:+ " -p " +:+ proto +:+ " -s " +:+ ns_ip +:+ "/32 -j ACCEPT".

(** The first line whose stripped lower-case text starts with [key]. *)
Definition find_line (key : string) (lines : list string) : option string :=
  List.find (fun line => Py.startswith key (Py.lower (Py.strip line))) lines.

(** [resolve_endpoint_ip]: the host of the [Endpoint] line and the first
    non-empty answer of three resolvers, empty when none answers. *)
Fixpoint first_answer (cmds : list string) : M string :=
  match cmds with
  | [] => ret ""
  | cmd :: rest =>
      res <- run_cmd None cmd ;;
      let ip := Py.strip (stdout res) in
      if Py.isempty ip then first_answer rest else ret ip
  end.

Definition resolve_endpoint_ip (wg_config : string) : M (string * string) :=
  content <- read_text wg_config ;;
  let lines := Py.readlines content in
  let endpoint_line :=
    match find_line "endpoint" lines with Some l => l | None => "" end in
  let endpoint :=
    match Py.split1 "="%char endpoint_line with
    | (_, Some rest) => Py.strip rest
    | (_, None) => ""
    end in
  let host :=
    if Py.isempty endpoint then ""
    else match Py.split1 ":"%char endpoint with (h, _) => h end in
  if Py.isempty host then ret (host, "")
  else
    endpoint_ip <- first_answer
      [ "getent ahosts " +:+ Py.quote host +:+ " 2>/dev/null | awk '{print $1}' | head -1";
        "host " +:+ Py.quote host
          +:+ " 2>/dev/null | grep 'has address' | head -1 | awk '{print $4}'";
        "dig +short " +:+ Py.quote host
          +:+ " 2>/dev/null | grep -E '^[0-9]+\.[0-9]+\.[0-9]+\.[0-9]+$' | head -1" ] ;;
    ret (host, endpoint_ip).

(** [f"{n:08x}"] *)
Definition pad_left (width : nat) (s : string) : string :=
  Py.concat (repeat "0" (width - String.length s)) +:+ s.
Definition hex (n : Z) : string :=
  HexadecimalString.NilZero.string_of_uint (N.to_hex_uint (Z.to_N n)).
Definition format_08x (n : Z) : string :=
  if n <? 0 then "-" +:+ pad_left 7 (hex (- n)) else pad_left 8 (hex n).

(** The name of the tunnel interface: a short hash of the port. *)
Definition derive_wg_name (port : Z) : M string :=
  have_md5sum <- command_exists "md5sum" ;;
  if have_md5sum then
    res <- run_cmd None ("echo " +:+ pretty port +:+ " | md5sum | cut -c1-8") ;;
    ret ("wg-" +:+ Py.strip (stdout res))
  else
    have_md5 <- command_exists "md5" ;;
    if have_md5 then
      res <- run_cmd None ("echo " +:+ pretty port +:+ " | md5 | cut -c1-8") ;;
      ret ("wg-" +:+ Py.strip (stdout res))
    else ret (String.substring 0 11 ("wg-" +:+ format_08x (port * 31))).

(** The address of the tunnel interface: the [Address] line of the
    configuration, [10.0.0.2/32] without one. *)
Definition read_wg_address (wg_config : string) : M string :=
  content <- read_text wg_config ;;
  match find_line "address" (Py.readlines content) with
  | None => ret "10.0.0.2/32"
  | Some line =>
      match Py.split1 "="%char line with
      | (_, Some rest) => ret (Py.strip rest)
      | (_, None) => raise IndexError
      end
  end.

(** Steps 5 (end) to 8, shared text of [create_setup] and [restore_setup]:
    none of these calls is checked. *)
Definition install_tunnel_and_rules
    (port subnet_octet : Z)
    (ns_name veth_host veth_ns host_ip ns_ip subnet wg_name wg_address endpoint_ip : string)
  : M unit :=
  sh ("ip link set " +:+ Py.quote wg_name +:+ " netns " +:+ Py.quote ns_name) ;;
  sh_in ns_name ("ip addr add " +:+ wg_address +:+ " dev " +:+ Py.quote wg_name) ;;
  sh_in ns_name ("ip link set " +:+ Py.quote wg_name +:+ " up") ;;
  (* routing *)
  sh_in ns_name "ip route flush table main 2>/dev/null || true" ;;
  sh_in ns_name "ip route flush table 100 2>/dev/null || true" ;;
  sh_in ns_name ("ip route add 10.100." +:+ pretty subnet_octet +:+ ".0/24 dev "
                 +:+ Py.quote veth_ns +:+ " proto kernel scope link src " +:+ ns_ip) ;;
  sh_in ns_name ("ip route add " +:+ endpoint_ip +:+ "/32 via " +:+ host_ip) ;;
  sh_in ns_name ("ip route add default dev " +:+ Py.quote wg_name) ;;
  sh_in ns_name ("ip route add default via " +:+ host_ip +:+ " dev "
                 +:+ Py.quote veth_ns +:+ " table 100") ;;
  sh_in ns_name "ip rule add fwmark 1 lookup 100" ;;
  sh_in ns_name ("iptables -t mangle -A OUTPUT -m conntrack --ctstate ESTABLISHED,RELATED -s "
                 +:+ ns_ip +:+ " -j MARK --set-mark 1") ;;
  (* NAT and firewall *)
  sh "sysctl -w net.ipv4.ip_forward=1 >/dev/null" ;;
  sh_in ns_name ("iptables -t nat -A POSTROUTING -o " +:+ Py.quote wg_name
                 +:+ " -j MASQUERADE") ;;
  sh (masquerade_rule "-D" subnet veth_host +:+ QUIET) ;;
  sh (masquerade_rule "-A" subnet veth_host) ;;
  (* DNAT and FORWARD *)
  for_each ["tcp"; "udp"] (fun proto =>
    sh (dnat_rule "-D" proto port ns_ip +:+ QUIET) ;;
    sh (dnat_rule "-A" proto port ns_ip) ;;
    sh (forward_in_rule "-D FORWARD" proto ns_ip port +:+ QUIET) ;;
    sh (forward_in_rule "-I FORWARD 1" proto ns_ip port) ;;
    sh (forward_out_rule "-D FORWARD" proto ns_ip +:+ QUIET) ;;
    sh (forward_out_rule "-I FORWARD 1" proto ns_ip)) ;;
  (* DNS for the namespace *)
  write_text (Py.path_join ("/etc/netns/" +:+ ns_name) "resolv.conf")
             ("nameserver 1.1.1.1" +:+ String Py.LF "").

(** Addresses on both ends of the link pair: unchecked calls. *)
Definition configure_veth (ns_name veth_host veth_ns host_ip ns_ip : string) : M unit :=
  sh ("ip link set " +:+ Py.quote veth_host +:+ " up") ;;
  sh ("ip addr flush dev " +:+ Py.quote veth_host +:+ QUIET) ;;
  sh ("ip addr add " +:+ host_ip +:+ "/24 dev " +:+ Py.quote veth_host) ;;
  sh ("ip link set " +:+ Py.quote veth_ns +:+ " netns " +:+ Py.quote ns_name) ;;
  sh_in ns_name "ip link set lo up" ;;
  sh_in ns_name ("ip link set " +:+ Py.quote veth_ns +:+ " up") ;;
  sh_in ns_name ("ip addr flush dev " +:+ Py.quote veth_ns +:+ QUIET) ;;
  sh_in ns_name ("ip addr add " +:+ ns_ip +:+ "/24 dev " +:+ Py.quote veth_ns).

(** Where [create_setup] returns. *)
Inductive provisioning :=
| Provisioned
| XrayUnavailable
| EndpointResolutionFailed
| NamespaceCreateFailed
| LinkCreateFailed
| TunnelInterfaceCreateFailed
| TunnelConfigInvalid.

Definition save_state (port : Z) (wg_config : string) : M unit :=
  modify (fun m => set_files (save_setup_state port wg_config (files m)) m).

Section Interactive.
(** What the end of [create_setup] calls and is not embedded here: the
    prompt [input], [choose_uuids_from_panel], which asks for the panel and
    sets it, and [start_background_uuid_watcher], which installs the watcher
    service or starts its thread.  [create_setup] is defined for any
    behaviour of theirs. *)
Context (input : M string).
Context (choose_uuids_from_panel : M (list string)).
Context (start_background_uuid_watcher : M bool).

(** [refresh_uuids_for_all_namespaces(interactive=True)], as [create_setup]
    calls it: without a panel database the user is asked for one. *)
Definition refresh_uuids_interactive : M unit :=
  modify (log (Refresh false)) ;;
  db0 <- gets panel_db ;;
  match db0 with
  | Some _ => ret tt
  | None => _ <- choose_uuids_from_panel ;; ret tt
  end ;;
  db <- gets panel_db ;;
  match db with
  | None => ret tt
  | Some (db_path, _) =>
      decision <- detect_change false db_path ;;
      match decision with
      | None => ret tt
      | Some (uuids, false) =>
          namespaces <- managed_namespaces ;;
          for_each namespaces (update_file_only uuids)
      | Some (uuids, true) =>
          namespaces <- managed_namespaces ;;
          for_each namespaces (sync_namespace uuids)
      end
  end.

(** Lines 2412-2442 of [create_setup]: the start of the proxy in the new
    namespace, after the state record was saved. *)
Definition start_xray_after_create (port : Z) (ns_name : string) : M provisioning :=
  have_xray <- call_ensure_xray_binary ;;
  if negb have_xray then
    _ <- input ;;
    ret XrayUnavailable
  else
    (* kill existing Xray on port *)
    res_pids <- run_cmd (Some ns_name) (pid_query port) ;;
    let pids := Py.split_ws (stdout res_pids) in
    match pids with
    | [] => ret tt
    | _ => sh_in ns_name ("kill " +:+ Py.join " " pids +:+ " 2>/dev/null || true")
    end ;;
    refresh_uuids_interactive ;;
    (* Ensure UUID watcher is running in background after setup *)
    config <- gets (fun m => load_config (files m)) ;;
    (if json_truthy (config_get "panel_type" config)
        && json_truthy (config_get "panel_db_path" config)
     then _ <- start_background_uuid_watcher ;; ret tt
     else ret tt) ;;
    _ <- input ;;
    ret Provisioned.

(** [create_setup], from the port and configuration path its prompts
    return. *)
Definition create_setup (port : Z) (wg_config : string) : M provisioning :=
  let t := create_topology port in
  let subnet_octet := t_octet t in
  let ns_name := t_ns_name t in
  let veth_host := t_veth_host t in
  let veth_ns := t_veth_ns t in
  let host_ip := t_host_ip t in
  let ns_ip := t_ns_ip t in
  let subnet := t_subnet t in
  (* cleanup existing *)
  sh (netns_delete ns_name) ;;
  sh (link_delete veth_host) ;;
  sh (dnat_rule "-D" "tcp" port ns_ip +:+ QUIET) ;;
  sh (dnat_rule "-D" "udp" port ns_ip +:+ QUIET) ;;
  sh (masquerade_rule "-D" subnet veth_host +:+ QUIET) ;;
  for_each ["tcp"; "udp"] (fun proto =>
    sh (forward_in_rule "-D FORWARD" proto ns_ip port +:+ QUIET) ;;
    sh (forward_out_rule "-D FORWARD" proto ns_ip +:+ QUIET)) ;;
  (* resolve endpoint *)
  resolved <- resolve_endpoint_ip wg_config ;;
  let endpoint_ip := resolved.2 in
  if Py.isempty endpoint_ip then ret EndpointResolutionFailed
  else
    (* namespace, with one retry after a delete *)
    added <- run_cmd None (netns_add ns_name) ;;
    created <-
      (if returncode added =? 0 then ret true
       else
         sh (netns_delete ns_name) ;;
         again <- run_cmd None (netns_add ns_name) ;;
         ret (returncode again =? 0)) ;;
    if negb created then ret NamespaceCreateFailed
    else
      sh (link_delete veth_host) ;;
      veth <- run_cmd None (veth_add veth_host veth_ns) ;;
      if negb (returncode veth =? 0) then
        sh (netns_delete ns_name) ;;
        ret LinkCreateFailed
      else
        configure_veth ns_name veth_host veth_ns host_ip ns_ip ;;
        wg_name <- derive_wg_name port ;;
        wg_address <- read_wg_address wg_config ;;
        (* cleanup existing WG *)
        sh ("ip netns exec " +:+ Py.quote ns_name +:+ " ip link delete "
            +:+ Py.quote wg_name +:+ QUIET) ;;
        sh (link_delete wg_name) ;;
        wg <- run_cmd None (wg_add wg_name) ;;
        if negb (returncode wg =? 0) then
          sh (link_delete veth_host) ;;
          sh (netns_delete ns_name) ;;
          ret TunnelInterfaceCreateFailed
        else
          conf <- run_cmd None (wg_setconf wg_config wg_name) ;;
          if negb (returncode conf =? 0) then
            sh (link_delete wg_name) ;;
            sh (link_delete veth_host) ;;
            sh (netns_delete ns_name) ;;
            ret TunnelConfigInvalid
          else
            install_tunnel_and_rules port subnet_octet ns_name veth_host veth_ns
              host_ip ns_ip subnet wg_name wg_address endpoint_ip ;;
            (* Save setup state for auto-restore after reboot *)
            save_state port wg_config ;;
            (* Auto-start Xray *)
            start_xray_after_create port ns_name.
End Interactive.

(** [restore_setup]: [true] when the tunnel is there afterwards. *)
Definition restore_setup (port : Z) (wg_config_path : string) : M bool :=
  let t := restore_topology port in
  let ns_name := t_ns_name t in
  (* Check if namespace already exists *)
  listing <- run_cmd None NETNS_LIST ;;
  let ns_list := Py.split_ws (stdout listing) in
  if Py.mem ns_name ns_list then ret true
  else
    let subnet_octet := t_octet t in
    let veth_host := t_veth_host t in
    let veth_ns := t_veth_ns t in
    let host_ip := t_host_ip t in
    let ns_ip := t_ns_ip t in
    let subnet := t_subnet t in
    resolved <- resolve_endpoint_ip wg_config_path ;;
    let endpoint_ip := resolved.2 in
    if Py.isempty endpoint_ip then ret false
    else
      added <- run_cmd None (netns_add ns_name) ;;
      if negb (returncode added =? 0) then ret false
      else
        sh (link_delete veth_host) ;;
        veth <- run_cmd None (veth_add veth_host veth_ns) ;;
        if negb (returncode veth =? 0) then
          sh (netns_delete ns_name) ;;
          ret false
        else
          configure_veth ns_name veth_host veth_ns host_ip ns_ip ;;
          wg_name <- derive_wg_name port ;;
          wg_address <- read_wg_address wg_config_path ;;
          sh ("ip netns exec " +:+ Py.quote ns_name +:+ " ip link delete "
              +:+ Py.quote wg_name +:+ QUIET) ;;
          sh (link_delete wg_name) ;;
          wg <- run_cmd None (wg_add wg_name) ;;
          if negb (returncode wg =? 0) then
            sh (link_delete veth_host) ;;
            sh (netns_delete ns_name) ;;
            ret false
          else
            conf <- run_cmd None (wg_setconf wg_config_path wg_name) ;;
            if negb (returncode conf =? 0) then
              sh (link_delete wg_name) ;;
              sh (link_delete veth_host) ;;
              sh (netns_delete ns_name) ;;
              ret false
            else
              install_tunnel_and_rules port subnet_octet ns_name veth_host veth_ns
                host_ip ns_ip subnet wg_name wg_address endpoint_ip ;;
              (* Start Xray - force restart to ensure it starts after restore *)
              have_xray <- call_ensure_xray_binary ;;
              (if have_xray then refresh_uuids_for_all_namespaces true else ret tt) ;;
              ret true.

Definition log_rule (chain proto selector prefix : string) (port : Z) : string :=
  "iptables " +:+ chain +:+ " -p " +:+ proto +:+ " " +:+ selector
  +:+ " -j LOG --log-prefix '[" +:+ prefix +:+ "-" +:+ pretty port +:+ "] ' --log-level 4"
  +:+ QUIET.

(** [delete_setup(port)] for a given port. *)
Definition delete_setup (port : Z) : M unit :=
  listing <- run_cmd None NETNS_LIST ;;
  let ns_list := Py.split_ws (stdout listing) in
  let t := delete_topology port ns_list in
  let ns_ip := c_ns_ip t in
  (if namespace_exists port ns_list then sh (netns_delete (c_ns_name t)) else ret tt) ;;
  sh (link_delete (c_veth_host t)) ;;
  (* iptables cleanup *)
  for_each ["tcp"; "udp"] (fun proto => sh (dnat_rule "-D" proto port ns_ip +:+ QUIET)) ;;
  sh (masquerade_rule "-D" (c_subnet t) (c_veth_host t) +:+ QUIET) ;;
  for_each ["tcp"; "udp"] (fun proto =>
    sh (forward_in_rule "-D FORWARD" proto ns_ip port +:+ QUIET) ;;
    sh (forward_out_rule "-D FORWARD" proto ns_ip +:+ QUIET)) ;;
  (* LOG rules cleanup *)
  for_each ["tcp"; "udp"] (fun proto =>
    sh (log_rule "-t nat -D PREROUTING" proto ("--dport " +:+ pretty port) "DNAT" port)) ;;
  for_each ["tcp"; "udp"] (fun proto =>
    sh (log_rule "-D FORWARD" proto
          ("-d " +:+ ns_ip +:+ "/32 --dport " +:+ pretty port) "FWD" port) ;;
    sh (log_rule "-D FORWARD" proto ("-s " +:+ ns_ip +:+ "/32") "RET" port)) ;;
  (* Remove saved state *)
  modify (fun m => set_files (delete_setup_state port (files m)) m).

(** ** Restore orchestrator *)

(** [find_wg_config_for_port] *)
Definition conf_with_port (port : Z) (dir : string) (fs : filesystem) : option string :=
  match filter (fun filename =>
                  Py.endswith ".conf" filename && Py.contains (pretty port) filename)
               (listdir dir fs) with
  | filename :: _ => Some (Py.path_join dir filename)
  | [] => None
  end.

Definition find_wg_config_for_port (port : Z) (fs : filesystem) : option string :=
  let possible_configs :=
    [ "/root/wg-" +:+ pretty port +:+ ".conf";
      "/root/wg" +:+ pretty port +:+ ".conf";
      "/root/ns-" +:+ pretty port +:+ ".conf";
      "/etc/wireguard/wg-" +:+ pretty port +:+ ".conf";
      "/etc/wireguard/wg" +:+ pretty port +:+ ".conf";
      "/root/.config/wireguard/wg-" +:+ pretty port +:+ ".conf" ] in
  match List.find (isfile_in fs) possible_configs with
  | Some config_path => Some config_path
  | None =>
      match conf_with_port port "/root" fs with
      | Some config_path => Some config_path
      | None => conf_with_port port "/etc/wireguard" fs
      end
  end.

(** [re.search(r'(\d+)', filename)]: the first maximal run of digits. *)
Fixpoint take_digits (s : string) : string :=
  match s with
  | EmptyString => EmptyString
  | String c s' => if Py.is_ascii_digit c then String c (take_digits s') else EmptyString
  end.
Fixpoint first_digits (s : string) : option string :=
  match s with
  | EmptyString => None
  | String c s' => if Py.is_ascii_digit c then Some (take_digits s) else first_digits s'
  end.

(** [scan_wg_config_files] *)
Definition scan_dir (fs : filesystem) (search_dir : string) : list (Z * string) :=
  omap (fun filename =>
          if negb (Py.endswith ".conf" filename) then None
          else
            let config_path := Py.path_join search_dir filename in
            match first_digits filename, fs !! config_path with
            | Some digits, Some content =>
                match Py.int digits with
                | Some port =>
                    if Py.contains "[Interface]" content || Py.contains "PrivateKey" content
                    then Some (port, config_path) else None
                | None => None
                end
            | _, _ => None
            end)
       (listdir search_dir fs).

Definition scan_wg_config_files (fs : filesystem) : list (Z * string) :=
  (scan_dir fs "/root" ++ scan_dir fs "/etc/wireguard")%list.

(** [detect_existing_tunnels] *)
Fixpoint detect_in_namespaces (namespaces : list string) : M (list (Z * string)) :=
  match namespaces with
  | [] => ret []
  | ns_name :: rest =>
      match Py.split "-"%char ns_name with
      | _ :: digits :: _ =>
          match Py.int digits with
          | None => detect_in_namespaces rest
          | Some port =>
              res_ip <- run_cmd (Some ns_name) NS_ADDR_QUERY ;;
              let ns_ip := Py.strip (stdout res_ip) in
              if Py.isempty ns_ip then detect_in_namespaces rest
              else
                found <- gets (fun m => find_wg_config_for_port port (files m)) ;;
                let wg_config_path := match found with Some p => p | None => "" end in
                more <- detect_in_namespaces rest ;;
                ret ((port, wg_config_path) :: more)
          end
      | _ => detect_in_namespaces rest
      end
  end.

Definition detect_existing_tunnels : M (list (Z * string)) :=
  namespaces <- managed_namespaces ;;
  tunnels <- detect_in_namespaces namespaces ;;
  match tunnels with
  | [] => gets (fun m => scan_wg_config_files (files m))
  | _ => ret tunnels
  end.

Definition load_states : M (list (Z * string)) :=
  fun m =>
    let '(tunnels, fs) := load_all_setup_states (files m) in
    (Ok tunnels, set_files fs m).

(** The body of the loop of [restore_all_setups] for one record: [true]
    when [restore_setup] ran and reported success. *)
Definition restore_one (tunnel : Z * string) : M bool :=
  let '(port, wg_config_path) := tunnel in
  try_except
    (let ns_name := "ns-" +:+ pretty port in
     listing <- run_cmd None NETNS_LIST ;;
     let ns_list := Py.split_ws (stdout listing) in
     if Py.mem ns_name ns_list then ret false
     else
       present <- isfile wg_config_path ;;
       if Py.isempty wg_config_path || negb present then ret false
       else restore_setup port wg_config_path)
    (fun _ => ret false).

Fixpoint restore_each (tunnels : list (Z * string)) (restored_count : Z) : M Z :=
  match tunnels with
  | [] => ret restored_count
  | tunnel :: rest =>
      ok <- restore_one tunnel ;;
      restore_each rest (if ok then restored_count + 1 else restored_count)
  end.

(** The first part of [restore_all_setups]: the saved records, or, without
    any, the records saved for the tunnels detected. *)
Definition discover_tunnels : M (list (Z * string)) :=
  saved <- load_states ;;
  match saved with
  | [] =>
      detected <- detect_existing_tunnels ;;
      match detected with
      | [] => ret []
      | _ =>
          for_each detected (fun tunnel =>
            let '(port, wg_config_path) := tunnel in
            present <- isfile wg_config_path ;;
            if negb (Py.isempty wg_config_path) && present
            then save_state port wg_config_path else ret tt) ;;
          load_states
      end
  | _ => ret saved
  end.

(** Lines 1010-1019: the resynchronization after the restore loop. *)
Definition resync_after_restore : M unit :=
  modify load_panel_state ;;
  db <- gets panel_db ;;
  match db with
  | Some _ => refresh_uuids_for_all_namespaces true
  | None => ret tt
  end.

(** [restore_all_setups]; the result is the count it prints. *)
Definition restore_all_setups : M Z :=
  tunnels <- discover_tunnels ;;
  match tunnels with
  | [] => ret 0
  | _ =>
      restored_count <- restore_each tunnels 0 ;;
      resync_after_restore ;;
      ret restored_count
  end.

(** ** Background watcher *)

(** [refresh_uuids_for_all_namespaces_noninteractive]: one tick. *)
Definition refresh_uuids_for_all_namespaces_noninteractive : M unit :=
  path <- gets PANEL_DB_PATH ;;
  match path with
  | Some p => if Py.isempty p then modify load_panel_state else ret tt
  | None => modify load_panel_state
  end ;;
  db <- gets panel_db ;;
  match db with
  | None => ret tt
  | Some _ =>
      try_except (refresh_uuids_for_all_namespaces false) (fun _ => ret tt)
  end.

Inductive loop_status :=
| Exited
| Running (consecutive_errors : Z).

(** The loop of [start_uuid_watcher], run for [fuel] iterations:
    [Running] when it is still going after them, [Exited] when it left
    through [break]. *)
Fixpoint watcher_loop (tick : M unit) (interval_seconds : Z) (fuel : nat)
    (consecutive_errors : Z) (m : machine) : loop_status * machine :=
  match fuel with
  | O => (Running consecutive_errors, m)
  | S fuel' =>
      match tick m with
      | (Ok _, m1) =>
          watcher_loop tick interval_seconds fuel' 0 (log (Sleep interval_seconds) m1)
      | (Raise KeyboardInterrupt, m1) => (Exited, m1)
      | (Raise _, m1) =>
          let consecutive_errors := consecutive_errors + 1 in
          if consecutive_errors >=? 10
          then watcher_loop tick interval_seconds fuel' 0
                 (log (Sleep (interval_seconds * 2)) m1)
          else watcher_loop tick interval_seconds fuel' consecutive_errors
                 (log (Sleep interval_seconds) m1)
      end
  end.

Definition uuid_watcher_loop (interval_seconds : Z) (fuel : nat) (m : machine)
  : loop_status * machine :=
  watcher_loop refresh_uuids_for_all_namespaces_noninteractive interval_seconds fuel 0 m.

End Program.

Local Open Scope list_scope.

(** ** Predicates of the statements *)

(** A non-empty string without white space (line ends are white space). *)
Definition plain_id (u : string) : Prop :=
  u <> "" /\ Py.all_chars (fun c => negb (Py.isspace c)) u = true.

(** ** Concrete platforms and states for the examples *)

Definition ok_process (out : string) : completed_process :=
  {| returncode := 0; stdout := out |}.

(** A platform whose commands all succeed with no output, whose digest is
    the text itself and whose JSON decoder knows no text. *)
Definition quiet_platform : platform :=
  {| World := unit;
     shell := fun _ _ w => (ok_process "", w);
     ensure_xray_binary := fun w => (Some true, w);
     render_xray_config := fun _ _ => "";
     md5_hexdigest := fun text => text;
     json_loads := fun _ => None |}.

(** The identifier a value of [users.uuid] stands for: its stripped text
    when that is not empty. *)
Definition user_uuid (val : sqlval) : option string :=
  match val with
  | SqlText s => if Py.isempty (Py.strip s) then None else Some (Py.strip s)
  | _ => None
  end.

(** The JSON text [{"id": "<uuid>"}]. *)
Definition settings_text (uuid : string) : string :=
  "{" +:+ String Py.DQUOTE "id" +:+ String Py.DQUOTE ": "
  +:+ String Py.DQUOTE uuid +:+ String Py.DQUOTE "}".

(** [json.loads] on the one text the examples decode. *)
Definition panel_json_loads (text : string) : option json :=
  if String.eqb text (settings_text "u1")
  then Some (JDict [("id", JString "u1")]) else None.

Definition panel_platform : platform :=
  {| World := unit;
     shell := fun _ _ w => (ok_process "", w);
     ensure_xray_binary := fun w => (Some true, w);
     render_xray_config := fun _ _ => "";
     md5_hexdigest := fun text => text;
     json_loads := panel_json_loads |}.

(** A panel database with both schemas: [proxies] rows and [users] rows. *)
Definition panel_db_of (proxies : list (sqlval * sqlval)) (users : list sqlval)
    (mtime : Z) : sqlite_db :=
  {| db_tables := Some ["users"; "proxies"];
     db_proxies_columns := Some ["id"; "user_id"; "type"; "settings"];
     db_proxies_vless := Some proxies;
     db_users_columns := Some ["id"; "username"; "uuid"];
     db_users_uuid := Some users;
     db_raw_uuids := [];
     db_mtime := mtime |}.

(** The identifier [u1] in one proxies row and in one users row. *)
Definition db_shared_id : sqlite_db :=
  panel_db_of [(SqlText (settings_text "u1"), SqlInt 1)] [SqlText "u1"] 1700000000.

(** The identifier [u1] in two proxies rows. *)
Definition db_repeated_proxy : sqlite_db :=
  panel_db_of [(SqlText (settings_text "u1"), SqlInt 1);
               (SqlText (settings_text "u1"), SqlInt 2)] [] 1700000000.

(** The hash the change detector takes as the previous one: the one in
    memory, else the stored one, an empty stored text standing for none. *)
Definition stored_hash (fs : filesystem) : option string :=
  match load_last_uuid_hash fs with
  | Some h => if Py.isempty h then None else Some h
  | None => None
  end.

Definition prior_hash {P : platform} (m : machine P) : option string :=
  match LAST_UUID_HASH P m with
  | Some h => Some h
  | None => stored_hash (files P m)
  end.

(** A process that has just started: no globals set, nothing called. *)
Definition boot (P : platform) (w : World P) (fs : filesystem)
    (databases : gmap string sqlite_db) : machine P :=
  {| world := w; files := fs; dbs := databases;
     PANEL_DB_PATH := None; PANEL_PANEL_NAME := None;
     LAST_UUID_COUNT := None; LAST_UUID_HASH := None; trace := [] |}.

Definition MARZBAN_DB : string := "/var/lib/marzban/db.sqlite3".

(** One user, and a database file whose modification time is the epoch. *)
Definition machine_epoch_mtime : machine panel_platform :=
  boot panel_platform tt ∅ {[ MARZBAN_DB := panel_db_of [] [SqlText "u1"] 0 ]}.

(** The same with a modification time after the epoch. *)
Definition machine_later_mtime : machine panel_platform :=
  boot panel_platform tt ∅ {[ MARZBAN_DB := panel_db_of [] [SqlText "u1"] 1700000000 ]}.

(** ** Behaviour of computations *)

(** A computation is orderly when it never raises [KeyboardInterrupt] and
    only appends to the record of calls. *)
Definition orderly {P : platform} {A : Type} (c : M P A) : Prop :=
  forall m,
    (c m).1 <> Raise KeyboardInterrupt
    /\ exists t, trace P (c m).2 = trace P m ++ t.

(** A state function keeps the record of calls. *)
Definition keeps_trace {P : platform} (f : machine P -> machine P) : Prop :=
  forall m, trace P (f m) = trace P m.

(** [not PANEL_DB_PATH] *)
Definition no_db_path {P : platform} (m : machine P) : bool :=
  match PANEL_DB_PATH P m with
  | Some p => Py.isempty p
  | None => true
  end.

(** The state in which a tick looks for the credential source: after
    [load_panel_state] when no path is set, as it is otherwise. *)
Definition after_panel_load {P : platform} (m : machine P) : machine P :=
  if no_db_path m then load_panel_state P m else m.

(** A tick that always fails with [ValueError]. *)
Definition failing_tick {P : platform} : M P unit := raise P ValueError.

(** A machine with nothing configured. *)
Definition bare_machine : machine quiet_platform := boot quiet_platform tt ∅ ∅.

(** A platform on which [ip netns list] prints [listing] and every other
    command succeeds without output, but those whose text is in [failing],
    which exit with status 1. *)
Definition scripted_platform (listing : string) (failing : list string) : platform :=
  {| World := unit;
     shell := fun _ cmd w =>
       if String.eqb cmd NETNS_LIST then (ok_process listing, w)
       else if Py.mem cmd failing then ({| returncode := 1; stdout := "" |}, w)
       else (ok_process "", w);
     ensure_xray_binary := fun w => (Some true, w);
     render_xray_config := fun _ _ => "";
     md5_hexdigest := fun text => text;
     json_loads := fun _ => None |}.

(** The namespace of port 51000 exists. *)
Definition platform_ns_51000 : platform :=
  scripted_platform ("ns-51000" +:+ String Py.LF "") [].

Definition machine_ns_51000 : machine platform_ns_51000 :=
  boot platform_ns_51000 tt ∅ ∅.

(** ** Running commands *)

(** The state after [run_cmd(cmd, ns=ns)]. *)
Definition after_run {P : platform} (ns : option string) (cmd : string)
    (m : machine P) : machine P :=
  set_world P (shell P ns cmd (world P m)).2 (log P (Run ns cmd) m).

(** The rule removals of [delete_setup], in the order it issues them. *)
Definition rule_removals (port : Z) (t : cleanup_target) : list string :=
  let ns_ip := c_ns_ip t in
  [ dnat_rule "-D" "tcp" port ns_ip +:+ QUIET;
    dnat_rule "-D" "udp" port ns_ip +:+ QUIET;
    masquerade_rule "-D" (c_subnet t) (c_veth_host t) +:+ QUIET;
    forward_in_rule "-D FORWARD" "tcp" ns_ip port +:+ QUIET;
    forward_out_rule "-D FORWARD" "tcp" ns_ip +:+ QUIET;
    forward_in_rule "-D FORWARD" "udp" ns_ip port +:+ QUIET;
    forward_out_rule "-D FORWARD" "udp" ns_ip +:+ QUIET;
    log_rule "-t nat -D PREROUTING" "tcp" ("--dport " +:+ pretty port) "DNAT" port;
    log_rule "-t nat -D PREROUTING" "udp" ("--dport " +:+ pretty port) "DNAT" port;
    log_rule "-D FORWARD" "tcp" ("-d " +:+ ns_ip +:+ "/32 --dport " +:+ pretty port) "FWD" port;
    log_rule "-D FORWARD" "tcp" ("-s " +:+ ns_ip +:+ "/32") "RET" port;
    log_rule "-D FORWARD" "udp" ("-d " +:+ ns_ip +:+ "/32 --dport " +:+ pretty port) "FWD" port;
    log_rule "-D FORWARD" "udp" ("-s " +:+ ns_ip +:+ "/32") "RET" port ].

(** The state store is consistent when every record is in the file named
    after the port it holds, as [save_setup_state] writes it. *)
Definition store_consistent (fs : filesystem) : Prop :=
  forall name content port path,
    fs !! Py.path_join SETUP_STATE_DIR name = Some content ->
    parse_state_record content = Some (port, path) ->
    name = state_file_name port.

(** No namespace listed, and one saved tunnel. *)
Definition platform_no_ns : platform := scripted_platform "" [].

Definition WG_CONF : string := "/root/wg-51000.conf".
Definition WG_CONF_TEXT : string :=
  "[Interface]" +:+ String Py.LF ""
  +:+ "PrivateKey = abc" +:+ String Py.LF ""
  +:+ "Address = 10.0.0.2/32" +:+ String Py.LF ""
  +:+ "[Peer]" +:+ String Py.LF ""
  +:+ "Endpoint = 192.0.2.1:51820" +:+ String Py.LF "".

Definition saved_51000 : filesystem :=
  save_setup_state 51000 WG_CONF {[ WG_CONF := WG_CONF_TEXT ]}.

Definition machine_saved_51000 : machine platform_no_ns :=
  boot platform_no_ns tt saved_51000 ∅.

(** A computation keeps the files. *)
Definition keeps_files {P : platform} {A : Type} (c : M P A) : Prop :=
  forall m, files P (c m).2 = files P m.

(** A platform on which the first resolver answers [192.0.2.1], the
    commands whose text is in [failing] exit with status 1, and every other
    command succeeds without output. *)
Definition resolving_platform (failing : list string) : platform :=
  {| World := unit;
     shell := fun _ cmd w =>
       if Py.startswith "getent ahosts " cmd
       then (ok_process ("192.0.2.1" +:+ String Py.LF ""), w)
       else if Py.mem cmd failing then ({| returncode := 1; stdout := "" |}, w)
       else (ok_process "", w);
     ensure_xray_binary := fun w => (Some true, w);
     render_xray_config := fun _ _ => "";
     md5_hexdigest := fun text => text;
     json_loads := fun _ => None |}.

(** The tunnel configuration is there and nothing else. *)
Definition machine_with_conf (P : platform) (w : World P) : machine P :=
  boot P w {[ WG_CONF := WG_CONF_TEXT ]} ∅.

(** The creation of the link pair of port 51000 fails. *)
Definition VETH_ADD_51000 : string := veth_add "veth-51000" "vpeer-51000".
Definition platform_no_veth : platform := resolving_platform [VETH_ADD_51000].


(** The file [create_setup] writes for the name servers of the namespace. *)
Definition resolv_conf (port : Z) : string :=
  Py.path_join ("/etc/netns/" +:+ ns_name_of port) "resolv.conf".

(** One saved tunnel, and a panel recorded in the panel state file whose
    database is there. *)
Definition PANEL_STATE_TEXT : string :=
  "marzban" +:+ String Py.LF "" +:+ MARZBAN_DB +:+ String Py.LF "".

Definition machine_saved_with_panel : machine platform_no_ns :=
  boot platform_no_ns tt (<[PANEL_STATE_FILE := PANEL_STATE_TEXT]> saved_51000)
       {[ MARZBAN_DB := panel_db_of [] [SqlText "u1"] 1700000000 ]}.

(** A computation records only calls of a kind, behind those recorded
    before. *)
Definition emits {P : platform} {A : Type} (Q : event -> Prop) (c : M P A) : Prop :=
  forall m, exists t, trace P (c m).2 = trace P m ++ t /\ Forall Q t.

(** The calls that only ask: the listing of the namespaces, the address of
    a namespace, the port forwarded to an address. *)
Definition is_query (ev : event) : Prop :=
  ev = Run None NETNS_LIST
  \/ (exists ns, ev = Run (Some ns) NS_ADDR_QUERY)
  \/ (exists ns_ip, ev = Run None (port_query ns_ip)).

(** A panel whose database is there, with nothing stored yet. *)
Definition machine_panel (db : sqlite_db) : machine panel_platform :=
  set_panel panel_platform (Some "marzban") (Some MARZBAN_DB)
    (boot panel_platform tt ∅ {[ MARZBAN_DB := db ]}).

(** The commands [create_setup] starts with: what a previous setup of the
    port may have left is removed. *)
Definition create_cleanup (port : Z) : list string :=
  let t := create_topology port in
  [ netns_delete (t_ns_name t);
    link_delete (t_veth_host t);
    dnat_rule "-D" "tcp" port (t_ns_ip t) +:+ QUIET;
    dnat_rule "-D" "udp" port (t_ns_ip t) +:+ QUIET;
    masquerade_rule "-D" (t_subnet t) (t_veth_host t) +:+ QUIET;
    forward_in_rule "-D FORWARD" "tcp" (t_ns_ip t) port +:+ QUIET;
    forward_out_rule "-D FORWARD" "tcp" (t_ns_ip t) +:+ QUIET;
    forward_in_rule "-D FORWARD" "udp" (t_ns_ip t) port +:+ QUIET;
    forward_out_rule "-D FORWARD" "udp" (t_ns_ip t) +:+ QUIET ].

(** A call of one of the three resolvers. *)
Definition is_resolver (ev : event) : Prop :=
  exists cmd,
    ev = Run None cmd
    /\ (Py.startswith "getent ahosts " cmd = true
        \/ Py.startswith "host " cmd = true
        \/ Py.startswith "dig +short " cmd = true).

(** Namespace creation fails, also at the second attempt. *)
Definition platform_no_netns : platform := resolving_platform [netns_add "ns-51000"].

(** The body of the restore loop has run on each tunnel in turn, from the
    first state to the last: every run has listed the namespaces first and
    has given an answer, [true] for a tunnel restored. *)
Inductive visits {P : platform}
  : list (Z * string) -> machine P -> list bool -> machine P -> Prop :=
| visits_nil (m : machine P) : visits [] m [] m
| visits_cons (tunnel : Z * string) (rest : list (Z * string)) (m m1 m' : machine P)
    (ok : bool) (oks : list bool) (t : list event) :
    restore_one P tunnel m = (Ok ok, m1) ->
    trace P m1 = trace P m ++ Run None NETNS_LIST :: t ->
    visits rest m1 oks m' ->
    visits (tunnel :: rest) m (ok :: oks) m'.

(** A host command that exits with a status other than 0 whatever the state
    of the system is. *)
Definition never_succeeds (P : platform) (cmd : string) : Prop :=
  forall w, returncode (shell P None cmd w).1 <> 0.

(** Every answer a computation gives is a [Q]. *)
Definition answers {P : platform} {A : Type} (Q : A -> Prop) (c : M P A) : Prop :=
  forall m, match (c m).1 with Ok a => Q a | Raise _ => True end.

(** The user presses Enter at a prompt, skips the choice of the panel, and
    the watcher starts. *)
Definition input_enter (P : platform) : M P string := ret P "".
Definition choose_no_panel (P : platform) : M P (list string) := ret P [].
Definition watcher_starts (P : platform) : M P bool := ret P true.



(** No resolver gives an answer, whatever the state of the system is. *)
Definition no_resolver_answers (P : platform) : Prop :=
  forall cmd w,
    is_resolver (Run None cmd) ->
    Py.isempty (Py.strip (stdout (shell P None cmd w).1)) = true.

(** A tunnel configuration whose address ends with a stray quote. *)
Definition WG_CONF_STRAY_QUOTE : string :=
  "[Interface]" +:+ String Py.LF ""
  +:+ "Address = 10.0.0.2/32'" +:+ String Py.LF ""
  +:+ "[Peer]" +:+ String Py.LF ""
  +:+ "Endpoint = 192.0.2.1:51820" +:+ String Py.LF "".

(** A second tunnel, and a configuration whose address line has no [=]:
    reading it raises [IndexError]. *)
Definition WG_CONF_51001 : string := "/root/wg-51001.conf".
Definition WG_CONF_NO_EQUALS : string :=
  "[Interface]" +:+ String Py.LF ""
  +:+ "Address 10.0.0.2/32" +:+ String Py.LF ""
  +:+ "[Peer]" +:+ String Py.LF ""
  +:+ "Endpoint = 192.0.2.1:51820" +:+ String Py.LF "".

Definition machine_two_tunnels : machine (resolving_platform []) :=
  boot (resolving_platform []) tt
    (<[WG_CONF := WG_CONF_NO_EQUALS]> {[ WG_CONF_51001 := WG_CONF_TEXT ]}) ∅.


(** A text without quotes and backslashes. *)
Definition plain_text (s : string) : bool :=
  Py.all_chars (fun c => negb (Ascii.eqb c Py.BACKSLASH || Ascii.eqb c Py.SQUOTE
                               || Ascii.eqb c Py.DQUOTE)) s.
(* ===================================================================== *)
(** * Properties *)


(** ** Topology allocator *)

Lemma create_octet_range (p : Z) : 2 <= t_octet (create_topology p) <= 251.
Proof.
  cbn [create_topology t_octet].
  pose proof (Z.mod_pos_bound p 250 ltac:(lia)). lia.
Qed.

Lemma create_octet_period (p : Z) :
  t_octet (create_topology (p + 250)) = t_octet (create_topology p).
Proof.
  cbn [create_topology t_octet].
  replace (p + 250) with (p + 1 * 250) by lia.
  now rewrite Z.mod_add by lia.
Qed.

(** The name derived for a port is never the legacy name. *)
Lemma ns_name_not_legacy (p : Z) : String.eqb ("ns-" +:+ pretty p) "nsxray" = false.
Proof. reflexivity. Qed.

(** [delete_setup] works on the legacy namespace exactly when the port is
    9349, [nsxray] is listed and [ns-9349] is not; then its link and
    addresses are the fixed ones, otherwise those of [create_setup]. *)
Lemma delete_topology_cases (p : Z) (ns_list : list string) :
  delete_topology p ns_list =
    if negb (Py.mem (t_ns_name (create_topology p)) ns_list)
       && (p =? 9349) && Py.mem "nsxray" ns_list
    then {| c_ns_name := "nsxray"; c_veth_host := "veth-host";
            c_ns_ip := "10.200.200.2"; c_subnet := "10.200.200.0/24";
            c_octet := None |}
    else {| c_ns_name := t_ns_name (create_topology p);
            c_veth_host := t_veth_host (create_topology p);
            c_ns_ip := t_ns_ip (create_topology p);
            c_subnet := t_subnet (create_topology p);
            c_octet := Some (t_octet (create_topology p)) |}.
Proof.
  unfold delete_topology. cbn [create_topology t_ns_name t_veth_host t_ns_ip t_subnet t_octet].
  destruct (Py.mem ("ns-" +:+ pretty p) ns_list); cbn [negb andb].
  - now rewrite ns_name_not_legacy.
  - destruct ((p =? 9349) && Py.mem "nsxray" ns_list); [reflexivity|].
    now rewrite ns_name_not_legacy.
Qed.

(** C4, as the code has it.  For every port [p] in [1,65535] the octet
    [create_setup] derives is [(p mod 250) + 2], it lies in [2,251], and it
    is the octet of [p + 250] when that is a port too.  [restore_setup]
    derives the same names and addresses from it, [debug_setup] the same
    octet and host link, [enable_realtime_logging] the same octet and
    address.  [delete_setup] derives the same namespace, link, address and
    subnet with that octet unless the port is 9349 and [nsxray] is listed
    and [ns-9349] is not: exactly then it derives no octet and works on
    [nsxray], [veth-host], 10.200.200.2 and 10.200.200.0/24. *)
Theorem subnet_octet_derivation (p : Z) (ns_list : list string) :
  1 <= p <= 65535 ->
  let created := create_topology p in
  let octet := t_octet created in
  let legacy :=
    negb (Py.mem (t_ns_name created) ns_list) && (p =? 9349) && Py.mem "nsxray" ns_list in
  octet = p mod 250 + 2
  /\ 2 <= octet <= 251
  /\ (p + 250 <= 65535 -> t_octet (create_topology (p + 250)) = octet)
  /\ restore_topology p = created
  /\ debug_topology p = (octet, t_veth_host created)
  /\ logging_topology p = (octet, t_ns_ip created)
  /\ delete_topology p ns_list =
       (if legacy
        then {| c_ns_name := "nsxray"; c_veth_host := "veth-host";
                c_ns_ip := "10.200.200.2"; c_subnet := "10.200.200.0/24";
                c_octet := None |}
        else {| c_ns_name := t_ns_name created;
                c_veth_host := t_veth_host created;
                c_ns_ip := t_ns_ip created;
                c_subnet := t_subnet created;
                c_octet := Some octet |}).
Proof.
  intros _ created octet legacy.
  split; [reflexivity|].
  split; [apply create_octet_range|].
  split; [intros _; apply create_octet_period|].
  split; [reflexivity|]. split; [reflexivity|]. split; [reflexivity|].
  apply delete_topology_cases.
Qed.

Lemma subnet_octet_derivation_witness :
  1 <= 250 <= 65535
  /\ t_octet (create_topology 250) = 2
  /\ t_octet (create_topology (250 + 250)) = t_octet (create_topology 250)
  /\ c_octet (delete_topology 250 ["ns-250"]) = Some 2
  /\ c_ns_ip (delete_topology 250 ["nsxray"]) = t_ns_ip (create_topology 250).
Proof.
  pose proof (subnet_octet_derivation 250 ["ns-250"] ltac:(lia))
    as (Hoct & _ & Hper & _ & _ & _ & Hdel).
  pose proof (subnet_octet_derivation 250 ["nsxray"] ltac:(lia))
    as (_ & _ & _ & _ & _ & _ & Hother).
  split; [lia|]. split; [exact Hoct|].
  split; [apply Hper; lia|].
  split; [now rewrite Hdel | now rewrite Hother].
Defined.

(** C4 as stated fails for [delete_setup]: for port 9349, with the legacy
    namespace listed and [ns-9349] not, it works on 10.200.200.2 and derives
    no octet, where [create_setup] uses 10.100.101.2 with the octet 101. *)
Lemma delete_legacy_namespace_counterexample :
  c_octet (delete_topology 9349 ["nsxray"]) <> Some (t_octet (create_topology 9349))
  /\ t_octet (create_topology 9349) = 101
  /\ c_ns_ip (delete_topology 9349 ["nsxray"]) = "10.200.200.2"
  /\ t_ns_ip (create_topology 9349) = "10.100.101.2"
  /\ c_ns_ip (delete_topology 9349 ["nsxray"]) <> t_ns_ip (create_topology 9349).
Proof.
  vm_compute. repeat split; discriminate.
Qed.

(** ** Python strings *)

Lemma app_cons (c : ascii) (s t : string) : String c s +:+ t = String c (s +:+ t).
Proof. reflexivity. Qed.

Lemma app_empty_l (t : string) : "" +:+ t = t.
Proof. reflexivity. Qed.

Lemma all_chars_app (p : ascii -> bool) (s t : string) :
  Py.all_chars p (s +:+ t) = Py.all_chars p s && Py.all_chars p t.
Proof.
  induction s as [|c s IH]; [reflexivity|].
  rewrite app_cons. cbn. rewrite IH. now rewrite andb_assoc.
Qed.

Lemma all_chars_impl (p q : ascii -> bool) (s : string) :
  (forall c, p c = true -> q c = true) ->
  Py.all_chars p s = true -> Py.all_chars q s = true.
Proof.
  intros Hpq. induction s as [|c s IH]; [reflexivity|]. cbn.
  intros [Hc Hs]%andb_true_iff. rewrite (Hpq c Hc). cbn. auto.
Qed.

Lemma not_space_not_LF (c : ascii) :
  negb (Py.isspace c) = true -> negb (Ascii.eqb c Py.LF) = true.
Proof.
  destruct (Ascii.eqb_spec c Py.LF) as [->|]; [vm_compute; congruence | reflexivity].
Qed.

Lemma not_space_not_CR (c : ascii) :
  negb (Py.isspace c) = true -> negb (Ascii.eqb c Py.CR) = true.
Proof.
  destruct (Ascii.eqb_spec c Py.CR) as [->|]; [vm_compute; congruence | reflexivity].
Qed.

Lemma universal_newlines_id (s : string) :
  Py.all_chars (fun c => negb (Ascii.eqb c Py.CR)) s = true ->
  Py.universal_newlines s = s.
Proof.
  induction s as [|c s IH]; [reflexivity|]. cbn.
  intros [Hc Hs]%andb_true_iff.
  apply negb_true_iff in Hc. rewrite Hc. now rewrite IH.
Qed.

Lemma lines_line (u rest : string) :
  Py.all_chars (fun c => negb (Ascii.eqb c Py.LF)) u = true ->
  Py.lines (u +:+ String Py.LF rest) = (u +:+ String Py.LF "") :: Py.lines rest.
Proof.
  induction u as [|c u IH]; [reflexivity|].
  cbn [Py.all_chars]. intros [Hc Hu]%andb_true_iff.
  apply negb_true_iff in Hc.
  rewrite !app_cons. cbn [Py.lines]. rewrite Hc, (IH Hu). reflexivity.
Qed.

Lemma concat_cons (x : string) (xs : list string) :
  Py.concat (x :: xs) = x +:+ Py.concat xs.
Proof. reflexivity. Qed.

Lemma app_assoc_string (s t u : string) : (s +:+ t) +:+ u = s +:+ (t +:+ u).
Proof.
  induction s as [|c s IH]; [reflexivity|]. rewrite !app_cons. now rewrite IH.
Qed.

Lemma lines_concat (us : list string) :
  Forall (fun u => Py.all_chars (fun c => negb (Ascii.eqb c Py.LF)) u = true) us ->
  Py.lines (Py.concat (map (fun u => u +:+ String Py.LF "") us))
  = map (fun u => u +:+ String Py.LF "") us.
Proof.
  induction 1 as [|u us Hu _ IH]; [reflexivity|].
  cbn [map]. rewrite concat_cons, app_assoc_string, app_cons, app_empty_l.
  rewrite (lines_line _ _ Hu). now rewrite IH.
Qed.

Lemma lstrip_plain (c : ascii) (s : string) :
  Py.isspace c = false -> Py.lstrip (String c s) = String c s.
Proof. intros H. cbn. now rewrite H. Qed.

Lemma rstrip_line (u : string) :
  Py.all_chars (fun c => negb (Py.isspace c)) u = true ->
  Py.rstrip (u +:+ String Py.LF "") = u.
Proof.
  induction u as [|c u IH]; [reflexivity|].
  cbn [Py.all_chars]. intros [Hc Hu]%andb_true_iff.
  apply negb_true_iff in Hc.
  rewrite app_cons. cbn [Py.rstrip]. rewrite (IH Hu), Hc. reflexivity.
Qed.

Lemma strip_line (u : string) :
  Py.all_chars (fun c => negb (Py.isspace c)) u = true ->
  Py.strip (u +:+ String Py.LF "") = u.
Proof.
  intros Hu. unfold Py.strip. destruct u as [|c u]; [reflexivity|].
  pose proof Hu as Hu'. cbn [Py.all_chars] in Hu'.
  apply andb_true_iff in Hu' as [Hc _]. apply negb_true_iff in Hc.
  rewrite app_cons, (lstrip_plain _ _ Hc), <- app_cons.
  now apply rstrip_line.
Qed.

Lemma keep_id_lines (us : list string) :
  Forall plain_id us ->
  map Py.strip
    (filter (fun line => negb (Py.isempty (Py.strip line)))
            (map (fun u => u +:+ String Py.LF "") us)) = us.
Proof.
  induction 1 as [|u us [Hne Hu] _ IH]; [reflexivity|].
  cbn [map]. rewrite filter_cons_True.
  - cbn [map]. now rewrite (strip_line u Hu), IH.
  - rewrite (strip_line u Hu). destruct u; [congruence | exact I].
Qed.

Lemma stripped_lines_of_ids (us : list string) :
  Forall plain_id us ->
  stripped_lines (Py.concat (map (fun u => u +:+ String Py.LF "") us)) = us.
Proof.
  intros Hus. unfold stripped_lines, Py.readlines.
  rewrite universal_newlines_id.
  2:{ induction Hus as [|u us [_ Hu] _ IH]; [reflexivity|].
      cbn [map]. rewrite concat_cons, !all_chars_app, IH.
      rewrite (all_chars_impl _ _ u not_space_not_CR Hu). reflexivity. }
  rewrite lines_concat.
  2:{ eapply Forall_impl; [exact Hus|]. intros u [_ Hu].
      exact (all_chars_impl _ _ u not_space_not_LF Hu). }
  now apply keep_id_lines.
Qed.

(** ** Content hash *)

(** C5: the content hash of two identifier lists that are permutations of
    each other is the same digest, since it is taken of the ascending
    sorted, newline-joined sequence. *)
Theorem get_uuids_hash_permutation (P : platform) (l1 l2 : list string) :
  l1 ≡ₚ l2 -> get_uuids_hash P l1 = get_uuids_hash P l2.
Proof.
  intros Hperm. unfold get_uuids_hash, Py.sorted. do 2 f_equal.
  apply (Sorted_unique String.le).
  - apply Sorted_merge_sort; apply _.
  - apply Sorted_merge_sort; apply _.
  - now rewrite !merge_sort_Permutation.
Qed.

Lemma get_uuids_hash_permutation_witness :
  get_uuids_hash quiet_platform ["a"; "b"] = get_uuids_hash quiet_platform ["b"; "a"].
Proof.
  apply (get_uuids_hash_permutation quiet_platform ["a"; "b"] ["b"; "a"]).
  apply perm_swap.
Defined.

(** ** Per-port credential files *)

Lemma plain_sorted (ids : list string) :
  Forall plain_id ids -> Forall plain_id (Py.sorted ids).
Proof.
  intros H. unfold Py.sorted.
  now rewrite (merge_sort_Permutation String.le ids).
Qed.

(** C10: for identifiers that are non-empty and hold no white space,
    loading the file of a port right after saving it gives the identifiers
    in ascending order, duplicates kept: [sorted(ids)]. *)
Theorem load_after_save_uuids (port : Z) (ids : list string) (fs : filesystem) :
  Forall plain_id ids ->
  load_uuids_from_file port (save_uuids_to_file port ids fs) = Some (Py.sorted ids).
Proof.
  intros Hids. unfold load_uuids_from_file, save_uuids_to_file.
  rewrite lookup_insert_eq. f_equal.
  apply (stripped_lines_of_ids (Py.sorted ids)), plain_sorted, Hids.
Qed.

Lemma load_after_save_uuids_witness :
  load_uuids_from_file 51000 (save_uuids_to_file 51000 ["u2"; "u1"; "u2"] ∅)
  = Some ["u1"; "u2"; "u2"].
Proof.
  rewrite (load_after_save_uuids 51000 ["u2"; "u1"; "u2"] ∅).
  - reflexivity.
  - repeat constructor; discriminate.
Defined.

(** ** Credential source adapter *)

Lemma add_user_spec (uuids : list string) (val : sqlval) :
  add_user uuids val =
    match user_uuid val with
    | Some v => if decide (v ∈ uuids) then uuids else uuids ++ [v]
    | None => uuids
    end.
Proof.
  unfold add_user, user_uuid, Py.mem. destruct val; try reflexivity.
  destruct (Py.isempty (Py.strip s)); cbn; [reflexivity|].
  destruct (decide (Py.strip s ∈ uuids)) as [Hin|Hin].
  - now rewrite bool_decide_eq_true_2.
  - now rewrite bool_decide_eq_false_2.
Qed.

Lemma omap_cons_eq {A B} (f : A -> option B) (x : A) (l : list A) :
  omap f (x :: l) = match f x with Some y => y :: omap f l | None => omap f l end.
Proof. reflexivity. Qed.

Lemma fold_add_user (vals : list sqlval) (acc : list string) :
  exists added,
    fold_left add_user vals acc = acc ++ added
    /\ NoDup added
    /\ forall v, v ∈ added <-> v ∈ omap user_uuid vals /\ v ∉ acc.
Proof.
  revert acc. induction vals as [|val vals IH]; intros acc.
  - exists []. rewrite app_nil_r. split; [reflexivity|]. split; [constructor|].
    intros v. cbn. set_solver.
  - cbn [fold_left]. rewrite add_user_spec, omap_cons_eq.
    destruct (user_uuid val) as [u|]; [destruct (decide (u ∈ acc))|].
    + destruct (IH acc) as (added & -> & Hnd & Hin).
      exists added. split; [reflexivity|]. split; [exact Hnd|].
      intros v. rewrite Hin. set_solver.
    + destruct (IH (acc ++ [u])) as (added & -> & Hnd & Hin).
      exists (u :: added). rewrite <- app_assoc. split; [reflexivity|].
      split.
      * constructor; [|exact Hnd]. rewrite Hin. set_solver.
      * intros v. rewrite elem_of_cons, Hin.
        destruct (decide (v = u)) as [->|]; set_solver.
    + destruct (IH acc) as (added & -> & Hnd & Hin).
      exists added. split; [reflexivity|]. split; [exact Hnd|].
      intros v. rewrite Hin. set_solver.
Qed.

Lemma count_occ_nodup_app (l added : list string) (v : string) :
  NoDup added ->
  (forall x, x ∈ added -> x ∉ l) ->
  count_occ string_dec (l ++ added) v =
    if decide (v ∈ l) then count_occ string_dec l v
    else if decide (v ∈ added) then 1%nat else 0%nat.
Proof.
  intros Hnd Hdisj. rewrite count_occ_app.
  destruct (decide (v ∈ l)) as [Hl|Hl].
  - assert (Hnot : ~ In v added).
    { rewrite <- list_elem_of_In. intros Ha. exact (Hdisj v Ha Hl). }
    apply (count_occ_not_In string_dec) in Hnot. lia.
  - assert (Hnot : ~ In v l) by now rewrite <- list_elem_of_In.
    apply (count_occ_not_In string_dec) in Hnot. rewrite Hnot.
    destruct (decide (v ∈ added)) as [Ha|Ha].
    + apply list_elem_of_In in Ha.
      pose proof (proj1 (NoDup_count_occ string_dec added)
                    (proj1 (NoDup_ListNoDup added) Hnd) v).
      apply (count_occ_In string_dec) in Ha. lia.
    + assert (Hnot' : ~ In v added) by now rewrite <- list_elem_of_In.
      apply (count_occ_not_In string_dec) in Hnot'. lia.
Qed.

(** C1, as the code has it.  For a credential source with both schemas,
    the structured extraction keeps the identifier of every [proxies] row in
    order, repeats included, and then appends an identifier of [users] only
    when it is not yet in the sequence.  So an identifier of the [proxies]
    rows appears as often as it does there, whether [users] has it or not,
    and an identifier that only [users] has appears once. *)
Theorem extract_two_schemas (P : platform) (db : sqlite_db)
    (tables pcols ucols : list string) (rows : list (sqlval * sqlval))
    (vals : list sqlval) :
  db_tables db = Some tables ->
  "proxies" ∈ tables -> "users" ∈ tables ->
  db_proxies_columns db = Some pcols ->
  "settings" ∈ pcols -> "user_id" ∈ pcols ->
  db_proxies_vless db = Some rows ->
  db_users_columns db = Some ucols ->
  "uuid" ∈ ucols ->
  db_users_uuid db = Some vals ->
  let from_proxies := omap (proxy_uuid P) rows in
  let from_users := omap user_uuid vals in
  exists added,
    extract_structured P db = from_proxies ++ added
    /\ NoDup added
    /\ (forall v, v ∈ added <-> v ∈ from_users /\ v ∉ from_proxies)
    /\ (forall v,
         count_occ string_dec (extract_structured P db) v =
           if decide (v ∈ from_proxies) then count_occ string_dec from_proxies v
           else if decide (v ∈ from_users) then 1%nat else 0%nat).
Proof.
  intros Ht Hp Hu Hpc Hs Hi Hr Huc Hc Hv from_proxies from_users.
  unfold extract_structured, Py.mem.
  rewrite Ht, Hpc, Hr, Huc, Hv.
  rewrite !bool_decide_eq_true_2 by assumption. cbn [andb].
  destruct (fold_add_user vals (omap (proxy_uuid P) rows))
    as (added & -> & Hnd & Hin).
  exists added. split; [reflexivity|]. split; [exact Hnd|]. split; [exact Hin|].
  intros v. rewrite count_occ_nodup_app; [|exact Hnd|intros x Hx; now apply Hin in Hx].
  subst from_proxies from_users.
  destruct (decide (v ∈ omap (proxy_uuid P) rows)) as [|Hnp]; [reflexivity|].
  destruct (decide (v ∈ added)) as [Ha|Ha].
  - apply Hin in Ha as [Hfu _]. now rewrite decide_True.
  - rewrite decide_False; [reflexivity|]. intros Hfu. apply Ha, Hin. now split.
Qed.

Lemma extract_two_schemas_witness :
  extract_structured panel_platform db_shared_id = ["u1"]
  /\ count_occ string_dec (extract_structured panel_platform db_shared_id) "u1" = 1%nat.
Proof.
  assert (Hmem : forall (x : string) (l : list string),
             bool_decide (x ∈ l) = true -> x ∈ l)
    by (intros x l; apply bool_decide_eq_true_1).
  destruct (extract_two_schemas panel_platform db_shared_id
              ["users"; "proxies"] ["id"; "user_id"; "type"; "settings"]
              ["id"; "username"; "uuid"]
              [(SqlText (settings_text "u1"), SqlInt 1)] [SqlText "u1"]
              eq_refl
              (Hmem "proxies" ["users"; "proxies"] eq_refl)
              (Hmem "users" ["users"; "proxies"] eq_refl)
              eq_refl
              (Hmem "settings" ["id"; "user_id"; "type"; "settings"] eq_refl)
              (Hmem "user_id" ["id"; "user_id"; "type"; "settings"] eq_refl)
              eq_refl eq_refl
              (Hmem "uuid" ["id"; "username"; "uuid"] eq_refl)
              eq_refl)
    as (added & Heq & _ & _ & Hcount).
  split; [reflexivity|]. rewrite (Hcount "u1"). reflexivity.
Defined.

(** C1 as stated fails both ways: an identifier in one [proxies] row and
    in one [users] row is returned once, not more than once, and an
    identifier in two [proxies] rows is returned twice. *)
Lemma extract_dedup_counterexample :
  extract_uuids_from_sqlite panel_platform (Some db_shared_id) = ["u1"]
  /\ extract_uuids_from_sqlite panel_platform (Some db_repeated_proxy) = ["u1"; "u1"].
Proof. split; reflexivity. Qed.

(** ** Change detector *)

Lemma detect_change_empty (P : platform) (force : bool) (path : string)
    (m : machine P) :
  extract_uuids_from_sqlite P (dbs P m !! path) = [] ->
  (detect_change P force path m).1 = Ok None.
Proof.
  intros He. unfold detect_change.
  destruct (load_last_db_mtime (files P m)); [destruct (negb _)|]; cbn; now rewrite He.
Qed.

(** The decision of the change detector, for an extraction that is not
    empty: it is [true] exactly when a restart is forced, or the modification
    time of the source is not the last one stored, or there is no previous
    hash, or the previous hash is not the hash of the extraction. *)
Lemma detect_change_decision (P : platform) (force : bool) (path : string)
    (m : machine P) (db : sqlite_db) :
  dbs P m !! path = Some db ->
  extract_uuids_from_sqlite P (Some db) <> [] ->
  exists m',
    detect_change P force path m =
      (Ok (Some (extract_uuids_from_sqlite P (Some db),
                 bool_decide
                   (force = true
                    \/ load_last_db_mtime (files P m) <> Some (db_mtime db)
                    \/ prior_hash m = None
                    \/ prior_hash m
                       <> Some (get_uuids_hash P (extract_uuids_from_sqlite P (Some db)))))),
       m').
Proof.
  intros Hdb Hne. unfold detect_change. rewrite Hdb. cbn [fmap option_fmap option_map].
  set (uuids := extract_uuids_from_sqlite P (Some db)) in *.
  destruct (load_last_db_mtime (files P m)) as [last|] eqn:Hlast.
  - destruct (bool_decide (Some (db_mtime db) = Some last)) eqn:Hsame; cbn [negb].
    + apply bool_decide_eq_true in Hsame. injection Hsame as <-.
      rewrite Hdb. fold uuids. destruct uuids as [|u us] eqn:Hu; [congruence|].
      eexists. f_equal. f_equal. f_equal. f_equal.
      unfold prior_hash, stored_hash.
      destruct (LAST_UUID_HASH P m) as [h|].
      * destruct (String.eqb_spec h (get_uuids_hash P (u :: us))) as [->|Hh];
          destruct force; cbn; symmetry;
          first [ apply bool_decide_eq_true_2; tauto
                | apply bool_decide_eq_true_2; right; right; right; congruence
                | apply bool_decide_eq_false_2; intros [?|[?|[?|?]]]; congruence ].
      * destruct (load_last_uuid_hash (files P m)) as [h|]; [destruct (Py.isempty h)|];
          try (cbn; symmetry; apply bool_decide_eq_true_2; tauto).
        destruct (String.eqb_spec h (get_uuids_hash P (u :: us))) as [->|Hh];
          destruct force; cbn; symmetry;
          first [ apply bool_decide_eq_true_2; tauto
                | apply bool_decide_eq_true_2; right; right; right; congruence
                | apply bool_decide_eq_false_2; intros [?|[?|[?|?]]]; congruence ].
    + apply bool_decide_eq_false in Hsame.
      cbn [dbs set_files]. rewrite Hdb. fold uuids.
      destruct uuids as [|u us] eqn:Hu; [congruence|].
      eexists. f_equal. f_equal. f_equal. f_equal.
      rewrite !orb_true_r || rewrite orb_true_r. cbn.
      symmetry. apply bool_decide_eq_true_2. right. left. congruence.
  - cbn [dbs set_files]. rewrite Hdb. fold uuids.
    destruct uuids as [|u us] eqn:Hu; [congruence|].
    eexists. f_equal. f_equal. f_equal. f_equal.
    rewrite orb_true_r. cbn.
    symmetry. apply bool_decide_eq_true_2. right. left. congruence.
Qed.

(** The first call ever: nothing stored, nothing in memory. *)
Lemma detect_change_first_call (P : platform) (force : bool) (path : string)
    (m : machine P) (db : sqlite_db) :
  dbs P m !! path = Some db ->
  extract_uuids_from_sqlite P (Some db) <> [] ->
  files P m !! UUID_DB_MTIME_FILE = None ->
  exists m',
    detect_change P force path m =
      (Ok (Some (extract_uuids_from_sqlite P (Some db), true)), m').
Proof.
  intros Hdb Hne Hnone.
  destruct (detect_change_decision P force path m db Hdb Hne) as (m' & ->).
  exists m'. rewrite bool_decide_eq_true_2; [reflexivity|].
  right. left. unfold load_last_db_mtime. rewrite Hnone. congruence.
Qed.

(** C2 at a source whose modification time is the epoch: the first call
    decides [true], and so does a second call on the state the first one
    left, with the same extraction, the same modification time and no
    forcing.  The modification time was not stored, [if current_db_mtime:]
    being false for 0. *)
Lemma second_call_restarts_at_epoch_mtime :
  let first := detect_change panel_platform false MARZBAN_DB machine_epoch_mtime in
  let second := detect_change panel_platform false MARZBAN_DB first.2 in
  first.1 = Ok (Some (["u1"], true))
  /\ files panel_platform first.2 !! UUID_DB_MTIME_FILE = None
  /\ second.1 = Ok (Some (["u1"], true)).
Proof. vm_compute. repeat split. Qed.

(** The same two calls at a later modification time: the second decides
    [false]. *)
Lemma second_call_quiet_at_later_mtime :
  let first := detect_change panel_platform false MARZBAN_DB machine_later_mtime in
  let second := detect_change panel_platform false MARZBAN_DB first.2 in
  first.1 = Ok (Some (["u1"], true))
  /\ second.1 = Ok (Some (["u1"], false)).
Proof. vm_compute. repeat split. Qed.

(** ** Computations *)

Section Orderly.
Context {P : platform}.

Lemma orderly_ret {A} (a : A) : orderly (ret P a).
Proof. intros m. split; [discriminate|]. exists []. cbn. now rewrite app_nil_r. Qed.

Lemma orderly_raise {A} (e : exn) :
  is_Exception e = true -> orderly (raise P (A := A) e).
Proof.
  intros He m. split; [|exists []; cbn; now rewrite app_nil_r].
  cbn. intros [= ->]. discriminate.
Qed.

Lemma orderly_bind {A B} (c : M P A) (k : A -> M P B) :
  orderly c -> (forall a, orderly (k a)) -> orderly (bind P c k).
Proof.
  intros Hc Hk m. unfold bind. destruct (Hc m) as [Hne [t Ht]].
  destruct (c m) as [[a|e] m1]; cbn in *.
  - destruct (Hk a m1) as [Hne' [t' Ht']]. split; [exact Hne'|].
    exists (t ++ t'). now rewrite Ht', Ht, app_assoc.
  - split; [|now exists t]. intros [= ->]. now apply Hne.
Qed.

Lemma orderly_modify (f : machine P -> machine P) :
  keeps_trace f -> orderly (modify P f).
Proof.
  intros Hf m. split; [discriminate|]. exists []. cbn. now rewrite Hf, app_nil_r.
Qed.

Lemma orderly_log (e : event) : orderly (modify P (log P e)).
Proof. intros m. split; [discriminate|]. now exists [e]. Qed.

Lemma orderly_gets {A} (f : machine P -> A) : orderly (gets P f).
Proof. intros m. split; [discriminate|]. exists []. cbn. now rewrite app_nil_r. Qed.

Lemma orderly_try_except {A} (c : M P A) (handler : exn -> M P A) :
  orderly c -> (forall e, orderly (handler e)) -> orderly (try_except P c handler).
Proof.
  intros Hc Hh m. unfold try_except. destruct (Hc m) as [Hne [t Ht]].
  destruct (c m) as [[a|e] m1]; cbn in *.
  - split; [discriminate|]. now exists t.
  - destruct (is_Exception e) eqn:He.
    + destruct (Hh e m1) as [Hne' [t' Ht']]. split; [exact Hne'|].
      exists (t ++ t'). now rewrite Ht', Ht, app_assoc.
    + split; [exact Hne|]. now exists t.
Qed.

Lemma orderly_run_cmd (ns : option string) (cmd : string) : orderly (run_cmd P ns cmd).
Proof.
  intros m. unfold run_cmd. destruct (run_raises ns cmd).
  - split; [discriminate|]. exists []. cbn. now rewrite app_nil_r.
  - destruct (shell P ns cmd (world P m)) as [r w].
    split; [discriminate|]. now exists [Run ns cmd].
Qed.

Lemma orderly_command_exists (cmd : string) : orderly (command_exists P cmd).
Proof.
  intros m. unfold command_exists. destruct (shell P _ _ _) as [r w].
  split; [discriminate|]. now exists [CommandExists cmd].
Qed.

Lemma orderly_ensure_xray : orderly (call_ensure_xray_binary P).
Proof.
  intros m. unfold call_ensure_xray_binary.
  destruct (ensure_xray_binary P _) as [[b|] w];
    (split; [discriminate|]; now exists [EnsureXray]).
Qed.

Lemma orderly_read_text (path : string) : orderly (read_text P path).
Proof.
  intros m. unfold read_text. destruct (files P m !! path);
    (split; [discriminate|]; exists []; cbn; now rewrite app_nil_r).
Qed.

Lemma orderly_write_text (path content : string) : orderly (write_text P path content).
Proof. apply orderly_modify. intros m. reflexivity. Qed.

Lemma orderly_isfile (path : string) : orderly (isfile P path).
Proof. apply orderly_gets. Qed.

Lemma orderly_for_each {A} (xs : list A) (body : A -> M P unit) :
  (forall x, orderly (body x)) -> orderly (for_each P xs body).
Proof.
  intros Hb. induction xs as [|x xs IH]; cbn [for_each].
  - apply orderly_ret.
  - apply orderly_bind; [apply Hb | intros _; exact IH].
Qed.

Lemma orderly_sh (cmd : string) : orderly (sh P cmd).
Proof. apply orderly_bind; [apply orderly_run_cmd | intros; apply orderly_ret]. Qed.

Lemma orderly_sh_in (ns cmd : string) : orderly (sh_in P ns cmd).
Proof. apply orderly_bind; [apply orderly_run_cmd | intros; apply orderly_ret]. Qed.

Lemma keeps_trace_set_files (f : machine P -> filesystem) :
  keeps_trace (fun m => set_files P (f m) m).
Proof. intros m. reflexivity. Qed.

Lemma keeps_trace_load_panel_state : keeps_trace (load_panel_state P).
Proof.
  intros m. unfold load_panel_state.
  destruct (_ && _); [reflexivity|].
  destruct (files P m !! PANEL_STATE_FILE) as [content|]; [|reflexivity].
  destruct (stripped_lines content) as [|l0 [|l1 ?]]; reflexivity.
Qed.

Lemma orderly_save_uuids (port : Z) (uuids : list string) : orderly (save_uuids P port uuids).
Proof. apply orderly_modify, keeps_trace_set_files. Qed.

Lemma orderly_save_state (port : Z) (path : string) : orderly (save_state P port path).
Proof. apply orderly_modify, keeps_trace_set_files. Qed.

Lemma orderly_int_or_raise (s : string) : orderly (int_or_raise P s).
Proof.
  unfold int_or_raise. destruct (Py.int s); [apply orderly_ret | now apply orderly_raise].
Qed.

Lemma detect_change_ok (force : bool) (path : string) (m : machine P) :
  exists r m', detect_change P force path m = (Ok r, m')
               /\ trace P m' = trace P m /\ world P m' = world P m
               /\ dbs P m' = dbs P m
               /\ PANEL_DB_PATH P m' = PANEL_DB_PATH P m.
Proof.
  unfold detect_change.
  destruct (match load_last_db_mtime (files P m) with None => _ | Some _ => _ end);
    destruct (extract_uuids_from_sqlite P _);
    try (eexists _, _; split; [reflexivity|]; repeat split; reflexivity).
  all: destruct (db_mtime <$> dbs P m !! path) as [mtime|];
    [destruct (mtime =? 0)|];
    eexists _, _; (split; [reflexivity|]); repeat split; reflexivity.
Qed.

Lemma orderly_detect_change (force : bool) (path : string) :
  orderly (detect_change P force path).
Proof.
  intros m. destruct (detect_change_ok force path m) as (r & m' & -> & Ht & _).
  split; [discriminate|]. exists []. cbn. now rewrite Ht, app_nil_r.
Qed.
End Orderly.

(** Steps through a computation built from the primitives. *)
Ltac orderly_step :=
  first
    [ apply orderly_bind; [|intros ?]
    | apply orderly_ret
    | apply orderly_run_cmd
    | apply orderly_command_exists
    | apply orderly_ensure_xray
    | apply orderly_read_text
    | apply orderly_write_text
    | apply orderly_isfile
    | apply orderly_sh
    | apply orderly_sh_in
    | apply orderly_save_uuids
    | apply orderly_save_state
    | apply orderly_int_or_raise
    | apply orderly_detect_change
    | apply orderly_log
    | apply orderly_gets
    | apply orderly_modify, keeps_trace_load_panel_state
    | apply orderly_modify, keeps_trace_set_files
    | apply orderly_raise; reflexivity
    | apply orderly_for_each; intros ?
    | apply orderly_try_except; [|intros ?]
    | progress cbv zeta
    | match goal with
      | |- orderly (if ?b then _ else _) => destruct b
      | |- orderly (match ?x with _ => _ end) => destruct x
      | |- orderly (let '(_, _) := ?x in _) => destruct x
      end ].
Ltac orderly := repeat orderly_step.

Section OrderlyProgram.
Context {P : platform}.

Lemma orderly_managed_namespaces : orderly (managed_namespaces P).
Proof. unfold managed_namespaces. orderly. Qed.

Lemma orderly_update_file_only (uuids : list string) (ns : string) :
  orderly (update_file_only P uuids ns).
Proof. unfold update_file_only. orderly. Qed.

Lemma orderly_sync_namespace (uuids : list string) (ns : string) :
  orderly (sync_namespace P uuids ns).
Proof. unfold sync_namespace. orderly. Qed.

Lemma orderly_refresh (force : bool) :
  orderly (refresh_uuids_for_all_namespaces P force).
Proof.
  unfold refresh_uuids_for_all_namespaces. orderly.
Qed.

Lemma orderly_refresh_noninteractive :
  orderly (refresh_uuids_for_all_namespaces_noninteractive P).
Proof.
  unfold refresh_uuids_for_all_namespaces_noninteractive. orderly.
  all: apply orderly_refresh.
Qed.
End OrderlyProgram.

(** ** Background watcher *)

Section Watcher.
Context {P : platform}.

Lemma try_except_returns {A} (c : M P A) (a : A) (m : machine P) :
  orderly c ->
  exists a' m', try_except P c (fun _ => ret P a) m = (Ok a', m').
Proof.
  intros Hc. unfold try_except. destruct (Hc m) as [Hne _].
  destruct (c m) as [[a'|e] m1]; cbn in *.
  - exists a', m1. reflexivity.
  - destruct e; cbn; try (eexists _, _; reflexivity). now elim Hne.
Qed.

Lemma load_panel_state_frame (m : machine P) :
  files P (load_panel_state P m) = files P m
  /\ world P (load_panel_state P m) = world P m
  /\ dbs P (load_panel_state P m) = dbs P m
  /\ trace P (load_panel_state P m) = trace P m.
Proof.
  unfold load_panel_state.
  destruct (_ && _); [now repeat split|].
  destruct (files P m !! PANEL_STATE_FILE) as [content|]; [|now repeat split].
  destruct (stripped_lines content) as [|l0 [|l1 ?]]; now repeat split.
Qed.

Lemma tick_unfold (m : machine P) :
  refresh_uuids_for_all_namespaces_noninteractive P m =
    match panel_db P (after_panel_load m) with
    | None => (Ok tt, after_panel_load m)
    | Some _ =>
        try_except P (refresh_uuids_for_all_namespaces P false) (fun _ => ret P tt)
          (after_panel_load m)
    end.
Proof.
  unfold refresh_uuids_for_all_namespaces_noninteractive, after_panel_load, no_db_path.
  unfold bind, gets, modify. cbn.
  destruct (PANEL_DB_PATH P m) as [p|]; [destruct (Py.isempty p)|]; cbn;
    destruct (panel_db P _); reflexivity.
Qed.

(** A tick of the watcher always returns. *)
Lemma tick_returns (m : machine P) :
  exists m', refresh_uuids_for_all_namespaces_noninteractive P m = (Ok tt, m').
Proof.
  rewrite tick_unfold. destruct (panel_db P _); [|now eexists].
  destruct (try_except_returns (refresh_uuids_for_all_namespaces P false) tt
              (after_panel_load m) (orderly_refresh false)) as ([] & m' & ->).
  now exists m'.
Qed.

Lemma watcher_loop_running (tick : M P unit) (interval : Z) (fuel : nat) :
  (forall m, (tick m).1 <> Raise KeyboardInterrupt) ->
  forall c m, exists c' m', watcher_loop P tick interval fuel c m = (Running c', m').
Proof.
  intros Htick. induction fuel as [|fuel IH]; intros c m; cbn [watcher_loop].
  - exists c, m. reflexivity.
  - pose proof (Htick m) as Hne.
    destruct (tick m) as [[[]|e] m1]; [apply IH|].
    destruct e; try (destruct (_ >=? 10); apply IH). now elim Hne.
Qed.

Lemma uuid_watcher_running (interval : Z) (fuel : nat) (m : machine P) :
  exists m', uuid_watcher_loop P interval fuel m = (Running 0, m').
Proof.
  unfold uuid_watcher_loop. revert m.
  induction fuel as [|fuel IH]; intros m; cbn [watcher_loop]; [now eexists|].
  destruct (tick_returns m) as (m1 & ->). apply IH.
Qed.

Lemma watcher_loop_failure (tick : M P unit) (interval : Z) (fuel : nat)
    (c : Z) (m m1 : machine P) (e : exn) :
  tick m = (Raise e, m1) -> is_Exception e = true ->
  watcher_loop P tick interval (S fuel) c m =
    if c + 1 >=? 10
    then watcher_loop P tick interval fuel 0 (log P (Sleep (interval * 2)) m1)
    else watcher_loop P tick interval fuel (c + 1) (log P (Sleep interval) m1).
Proof.
  intros Ht He. cbn [watcher_loop]. rewrite Ht. destruct e; try reflexivity.
  discriminate.
Qed.

Lemma watcher_loop_success (tick : M P unit) (interval : Z) (fuel : nat)
    (c : Z) (m m1 : machine P) :
  tick m = (Ok tt, m1) ->
  watcher_loop P tick interval (S fuel) c m =
    watcher_loop P tick interval fuel 0 (log P (Sleep interval) m1).
Proof. intros Ht. cbn [watcher_loop]. now rewrite Ht. Qed.

(** Failures in a row, counted from [c]: while fewer than ten, each is
    followed by a sleep of one interval. *)
Lemma watcher_loop_failures (tick : M P unit) (interval : Z) (n : nat) :
  (forall m, exists e, (tick m).1 = Raise e /\ is_Exception e = true) ->
  forall c m, 0 <= c -> c + Z.of_nat n < 10 ->
  exists m', watcher_loop P tick interval n c m = (Running (c + Z.of_nat n), m').
Proof.
  intros Hfail. induction n as [|n IH]; intros c m Hc Hlt.
  - cbn. exists m. do 2 f_equal. lia.
  - destruct (Hfail m) as (e & He & Hexc).
    destruct (tick m) as [r m1] eqn:Ht. cbn in He. subst r.
    rewrite (watcher_loop_failure tick interval n c m m1 e Ht Hexc).
    destruct (c + 1 >=? 10) eqn:Hge; [lia|].
    destruct (IH (c + 1) (log P (Sleep interval) m1)) as (m' & ->); [lia..|].
    exists m'. do 2 f_equal. lia.
Qed.
End Watcher.

(** C9: the watcher loop does not end because of an unconfigured source
    or of an error in a tick.  (1) With a tick that does not raise
    [KeyboardInterrupt] the loop is still running after any number of
    iterations, and (2) so is the watcher with its own tick, which always
    returns.  (3) Without a configured source that exists, the tick returns
    having done nothing but [load_panel_state]: no command, no file written.
    (4) A tick that fails is followed by a sleep and the next iteration: of
    one interval with the count of failures raised by one, or, when this
    makes ten, of twice the interval with the count back at zero; (5) a tick
    that returns is followed by a sleep of one interval with the count at
    zero.  (6) Ten failures in a row end in the doubled sleep and the count
    at zero. *)
Theorem watcher_never_stops (P : platform) (interval : Z) :
  (forall (tick : M P unit) (fuel : nat) (c : Z) (m : machine P),
      (forall m0, (tick m0).1 <> Raise KeyboardInterrupt) ->
      exists c' m', watcher_loop P tick interval fuel c m = (Running c', m'))
  /\ (forall (fuel : nat) (m : machine P),
        exists m', uuid_watcher_loop P interval fuel m = (Running 0, m'))
  /\ (forall m : machine P,
        panel_db P (after_panel_load m) = None ->
        refresh_uuids_for_all_namespaces_noninteractive P m = (Ok tt, after_panel_load m)
        /\ trace P (after_panel_load m) = trace P m
        /\ files P (after_panel_load m) = files P m
        /\ world P (after_panel_load m) = world P m)
  /\ (forall (tick : M P unit) (fuel : nat) (c : Z) (m m1 : machine P) (e : exn),
        tick m = (Raise e, m1) -> is_Exception e = true ->
        watcher_loop P tick interval (S fuel) c m =
          if c + 1 >=? 10
          then watcher_loop P tick interval fuel 0 (log P (Sleep (interval * 2)) m1)
          else watcher_loop P tick interval fuel (c + 1) (log P (Sleep interval) m1))
  /\ (forall (tick : M P unit) (fuel : nat) (c : Z) (m m1 : machine P),
        tick m = (Ok tt, m1) ->
        watcher_loop P tick interval (S fuel) c m =
          watcher_loop P tick interval fuel 0 (log P (Sleep interval) m1))
  /\ (forall (tick : M P unit) (m : machine P),
        (forall m0, exists e, (tick m0).1 = Raise e /\ is_Exception e = true) ->
        exists m9 m10 e,
          watcher_loop P tick interval 9 0 m = (Running 9, m9)
          /\ tick m9 = (Raise e, m10)
          /\ watcher_loop P tick interval 10 0 m
             = (Running 0, log P (Sleep (interval * 2)) m10)).
Proof.
  split; [intros tick fuel c m H; now apply watcher_loop_running|].
  split; [intros fuel m; apply uuid_watcher_running|].
  split.
  { intros m Hnone. rewrite tick_unfold, Hnone. split; [reflexivity|].
    unfold after_panel_load. destruct (no_db_path m); [|now repeat split].
    destruct (load_panel_state_frame m) as (Hf & Hw & _ & Ht). now repeat split. }
  split; [intros tick fuel c m m1 e Ht He;
          exact (watcher_loop_failure tick interval fuel c m m1 e Ht He)|].
  split; [intros tick fuel c m m1 Ht;
          exact (watcher_loop_success tick interval fuel c m m1 Ht)|].
  intros tick m Hfail.
  destruct (watcher_loop_failures tick interval 9 Hfail 0 m) as (m9 & H9); [lia..|].
  change (0 + Z.of_nat 9) with 9 in H9.
  destruct (Hfail m9) as (e & He & Hexc).
  destruct (tick m9) as [r m10] eqn:Ht. cbn in He. subst r.
  exists m9, m10, e. split; [exact H9|]. split; [exact Ht|].
  (* ten iterations are nine followed by one *)
  assert (Hsplit : forall n k c0 m0 c1 m1,
             watcher_loop P tick interval n c0 m0 = (Running c1, m1) ->
             watcher_loop P tick interval (n + k) c0 m0
             = watcher_loop P tick interval k c1 m1).
  { induction n as [|n IH]; intros k c0 m0 c1 m1 Hn.
    - cbn in Hn. now injection Hn as -> ->.
    - cbn [Nat.add watcher_loop] in Hn |- *.
      destruct (tick m0) as [[[]|e0] m0']; [now apply IH|].
      destruct e0; try (destruct (_ >=? 10); now apply IH). discriminate. }
  change 10%nat with (9 + 1)%nat. rewrite (Hsplit 9%nat 1%nat 0 m 9 m9 H9).
  rewrite (watcher_loop_failure tick interval 0 9 m9 m10 e Ht Hexc). reflexivity.
Qed.

Lemma watcher_never_stops_witness :
  refresh_uuids_for_all_namespaces_noninteractive quiet_platform bare_machine
    = (Ok tt, bare_machine)
  /\ (exists m', uuid_watcher_loop quiet_platform 5 3 bare_machine = (Running 0, m'))
  /\ (exists m9 m10 e,
        watcher_loop quiet_platform failing_tick 5 9 0 bare_machine = (Running 9, m9)
        /\ failing_tick m9 = (Raise e, m10)
        /\ watcher_loop quiet_platform failing_tick 5 10 0 bare_machine
           = (Running 0, log quiet_platform (Sleep (5 * 2)) m10)).
Proof.
  destruct (watcher_never_stops quiet_platform 5) as (_ & Hrun & Hskip & _ & _ & Hten).
  split; [|split].
  - apply (Hskip bare_machine). reflexivity.
  - apply Hrun.
  - apply (Hten failing_tick bare_machine).
    intros m0. exists ValueError. split; reflexivity.
Defined.

(** ** Restore of one tunnel *)

(** C6: for a port whose namespace is in the namespace list, restore
    reports success having run the listing of the namespaces and nothing
    else: no other command is issued, and the files, the stored state among
    them, the databases and the globals are as before. *)
Theorem restore_setup_idempotent (P : platform) (port : Z) (wg_config_path : string)
    (m : machine P) :
  ns_name_of port ∈ Py.split_ws (stdout (shell P None NETNS_LIST (world P m)).1) ->
  exists m',
    restore_setup P port wg_config_path m = (Ok true, m')
    /\ trace P m' = trace P m ++ [Run None NETNS_LIST]
    /\ world P m' = (shell P None NETNS_LIST (world P m)).2
    /\ files P m' = files P m
    /\ dbs P m' = dbs P m
    /\ PANEL_DB_PATH P m' = PANEL_DB_PATH P m
    /\ PANEL_PANEL_NAME P m' = PANEL_PANEL_NAME P m
    /\ LAST_UUID_COUNT P m' = LAST_UUID_COUNT P m
    /\ LAST_UUID_HASH P m' = LAST_UUID_HASH P m.
Proof.
  intros Hin. unfold restore_setup, bind, run_cmd. cbn [t_ns_name restore_topology run_raises].
  destruct (shell P None NETNS_LIST (world P m)) as [listing w] eqn:Hsh.
  cbn [fst snd] in *. unfold Py.mem.
  change ("ns-" +:+ pretty port) with (ns_name_of port).
  rewrite bool_decide_eq_true_2 by exact Hin.
  eexists. split; [reflexivity|]. now repeat split.
Qed.

Lemma restore_setup_idempotent_witness :
  exists m',
    restore_setup platform_ns_51000 51000 "/root/wg-51000.conf" machine_ns_51000
      = (Ok true, m')
    /\ trace platform_ns_51000 m' = [Run None NETNS_LIST]
    /\ files platform_ns_51000 m' = ∅.
Proof.
  destruct (restore_setup_idempotent platform_ns_51000 51000 "/root/wg-51000.conf"
              machine_ns_51000) as (m' & Hrun & Htrace & _ & Hfiles & _).
  - apply (bool_decide_unpack _). vm_compute. exact I.
  - exists m'. split; [exact Hrun|]. split; [exact Htrace|exact Hfiles].
Defined.

(** The loop of [restore_all_setups] skips such a port the same way. *)
Lemma restore_one_existing (P : platform) (port : Z) (wg_config_path : string)
    (m : machine P) :
  ns_name_of port ∈ Py.split_ws (stdout (shell P None NETNS_LIST (world P m)).1) ->
  exists m',
    restore_one P (port, wg_config_path) m = (Ok false, m')
    /\ trace P m' = trace P m ++ [Run None NETNS_LIST]
    /\ files P m' = files P m.
Proof.
  intros Hin. unfold restore_one, try_except, bind, run_cmd. cbn [run_raises].
  destruct (shell P None NETNS_LIST (world P m)) as [listing w] eqn:Hsh.
  cbn [fst snd] in *. unfold Py.mem.
  change ("ns-" +:+ pretty port) with (ns_name_of port).
  rewrite bool_decide_eq_true_2 by exact Hin.
  eexists. split; [reflexivity|]. now repeat split.
Qed.

(** ** Decimal text of integers *)

Lemma pretty_char_digit (d : N) :
  (d < 10)%N ->
  Py.is_ascii_digit (pretty_N_char d) = true
  /\ Z.of_nat (nat_of_ascii (pretty_N_char d)) - 48 = Z.of_N d
  /\ Py.isspace (pretty_N_char d) = false.
Proof.
  intros Hd.
  assert (d = 0 \/ d = 1 \/ d = 2 \/ d = 3 \/ d = 4 \/ d = 5 \/ d = 6 \/ d = 7
          \/ d = 8 \/ d = 9)%N as Hcases by lia.
  repeat (destruct Hcases as [->|Hcases]); try subst d; now vm_compute.
Qed.

Lemma digits_value_pretty_N_go (x : N) :
  forall s,
    Py.digits_value 0 false (pretty_N_go x s) =
      if (x =? 0)%N then Py.digits_value 0 false s
      else Py.digits_value (Z.of_N x) true s.
Proof.
  induction (N.lt_wf_0 x) as [x _ IH]. intros s.
  destruct (N.eqb_spec x 0) as [->|Hx]; [now rewrite pretty_N_go_0|].
  rewrite pretty_N_go_step by lia.
  rewrite IH by (apply N.div_lt; lia).
  destruct (pretty_char_digit (x mod 10)) as (Hdig & Hval & _);
    [apply N.mod_lt; lia|].
  cbn [Py.digits_value]. rewrite Hdig, Hval.
  pose proof (N.div_mod x 10 ltac:(lia)) as Hdm.
  destruct (N.eqb_spec (x / 10) 0) as [Hq|Hq]; f_equal; lia.
Qed.

Lemma pretty_N_go_plain (x : N) :
  forall s,
    Py.all_chars (fun c => negb (Py.isspace c)) s = true ->
    Py.all_chars (fun c => negb (Py.isspace c)) (pretty_N_go x s) = true.
Proof.
  induction (N.lt_wf_0 x) as [x _ IH]. intros s Hs.
  destruct (N.eq_dec x 0%N) as [->|Hx]; [now rewrite pretty_N_go_0|].
  rewrite pretty_N_go_step by lia. apply IH; [apply N.div_lt; lia|].
  destruct (pretty_char_digit (x mod 10)) as (_ & _ & Hsp); [apply N.mod_lt; lia|].
  cbn [Py.all_chars]. now rewrite Hsp, Hs.
Qed.

Lemma pretty_N_go_head (x : N) :
  forall s, (0 < x)%N ->
    exists c r, pretty_N_go x s = String c r /\ Py.is_ascii_digit c = true.
Proof.
  induction (N.lt_wf_0 x) as [x _ IH]. intros s Hx.
  rewrite pretty_N_go_step by lia.
  destruct (N.eq_dec (x / 10)%N 0%N) as [Hq|Hq].
  - rewrite Hq, pretty_N_go_0. eexists _, _. split; [reflexivity|].
    destruct (pretty_char_digit (x mod 10)) as (Hdig & _); [|exact Hdig].
    apply N.mod_lt. lia.
  - apply IH; [apply N.div_lt; lia | now apply N.neq_0_lt_0].
Qed.

Lemma rstrip_plain (s : string) :
  Py.all_chars (fun c => negb (Py.isspace c)) s = true -> Py.rstrip s = s.
Proof.
  induction s as [|c s IH]; [reflexivity|]. cbn [Py.all_chars Py.rstrip].
  intros [Hc Hs]%andb_true_iff. apply negb_true_iff in Hc.
  now rewrite (IH Hs), Hc.
Qed.

Lemma strip_plain (s : string) :
  Py.all_chars (fun c => negb (Py.isspace c)) s = true -> Py.strip s = s.
Proof.
  intros Hs. unfold Py.strip. destruct s as [|c s]; [reflexivity|].
  pose proof Hs as Hs'. cbn [Py.all_chars] in Hs'.
  apply andb_true_iff in Hs' as [Hc _]. apply negb_true_iff in Hc.
  rewrite (lstrip_plain _ _ Hc). now apply rstrip_plain.
Qed.

Lemma int_digit_head (c : ascii) (r : string) :
  Py.is_ascii_digit c = true ->
  Py.strip (String c r) = String c r ->
  Py.int (String c r) = Py.digits_value 0 false (String c r).
Proof.
  intros Hc Hs. unfold Py.int. rewrite Hs.
  destruct c as [[] [] [] [] [] [] [] []]; try discriminate Hc; reflexivity.
Qed.

Lemma pretty_positive_eq (p : positive) : pretty (Zpos p) = pretty_N_go (Npos p) "".
Proof. reflexivity. Qed.

Lemma pretty_negative_eq (p : positive) :
  pretty (Zneg p) = String "-" (pretty_N_go (Npos p) "").
Proof. reflexivity. Qed.

(** The text of an integer holds no white space and is not empty. *)
Lemma pretty_Z_plain (z : Z) : plain_id (pretty z).
Proof.
  destruct z as [|p|p].
  - split; [discriminate | reflexivity].
  - rewrite pretty_positive_eq. split.
    + destruct (pretty_N_go_head (Npos p) "" ltac:(lia)) as (c & r & -> & _). discriminate.
    + now apply pretty_N_go_plain.
  - rewrite pretty_negative_eq. split; [discriminate|].
    cbn [Py.all_chars]. now rewrite pretty_N_go_plain.
Qed.

(** [int(str(z)) == z] *)
Lemma int_pretty (z : Z) : Py.int (pretty z) = Some z.
Proof.
  destruct z as [|p|p].
  - reflexivity.
  - pose proof (pretty_Z_plain (Zpos p)) as [_ Hplain].
    rewrite pretty_positive_eq in *.
    destruct (pretty_N_go_head (Npos p) "" ltac:(lia)) as (c & r & Heq & Hc).
    rewrite Heq in Hplain |- *.
    rewrite (int_digit_head c r Hc (strip_plain _ Hplain)), <- Heq.
    now rewrite digits_value_pretty_N_go.
  - pose proof (pretty_Z_plain (Zneg p)) as [_ Hplain].
    rewrite pretty_negative_eq in *.
    unfold Py.int. rewrite (strip_plain _ Hplain).
    now rewrite digits_value_pretty_N_go.
Qed.

(** ** Prefixes and suffixes *)

Lemma rev_app_app (s acc : string) : String.rev_app s acc = String.rev_app s "" +:+ acc.
Proof.
  revert acc. induction s as [|c s IH]; intros acc; [reflexivity|].
  cbn [String.rev_app]. rewrite (IH (String c acc)), (IH (String c "")).
  now rewrite app_assoc_string.
Qed.

Lemma app_empty_r (s : string) : s +:+ "" = s.
Proof. induction s as [|c s IH]; [reflexivity|]. now rewrite app_cons, IH. Qed.

Lemma rev_string_app (s t : string) : String.rev (s +:+ t) = String.rev t +:+ String.rev s.
Proof.
  unfold String.rev. induction s as [|c s IH].
  - rewrite app_empty_l. cbn [String.rev_app]. now rewrite app_empty_r.
  - rewrite app_cons. cbn [String.rev_app].
    rewrite (rev_app_app (s +:+ t)), IH, (rev_app_app s (String c "")).
    now rewrite app_assoc_string.
Qed.

Lemma startswith_app (p s : string) : Py.startswith p (p +:+ s) = true.
Proof.
  induction p as [|c p IH]; [reflexivity|].
  rewrite app_cons. cbn [Py.startswith]. now rewrite Ascii.eqb_refl, IH.
Qed.

Lemma endswith_app (p s : string) : Py.endswith p (s +:+ p) = true.
Proof. unfold Py.endswith. rewrite rev_string_app. apply startswith_app. Qed.

(** ** Characters of the text of an integer *)

Lemma pretty_N_go_digits (x : N) :
  forall s,
    Py.all_chars (fun c => Py.is_ascii_digit c || Ascii.eqb c "-") s = true ->
    Py.all_chars (fun c => Py.is_ascii_digit c || Ascii.eqb c "-") (pretty_N_go x s) = true.
Proof.
  induction (N.lt_wf_0 x) as [x _ IH]. intros s Hs.
  destruct (N.eq_dec x 0%N) as [->|Hx]; [now rewrite pretty_N_go_0|].
  rewrite pretty_N_go_step by lia. apply IH; [apply N.div_lt; lia|].
  destruct (pretty_char_digit (x mod 10)) as (Hdig & _ & _); [apply N.mod_lt; lia|].
  cbn [Py.all_chars]. now rewrite Hdig, Hs.
Qed.

(** [str(port)] holds digits and the minus sign only. *)
Lemma pretty_Z_digits (z : Z) :
  Py.all_chars (fun c => Py.is_ascii_digit c || Ascii.eqb c "-") (pretty z) = true.
Proof.
  destruct z as [|p|p].
  - reflexivity.
  - rewrite pretty_positive_eq. now apply pretty_N_go_digits.
  - rewrite pretty_negative_eq. cbn [Py.all_chars]. now rewrite pretty_N_go_digits.
Qed.

(** ** Quoting of names built from a port *)

Lemma digit_or_minus_shell_safe (c : ascii) :
  Py.is_ascii_digit c || Ascii.eqb c "-" = true -> Py.shell_safe c = true.
Proof.
  destruct c as [[] [] [] [] [] [] [] []]; intros H; try discriminate H; reflexivity.
Qed.

Lemma quote_safe (s : string) :
  Py.isempty s = false -> Py.all_chars Py.shell_safe s = true -> Py.quote s = s.
Proof. intros Hne Hsafe. unfold Py.quote. now rewrite Hne, Hsafe. Qed.

Lemma quote_port_name (prefix : string) (port : Z) :
  Py.isempty prefix = false -> Py.all_chars Py.shell_safe prefix = true ->
  Py.quote (prefix +:+ pretty port) = prefix +:+ pretty port.
Proof.
  intros Hne Hsafe. apply quote_safe.
  - now destruct prefix.
  - rewrite all_chars_app, Hsafe.
    exact (all_chars_impl _ _ _ digit_or_minus_shell_safe (pretty_Z_digits port)).
Qed.

(** ** Records of the tunnel state store *)

Lemma universal_newlines_line (u rest : string) :
  Py.all_chars (fun c => negb (Ascii.eqb c Py.CR)) u = true ->
  Py.universal_newlines (u +:+ String Py.LF rest)
  = u +:+ String Py.LF (Py.universal_newlines rest).
Proof.
  induction u as [|c u IH]; [reflexivity|].
  cbn [Py.all_chars]. intros [Hc Hu]%andb_true_iff. apply negb_true_iff in Hc.
  rewrite !app_cons. cbn [Py.universal_newlines]. now rewrite Hc, (IH Hu).
Qed.

(** A first line without white space is the first stripped line. *)
Lemma stripped_lines_first (u rest : string) :
  plain_id u -> stripped_lines (u +:+ String Py.LF rest) = u :: stripped_lines rest.
Proof.
  intros [Hne Hu]. unfold stripped_lines, Py.readlines.
  rewrite (universal_newlines_line _ _ (all_chars_impl _ _ u not_space_not_CR Hu)).
  rewrite (lines_line _ _ (all_chars_impl _ _ u not_space_not_LF Hu)).
  rewrite filter_cons_True.
  - cbn [map]. now rewrite (strip_line u Hu).
  - rewrite (strip_line u Hu). destruct u; [congruence | exact I].
Qed.

Lemma saved_record_eq (port : Z) (wg_config_path : string) :
  pretty port +:+ String Py.LF "" +:+ wg_config_path +:+ String Py.LF ""
  = pretty port +:+ String Py.LF (wg_config_path +:+ String Py.LF "").
Proof. reflexivity. Qed.

(** Whatever the path written, a record of [save_setup_state] that can be
    read back holds the port it was written for. *)
Lemma parse_saved_port (port : Z) (wg_config_path : string) (p : Z) (path : string) :
  parse_state_record
    (pretty port +:+ String Py.LF "" +:+ wg_config_path +:+ String Py.LF "")
    = Some (p, path) ->
  p = port.
Proof.
  unfold parse_state_record.
  rewrite saved_record_eq, (stripped_lines_first _ _ (pretty_Z_plain port)).
  destruct (stripped_lines _) as [|l1 ?]; [discriminate|].
  rewrite int_pretty. now intros [= -> _].
Qed.

(** A path without white space is read back as written. *)
Lemma parse_saved_record (port : Z) (wg_config_path : string) :
  plain_id wg_config_path ->
  parse_state_record
    (pretty port +:+ String Py.LF "" +:+ wg_config_path +:+ String Py.LF "")
    = Some (port, wg_config_path).
Proof.
  intros Hpath. unfold parse_state_record.
  rewrite saved_record_eq, (stripped_lines_first _ _ (pretty_Z_plain port)).
  rewrite (stripped_lines_first _ _ Hpath). now rewrite int_pretty.
Qed.

Lemma strip_prefix_app (p s : string) : strip_prefix p (p +:+ s) = Some s.
Proof.
  induction p as [|c p IH]; [reflexivity|].
  rewrite app_cons. cbn [strip_prefix]. now rewrite Ascii.eqb_refl.
Qed.

Lemma path_join_inj (dir name1 name2 : string) :
  Py.path_join dir name1 = Py.path_join dir name2 -> name1 = name2.
Proof.
  unfold Py.path_join. intros H.
  assert (Hs : Some name1 = Some name2); [|now injection Hs].
  rewrite <- (strip_prefix_app (dir +:+ "/") name1), <- (strip_prefix_app (dir +:+ "/") name2).
  now rewrite !app_assoc_string, H.
Qed.

(** ** The invariant of the store *)

Lemma delete_setup_state_gone (port : Z) (fs : filesystem) :
  delete_setup_state port fs !! state_file port = None.
Proof.
  unfold delete_setup_state, isfile_in.
  destruct (bool_decide (is_Some (fs !! state_file port))) eqn:Hb.
  - apply lookup_delete_eq.
  - apply bool_decide_eq_false in Hb. now apply eq_None_not_Some.
Qed.

Lemma delete_setup_state_sub (port : Z) (fs : filesystem) (k v : string) :
  delete_setup_state port fs !! k = Some v -> fs !! k = Some v.
Proof.
  unfold delete_setup_state. destruct (isfile_in fs (state_file port)); [|auto].
  now intros [_ H]%lookup_delete_Some.
Qed.


Lemma store_consistent_empty : store_consistent ∅.
Proof. intros name content port path H. now rewrite lookup_empty in H. Qed.

Lemma store_consistent_save (port : Z) (wg_config_path : string) (fs : filesystem) :
  store_consistent fs -> store_consistent (save_setup_state port wg_config_path fs).
Proof.
  intros Hcons name content p path Hlook Hparse. unfold save_setup_state in Hlook.
  apply lookup_insert_Some in Hlook as [[Hkey <-]|[_ Hlook]].
  - apply parse_saved_port in Hparse as ->.
    symmetry. now apply (path_join_inj SETUP_STATE_DIR).
  - now apply (Hcons name content p path).
Qed.

Lemma store_consistent_delete (port : Z) (fs : filesystem) :
  store_consistent fs -> store_consistent (delete_setup_state port fs).
Proof.
  intros Hcons name content p path Hlook Hparse.
  apply (Hcons name content p path); [|exact Hparse].
  now apply (delete_setup_state_sub port).
Qed.

(** Files outside the state directory do not matter. *)
Lemma store_consistent_outside (k v : string) (fs : filesystem) :
  strip_prefix (SETUP_STATE_DIR +:+ "/") k = None ->
  store_consistent fs -> store_consistent (<[k := v]> fs).
Proof.
  intros Hout Hcons name content p path Hlook Hparse.
  apply lookup_insert_Some in Hlook as [[Hkey _]|[_ Hlook]].
  - subst k. unfold Py.path_join in Hout.
    now rewrite <- app_assoc_string, strip_prefix_app in Hout.
  - now apply (Hcons name content p path).
Qed.

(** ** Stepping through commands *)

Section Stepping.
Context {P : platform}.

(** On the host a command always runs. *)
Lemma run_cmd_eq (cmd : string) (m : machine P) :
  run_cmd P None cmd m = (Ok (shell P None cmd (world P m)).1, after_run None cmd m).
Proof. unfold run_cmd, after_run. cbn [run_raises]. now destruct (shell P None cmd (world P m)). Qed.

(** In a namespace it runs unless its text cannot be split. *)
Lemma run_cmd_in_eq (ns : option string) (cmd : string) (m : machine P) :
  run_cmd P ns cmd m =
    if run_raises ns cmd then (Raise ValueError, m)
    else (Ok (shell P ns cmd (world P m)).1, after_run ns cmd m).
Proof.
  unfold run_cmd, after_run. destruct (run_raises ns cmd); [reflexivity|].
  now destruct (shell P ns cmd (world P m)).
Qed.

Lemma bind_run_cmd {B} (cmd : string)
    (k : completed_process -> M P B) (m : machine P) :
  bind P (run_cmd P None cmd) k m = k (shell P None cmd (world P m)).1 (after_run None cmd m).
Proof. unfold bind. now rewrite run_cmd_eq. Qed.


Lemma bind_sh {B} (cmd : string) (k : unit -> M P B) (m : machine P) :
  bind P (sh P cmd) k m = k tt (after_run None cmd m).
Proof. unfold sh, bind. now rewrite run_cmd_eq. Qed.

Lemma bind_sh_in {B} (ns cmd : string) (k : unit -> M P B) (m : machine P) :
  bind P (sh_in P ns cmd) k m =
    if run_raises (Some ns) cmd then (Raise ValueError, m)
    else k tt (after_run (Some ns) cmd m).
Proof. unfold sh_in, bind. rewrite run_cmd_in_eq. now destruct (run_raises _ _). Qed.

Lemma sh_eq (cmd : string) (m : machine P) :
  sh P cmd m = (Ok tt, after_run None cmd m).
Proof. unfold sh, bind. now rewrite run_cmd_eq. Qed.

Lemma bind_bind {A B C} (c : M P A) (f : A -> M P B) (g : B -> M P C) (m : machine P) :
  bind P (bind P c f) g m = bind P c (fun a => bind P (f a) g) m.
Proof. unfold bind. now destruct (c m) as [[a|e] m1]. Qed.

Lemma bind_ret {A B} (a : A) (k : A -> M P B) (m : machine P) :
  bind P (ret P a) k m = k a m.
Proof. reflexivity. Qed.

Lemma bind_modify {B} (f : machine P -> machine P) (k : unit -> M P B) (m : machine P) :
  bind P (modify P f) k m = k tt (f m).
Proof. reflexivity. Qed.

Lemma trace_after_run (ns : option string) (cmd : string) (m : machine P) :
  trace P (after_run ns cmd m) = trace P m ++ [Run ns cmd].
Proof. reflexivity. Qed.

Lemma files_after_run (ns : option string) (cmd : string) (m : machine P) :
  files P (after_run ns cmd m) = files P m.
Proof. reflexivity. Qed.

Lemma trace_set_files (fs : filesystem) (m : machine P) :
  trace P (set_files P fs m) = trace P m.
Proof. reflexivity. Qed.

Lemma files_set_files (fs : filesystem) (m : machine P) :
  files P (set_files P fs m) = fs.
Proof. reflexivity. Qed.
End Stepping.

Ltac mstep :=
  first [ rewrite bind_bind | rewrite bind_sh
        | rewrite bind_run_cmd | rewrite bind_ret | rewrite bind_modify
        | rewrite sh_eq | progress cbn [for_each] ].

(** A command in a namespace: [leaf] closes the run that ends with
    [ValueError]. *)
Ltac mstep_in leaf :=
  rewrite bind_sh_in;
  match goal with
  | |- context [if run_raises ?ns ?cmd then _ else _] =>
      destruct (run_raises ns cmd); [leaf|]
  end.

(** ** Tunnel state store *)

Lemma load_state_step_sound (fs0 : filesystem) (acc : list (Z * string) * filesystem)
    (filename : string) :
  (forall k v, acc.2 !! k = Some v -> fs0 !! k = Some v) ->
  (forall p path, (p, path) ∈ acc.1 ->
     exists name content,
       fs0 !! Py.path_join SETUP_STATE_DIR name = Some content
       /\ parse_state_record content = Some (p, path)) ->
  (forall k v, (load_state_step acc filename).2 !! k = Some v -> fs0 !! k = Some v)
  /\ (forall p path, (p, path) ∈ (load_state_step acc filename).1 ->
        exists name content,
          fs0 !! Py.path_join SETUP_STATE_DIR name = Some content
          /\ parse_state_record content = Some (p, path)).
Proof.
  destruct acc as [tunnels fs]. cbn [fst snd]. intros Hsub Hsound.
  unfold load_state_step.
  destruct (negb _ || negb _); [now split|].
  destruct (fs !! Py.path_join SETUP_STATE_DIR filename) as [content|] eqn:Hlook;
    [|now split].
  destruct (parse_state_record content) as [[port wg_config_path]|] eqn:Hparse;
    [|now split].
  destruct (isfile_in fs wg_config_path); cbn [fst snd]; split; try assumption.
  - intros p path [Hin|Hin]%elem_of_app; [now apply Hsound|].
    apply list_elem_of_singleton in Hin. injection Hin as -> ->.
    exists filename, content. split; [now apply Hsub | exact Hparse].
  - intros k v [_ Hk]%lookup_delete_Some. now apply Hsub.
Qed.

Lemma load_all_setup_states_sound (fs : filesystem) (p : Z) (path : string) :
  (p, path) ∈ (load_all_setup_states fs).1 ->
  exists name content,
    fs !! Py.path_join SETUP_STATE_DIR name = Some content
    /\ parse_state_record content = Some (p, path).
Proof.
  unfold load_all_setup_states.
  assert (Hgen : forall names acc,
    (forall k v, acc.2 !! k = Some v -> fs !! k = Some v) ->
    (forall p path, (p, path) ∈ acc.1 ->
       exists name content,
         fs !! Py.path_join SETUP_STATE_DIR name = Some content
         /\ parse_state_record content = Some (p, path)) ->
    forall p path, (p, path) ∈ (fold_left load_state_step names acc).1 ->
      exists name content,
        fs !! Py.path_join SETUP_STATE_DIR name = Some content
        /\ parse_state_record content = Some (p, path)).
  { induction names as [|name names IH]; intros acc Hsub Hsound; [exact Hsound|].
    cbn [fold_left].
    destruct (load_state_step_sound fs acc name Hsub Hsound) as [Hsub' Hsound'].
    now apply IH. }
  apply Hgen; cbn [fst snd]; [auto|]. intros ? ? Hin. now apply elem_of_nil in Hin.
Qed.

Lemma load_all_after_delete (port : Z) (fs : filesystem) (path : string) :
  store_consistent fs ->
  (port, path) ∉ (load_all_setup_states (delete_setup_state port fs)).1.
Proof.
  intros Hcons Hin.
  apply load_all_setup_states_sound in Hin as (name & content & Hlook & Hparse).
  pose proof (delete_setup_state_sub _ _ _ _ Hlook) as Hlook0.
  rewrite (Hcons name content port path Hlook0 Hparse) in Hlook.
  fold (state_file port) in Hlook. rewrite delete_setup_state_gone in Hlook.
  discriminate.
Qed.

(** ** Delete *)

(** C8: [delete_setup(port)] returns normally in every state, whatever
    the listing of the namespaces says and whatever the commands return: it
    deletes the namespace only when it is listed, and then in any case
    deletes the host link and attempts every rule removal.  It removes the
    state record of the port, and when every record of the store is in the
    file named after its port, a [load_all_setup_states] that follows does
    not return the port. *)
Theorem delete_setup_total (P : platform) (port : Z) (m : machine P) :
  let ns_list := Py.split_ws (stdout (shell P None NETNS_LIST (world P m)).1) in
  let t := delete_topology port ns_list in
  exists m',
    delete_setup P port m = (Ok tt, m')
    /\ trace P m' =
         trace P m
         ++ Run None NETNS_LIST
            :: (if namespace_exists port ns_list
                then [Run None (netns_delete (c_ns_name t))] else [])
            ++ map (Run None) (link_delete (c_veth_host t) :: rule_removals port t)
    /\ files P m' = delete_setup_state port (files P m)
    /\ files P m' !! state_file port = None
    /\ (store_consistent (files P m) ->
        forall path, (port, path) ∉ (load_all_setup_states (files P m')).1).
Proof.
  intros ns_list t. unfold delete_setup. rewrite bind_run_cmd.
  fold ns_list. fold t.
  destruct (namespace_exists port ns_list); repeat mstep; unfold modify;
    (eexists; split; [reflexivity|]);
    rewrite files_set_files, trace_set_files, !files_after_run, !trace_after_run,
      <- !app_assoc;
    (split; [reflexivity|split; [reflexivity|split;
       [apply delete_setup_state_gone | intros Hc path; now apply load_all_after_delete]]]).
Qed.

Lemma delete_setup_total_witness :
  store_consistent (files platform_no_ns machine_saved_51000)
  /\ (load_all_setup_states (files platform_no_ns machine_saved_51000)).1
     = [(51000, WG_CONF)]
  /\ exists m',
       delete_setup platform_no_ns 51000 machine_saved_51000 = (Ok tt, m')
       /\ files platform_no_ns m' !! state_file 51000 = None
       /\ forall path, (51000, path) ∉ (load_all_setup_states (files platform_no_ns m')).1.
Proof.
  assert (Hcons : store_consistent (files platform_no_ns machine_saved_51000)).
  { apply store_consistent_save, store_consistent_outside;
      [reflexivity | apply store_consistent_empty]. }
  split; [exact Hcons|]. split; [vm_compute; reflexivity|].
  destruct (delete_setup_total platform_no_ns 51000 machine_saved_51000)
    as (m' & Hrun & _ & _ & Hgone & Hload).
  exists m'. split; [exact Hrun|]. split; [exact Hgone|]. exact (Hload Hcons).
Defined.

(** ** Computations that keep the files *)

Section KeepsFiles.
Context {P : platform}.

Lemma bind_unfold {A B} (c : M P A) (k : A -> M P B) (m : machine P) :
  bind P c k m =
    match c m with
    | (Ok a, m') => k a m'
    | (Raise e, m') => (Raise e, m')
    end.
Proof. reflexivity. Qed.

Lemma keeps_files_ret {A} (a : A) : keeps_files (ret P a).
Proof. now intros m. Qed.

Lemma keeps_files_raise {A} (e : exn) : keeps_files (raise P e : M P A).
Proof. now intros m. Qed.

Lemma keeps_files_bind {A B} (c : M P A) (k : A -> M P B) :
  keeps_files c -> (forall a, keeps_files (k a)) -> keeps_files (bind P c k).
Proof.
  intros Hc Hk m. rewrite bind_unfold. specialize (Hc m).
  destruct (c m) as [[a|e] m1]; cbn [snd] in *; [|exact Hc].
  now rewrite (Hk a m1).
Qed.

Lemma keeps_files_run_cmd (ns : option string) (cmd : string) :
  keeps_files (run_cmd P ns cmd).
Proof. intros m. rewrite run_cmd_in_eq. now destruct (run_raises ns cmd). Qed.

Lemma keeps_files_sh (cmd : string) : keeps_files (sh P cmd).
Proof. intros m. now rewrite sh_eq. Qed.

Lemma keeps_files_command_exists (cmd : string) : keeps_files (command_exists P cmd).
Proof. intros m. unfold command_exists. now destruct (shell P _ _ _). Qed.

Lemma keeps_files_read_text (path : string) : keeps_files (read_text P path).
Proof. intros m. unfold read_text. now destruct (files P m !! path). Qed.

Lemma keeps_files_first_answer (cmds : list string) : keeps_files (first_answer P cmds).
Proof.
  induction cmds as [|cmd cmds IH]; [apply keeps_files_ret|].
  cbn [first_answer]. apply keeps_files_bind; [apply keeps_files_run_cmd|].
  intros res. destruct (Py.isempty _); [exact IH | apply keeps_files_ret].
Qed.

Lemma keeps_files_resolve_endpoint_ip (wg_config : string) :
  keeps_files (resolve_endpoint_ip P wg_config).
Proof.
  unfold resolve_endpoint_ip. apply keeps_files_bind; [apply keeps_files_read_text|].
  intros content. cbv zeta. destruct (Py.isempty _); [apply keeps_files_ret|].
  apply keeps_files_bind; [apply keeps_files_first_answer|].
  intros ip. apply keeps_files_ret.
Qed.

Lemma keeps_files_derive_wg_name (port : Z) : keeps_files (derive_wg_name P port).
Proof.
  unfold derive_wg_name.
  repeat first
    [ apply keeps_files_ret | apply keeps_files_run_cmd
    | apply keeps_files_command_exists
    | apply keeps_files_bind | intros [] | intros ? ].
Qed.

Lemma keeps_files_read_wg_address (wg_config : string) :
  keeps_files (read_wg_address P wg_config).
Proof.
  unfold read_wg_address. apply keeps_files_bind; [apply keeps_files_read_text|].
  intros content. destruct (find_line _ _); [|apply keeps_files_ret].
  destruct (Py.split1 _ _) as [? []]; [apply keeps_files_ret | apply keeps_files_raise].
Qed.
End KeepsFiles.

(** ** Records of calls *)

Lemma trace_after_2 {P : platform} (n1 n2 : option string) (c1 c2 : string)
    (m : machine P) :
  trace P (after_run n2 c2 (after_run n1 c1 m)) = trace P m ++ [Run n1 c1; Run n2 c2].
Proof. now rewrite !trace_after_run, <- app_assoc. Qed.

Lemma trace_after_3 {P : platform} (n1 n2 n3 : option string) (c1 c2 c3 : string)
    (m : machine P) :
  trace P (after_run n3 c3 (after_run n2 c2 (after_run n1 c1 m)))
  = trace P m ++ [Run n1 c1; Run n2 c2; Run n3 c3].
Proof. now rewrite !trace_after_run, <- !app_assoc. Qed.

Lemma trace_after_5 {P : platform} (n1 n2 n3 n4 n5 : option string)
    (c1 c2 c3 c4 c5 : string) (m : machine P) :
  trace P (after_run n5 c5 (after_run n4 c4 (after_run n3 c3
            (after_run n2 c2 (after_run n1 c1 m)))))
  = trace P m ++ [Run n1 c1; Run n2 c2; Run n3 c3; Run n4 c4; Run n5 c5].
Proof. now rewrite !trace_after_run, <- !app_assoc. Qed.


Ltac files_frame :=
  repeat (rewrite files_set_files || rewrite files_after_run); congruence.

(** ** Commands that can be split *)



Lemma plain_text_app (s t : string) :
  plain_text (s +:+ t) = plain_text s && plain_text t.
Proof. apply all_chars_app. Qed.

Lemma plain_text_pretty (z : Z) : plain_text (pretty z) = true.
Proof.
  refine (all_chars_impl _ _ _ _ (pretty_Z_digits z)).
  intros c. destruct c as [[] [] [] [] [] [] [] []]; intros H; try discriminate H; reflexivity.
Qed.

Ltac plain_text :=
  rewrite ?quote_port_name by reflexivity;
  rewrite ?plain_text_app, ?plain_text_pretty; reflexivity.


(** ** Exceptions of the reading of the configuration *)

Lemma first_answer_returns {P : platform} (cmds : list string) (m : machine P) :
  exists ip m1, first_answer P cmds m = (Ok ip, m1).
Proof.
  revert m. induction cmds as [|cmd cmds IH]; intros m; [now eexists _, _|].
  cbn [first_answer]. rewrite bind_run_cmd. cbv zeta.
  destruct (Py.isempty _); [apply IH | now eexists _, _].
Qed.

Lemma resolve_endpoint_ip_raises {P : platform} (wg_config : string) (m : machine P) :
  match (resolve_endpoint_ip P wg_config m).1 with
  | Ok _ => True
  | Raise e => e = FileNotFoundError /\ files P m !! wg_config = None
  end.
Proof.
  unfold resolve_endpoint_ip. rewrite bind_unfold. unfold read_text.
  destruct (files P m !! wg_config) as [content|] eqn:Hfile; [|now split].
  cbv zeta. destruct (Py.isempty _); [exact I|].
  rewrite bind_unfold.
  match goal with
  | |- context [first_answer P ?cmds m] =>
      destruct (first_answer_returns cmds m) as (ip & m1 & ->)
  end.
  exact I.
Qed.



(** ** The checked steps of Create *)

Lemma ran_successfully (P : platform) (cmd : string) (w : World P) :
  (returncode (shell P None cmd w).1 =? 0) = true -> ~ never_succeeds P cmd.
Proof. intros Hok Hnever. apply (Hnever w). now apply Z.eqb_eq. Qed.



(** ** The end of Create *)

Section Answers.
Context {P : platform}.

Lemma answers_ret {A} (Q : A -> Prop) (a : A) : Q a -> answers Q (ret P a).
Proof. intros Ha m. exact Ha. Qed.

Lemma answers_bind {A B} (Q : B -> Prop) (c : M P A) (k : A -> M P B) :
  (forall a, answers Q (k a)) -> answers Q (bind P c k).
Proof.
  intros Hk m. rewrite bind_unfold. destruct (c m) as [[a|e] m1]; [apply Hk | exact I].
Qed.

(** After the save [create_setup] ends in one of two ways, or by an
    exception. *)
Lemma start_xray_after_create_answers (input : M P string)
    (choose_uuids_from_panel : M P (list string))
    (start_background_uuid_watcher : M P bool) (port : Z) (ns_name : string) :
  answers (fun a => a = Provisioned \/ a = XrayUnavailable)
    (start_xray_after_create P input choose_uuids_from_panel
       start_background_uuid_watcher port ns_name).
Proof.
  unfold start_xray_after_create. apply answers_bind. intros have_xray.
  destruct (negb have_xray).
  - apply answers_bind. intros _. apply answers_ret. now right.
  - repeat (apply answers_bind; intros ?). apply answers_ret. now left.
Qed.
End Answers.

(** ** Create *)

Ltac outcome :=
  solve [ repeat (first [left; reflexivity | right]);
          first [ reflexivity
                | split; [reflexivity | eassumption]
                | eexists; split; [reflexivity | eassumption] ] ].













(** An address that [shlex.split] cannot split ends the run by [ValueError]
    after the namespace, the link pair and the tunnel interface were
    created: the last command is the move of the tunnel interface into the
    namespace, nothing is deleted, and no file is written. *)
Example create_stray_quote_raises :
  let P := resolving_platform [] in
  let m := boot P tt {[ WG_CONF := WG_CONF_STRAY_QUOTE ]} ∅ in
  exists m',
    create_setup P (input_enter P) (choose_no_panel P) (watcher_starts P) 51000 WG_CONF m
    = (Raise ValueError, m')
    /\ last (trace P m') = Some (Run None "ip link set wg- netns ns-51000")
    /\ (Run None (netns_delete "ns-51000") ∉ drop 11 (trace P m'))
    /\ files P m' = files P m.
Proof.
  intros P m. eexists. split; [vm_compute; reflexivity|].
  split; [vm_compute; reflexivity|].
  split; [apply (bool_decide_unpack _); vm_compute; exact I|].
  reflexivity.
Qed.

(** ** Restore of all tunnels *)

Lemma bind_gets {P : platform} {A B} (f : machine P -> A) (k : A -> M P B)
    (m : machine P) :
  bind P (gets P f) k m = k (f m) m.
Proof. reflexivity. Qed.

(** The refresh records its entry first, and what it records after that
    is added behind. *)
Lemma refresh_trace (P : platform) (force : bool) (m : machine P) :
  exists t,
    trace P (refresh_uuids_for_all_namespaces P force m).2
    = trace P m ++ Refresh force :: t.
Proof.
  unfold refresh_uuids_for_all_namespaces. rewrite bind_modify.
  match goal with
  | |- context [bind P ?c ?k (log P ?e m)] =>
      assert (Hrest : orderly (bind P c k)) by orderly;
      destruct (Hrest (log P e m)) as [_ [t Ht]]
  end.
  exists t. rewrite Ht. cbn [trace log]. now rewrite <- app_assoc.
Qed.

(** C7: when [restore_all_setups] found tunnels to restore and its loop
    over them returned, with any count of restored tunnels, zero included,
    it loads the panel state and then, if a panel database is configured and
    its file is there, runs the refresh with forced restart; without such a
    database it returns without a refresh. *)
Theorem restore_all_resync (P : platform) (m m1 m2 : machine P)
    (tunnels : list (Z * string)) (count : Z) :
  discover_tunnels P m = (Ok tunnels, m1) ->
  tunnels <> [] ->
  restore_each P tunnels 0 m1 = (Ok count, m2) ->
  let m3 := load_panel_state P m2 in
  trace P m3 = trace P m2
  /\ match panel_db P m3 with
     | Some _ =>
         restore_all_setups P m =
           (let '(r, m4) := refresh_uuids_for_all_namespaces P true m3 in
            (match r with Ok _ => Ok count | Raise e => Raise e end, m4))
         /\ exists t,
              trace P (refresh_uuids_for_all_namespaces P true m3).2
              = trace P m2 ++ Refresh true :: t
     | None => restore_all_setups P m = (Ok count, m3)
     end.
Proof.
  intros Hdiscover Hsome Hloop m3.
  assert (Htrace : trace P m3 = trace P m2) by apply keeps_trace_load_panel_state.
  split; [exact Htrace|].
  assert (Hrun : restore_all_setups P m
                 = bind P (resync_after_restore P) (fun _ => ret P count) m2).
  { unfold restore_all_setups. rewrite bind_unfold, Hdiscover.
    destruct tunnels as [|tunnel rest]; [congruence|].
    now rewrite bind_unfold, Hloop. }
  rewrite Hrun. unfold resync_after_restore.
  rewrite bind_bind, bind_modify, bind_bind, bind_gets. fold m3.
  destruct (panel_db P m3) as [db|].
  - split.
    + rewrite bind_unfold.
      now destruct (refresh_uuids_for_all_namespaces P true m3) as [[[]|e] m4].
    + destruct (refresh_trace P true m3) as [t Ht]. exists t. now rewrite Ht, Htrace.
  - reflexivity.
Qed.

Lemma restore_all_resync_witness :
  let P := platform_no_ns in
  let m := machine_saved_with_panel in
  let m2 := (restore_each P [(51000, WG_CONF)] 0 (discover_tunnels P m).2).2 in
  (restore_each P [(51000, WG_CONF)] 0 (discover_tunnels P m).2).1 = Ok 0
  /\ exists t,
       trace P (refresh_uuids_for_all_namespaces P true (load_panel_state P m2)).2
       = trace P m2 ++ Refresh true :: t.
Proof.
  intros P m m2. split; [vm_compute; reflexivity|].
  destruct (restore_all_resync P m (discover_tunnels P m).2 m2 [(51000, WG_CONF)] 0)
    as [_ Hresync].
  - vm_compute. reflexivity.
  - discriminate.
  - vm_compute. reflexivity.
  - destruct (panel_db P (load_panel_state P m2)) eqn:Hdb.
    + exact (proj2 Hresync).
    + vm_compute in Hdb. discriminate Hdb.
Defined.

(** A saved tunnel is processed, and no refresh follows: no panel database
    is configured. *)
Lemma restore_all_no_panel_counterexample :
  (load_all_setup_states (files platform_no_ns machine_saved_51000)).1
    = [(51000, WG_CONF)]
  /\ exists m',
       restore_all_setups platform_no_ns machine_saved_51000 = (Ok 0, m')
       /\ forall force, Refresh force ∉ trace platform_no_ns m'.
Proof.
  split; [vm_compute; reflexivity|].
  eexists. split; [vm_compute; reflexivity|].
  intros []; apply (bool_decide_unpack _); vm_compute; exact I.
Defined.

(** ** File names of distinct ports *)

Lemma string_length_app (s t : string) :
  String.length (s +:+ t) = (String.length s + String.length t)%nat.
Proof. induction s as [|c s IH]; [reflexivity|]. rewrite app_cons. cbn. now rewrite IH. Qed.

Lemma string_app_inv_tail (s1 s2 t : string) : s1 +:+ t = s2 +:+ t -> s1 = s2.
Proof.
  revert s2. induction s1 as [|c s1 IH]; intros [|d s2] H.
  - reflexivity.
  - apply (f_equal String.length) in H. rewrite !string_length_app in H.
    cbn in H. lia.
  - apply (f_equal String.length) in H. rewrite !string_length_app in H.
    cbn in H. lia.
  - rewrite !app_cons in H. injection H as -> H. f_equal. now apply IH.
Qed.

Lemma string_app_inv_head (s t1 t2 : string) : s +:+ t1 = s +:+ t2 -> t1 = t2.
Proof.
  induction s as [|c s IH]; [auto|]. rewrite !app_cons. intros [= H]. now apply IH.
Qed.

(** A name built around the text of the port names one port only. *)
Lemma port_name_inj (prefix suffix : string) (p q : Z) :
  prefix +:+ pretty p +:+ suffix = prefix +:+ pretty q +:+ suffix -> p = q.
Proof.
  intros H. apply string_app_inv_head, string_app_inv_tail in H.
  now apply (inj pretty).
Qed.

Lemma state_file_inj (p q : Z) : state_file p = state_file q -> p = q.
Proof.
  unfold state_file, state_file_name. intros H%path_join_inj.
  now apply port_name_inj in H.
Qed.

Lemma uuid_file_inj (p q : Z) : uuid_file p = uuid_file q -> p = q.
Proof.
  unfold uuid_file. intros H%path_join_inj. now apply port_name_inj in H.
Qed.

(** ** Tunnel state store: one record per port *)

(** X1: the state records of two distinct ports lie in distinct files:
    saving or deleting the record of one port leaves the record of every
    other port as it was. *)
Theorem state_records_independent (p q : Z) (wg_config_path : string)
    (fs : filesystem) :
  p <> q ->
  save_setup_state q wg_config_path fs !! state_file p = fs !! state_file p
  /\ delete_setup_state q fs !! state_file p = fs !! state_file p.
Proof.
  intros Hpq.
  assert (Hfile : state_file q <> state_file p).
  { intros H%state_file_inj. congruence. }
  split.
  - unfold save_setup_state. now rewrite lookup_insert_ne.
  - unfold delete_setup_state. destruct (isfile_in fs (state_file q)); [|reflexivity].
    now rewrite lookup_delete_ne.
Qed.

Lemma state_records_independent_witness :
  save_setup_state 51001 WG_CONF saved_51000 !! state_file 51000
    = saved_51000 !! state_file 51000
  /\ delete_setup_state 51001 saved_51000 !! state_file 51000
     = saved_51000 !! state_file 51000.
Proof. apply (state_records_independent 51000 51001 WG_CONF saved_51000). lia. Defined.

(** X2: deleting the record of a port that was saved into a store without
    one gives the store back, and deleting twice is deleting once. *)
Theorem delete_after_save_setup_state (port : Z) (wg_config_path : string)
    (fs : filesystem) :
  (fs !! state_file port = None ->
   delete_setup_state port (save_setup_state port wg_config_path fs) = fs)
  /\ delete_setup_state port (delete_setup_state port fs) = delete_setup_state port fs.
Proof.
  split.
  - intros Hnone. unfold delete_setup_state, save_setup_state, isfile_in.
    rewrite bool_decide_eq_true_2 by (rewrite lookup_insert_eq; eauto).
    now rewrite delete_insert_id.
  - unfold delete_setup_state at 1.
    destruct (isfile_in _ _) eqn:Hfile; [|reflexivity].
    apply bool_decide_eq_true in Hfile as [content Hcontent].
    now rewrite delete_setup_state_gone in Hcontent.
Qed.

Lemma delete_after_save_setup_state_witness :
  delete_setup_state 51000 saved_51000 = {[ WG_CONF := WG_CONF_TEXT ]}.
Proof.
  apply (delete_after_save_setup_state 51000 WG_CONF {[ WG_CONF := WG_CONF_TEXT ]}).
  vm_compute. reflexivity.
Defined.

(** ** Single characters *)

(** ["/" in s] looks at the characters one by one. *)
Lemma contains_slash (s : string) :
  Py.all_chars (fun c => negb (Ascii.eqb c "/")) s = true -> Py.contains "/" s = false.
Proof.
  induction s as [|c s IH]; [reflexivity|].
  cbn [Py.all_chars Py.contains Py.startswith].
  intros [Hc Hs]%andb_true_iff. apply negb_true_iff in Hc.
  rewrite (Ascii.eqb_sym "/" c), Hc. now rewrite IH.
Qed.

Lemma digit_or_minus_not_slash (c : ascii) :
  Py.is_ascii_digit c || Ascii.eqb c "-" = true -> negb (Ascii.eqb c "/") = true.
Proof.
  destruct c as [[] [] [] [] [] [] [] []]; intros H; try discriminate H; reflexivity.
Qed.

Lemma state_file_name_listed (port : Z) :
  Py.startswith "tunnel-" (state_file_name port) = true
  /\ Py.endswith ".state" (state_file_name port) = true
  /\ Py.isempty (state_file_name port) = false
  /\ Py.contains "/" (state_file_name port) = false.
Proof.
  unfold state_file_name. split; [apply startswith_app|].
  split; [rewrite <- app_assoc_string; apply endswith_app|].
  split; [reflexivity|].
  apply contains_slash. rewrite !all_chars_app.
  rewrite (all_chars_impl _ _ (pretty port) digit_or_minus_not_slash
             (pretty_Z_digits port)).
  reflexivity.
Qed.

(** ** Directory listing *)

Lemma strip_prefix_Some (p s r : string) : strip_prefix p s = Some r -> s = p +:+ r.
Proof.
  revert s. induction p as [|a p IH]; intros s; [now intros [= ->]|].
  destruct s as [|b s]; [discriminate|]. cbn [strip_prefix].
  destruct (Ascii.eqb_spec a b) as [->|]; [|discriminate].
  intros H%IH. now rewrite app_cons, H.
Qed.

Lemma listdir_sound (dir name : string) (fs : filesystem) :
  name ∈ listdir dir fs -> is_Some (fs !! Py.path_join dir name).
Proof.
  unfold listdir. intros [[k v] [Hin Hname]]%list_elem_of_omap.
  apply elem_of_map_to_list in Hin. cbn [fst] in Hname.
  destruct (strip_prefix (dir +:+ "/") k) as [name'|] eqn:Hstrip; [|discriminate].
  destruct (Py.isempty name' || Py.contains "/" name'); [discriminate|].
  injection Hname as ->. apply strip_prefix_Some in Hstrip. subst k.
  unfold Py.path_join. rewrite <- app_assoc_string. eauto.
Qed.

Lemma listdir_complete (dir name content : string) (fs : filesystem) :
  fs !! Py.path_join dir name = Some content ->
  Py.isempty name = false -> Py.contains "/" name = false ->
  name ∈ listdir dir fs.
Proof.
  intros Hlook Hne Hslash. unfold listdir. apply list_elem_of_omap.
  exists (Py.path_join dir name, content). split; [now apply elem_of_map_to_list|].
  cbn [fst]. unfold Py.path_join.
  now rewrite <- app_assoc_string, strip_prefix_app, Hne, Hslash.
Qed.

(** ** Loading the tunnel state store *)

Lemma load_state_step_existing (fs0 : filesystem)
    (acc : list (Z * string) * filesystem) (filename : string) :
  (forall k v, acc.2 !! k = Some v -> fs0 !! k = Some v) ->
  (forall p path, (p, path) ∈ acc.1 ->
     isfile_in fs0 path = true
     /\ exists name content,
          Py.startswith "tunnel-" name = true /\ Py.endswith ".state" name = true
          /\ fs0 !! Py.path_join SETUP_STATE_DIR name = Some content
          /\ parse_state_record content = Some (p, path)) ->
  (forall k v, (load_state_step acc filename).2 !! k = Some v -> fs0 !! k = Some v)
  /\ (forall p path, (p, path) ∈ (load_state_step acc filename).1 ->
        isfile_in fs0 path = true
        /\ exists name content,
             Py.startswith "tunnel-" name = true /\ Py.endswith ".state" name = true
             /\ fs0 !! Py.path_join SETUP_STATE_DIR name = Some content
             /\ parse_state_record content = Some (p, path)).
Proof.
  destruct acc as [tunnels fs]. cbn [fst snd]. intros Hsub Hsound.
  unfold load_state_step.
  destruct (Py.startswith "tunnel-" filename) eqn:Hstart; [|now split].
  destruct (Py.endswith ".state" filename) eqn:Hend; [|now split].
  cbn [negb orb].
  destruct (fs !! Py.path_join SETUP_STATE_DIR filename) as [content|] eqn:Hlook;
    [|now split].
  destruct (parse_state_record content) as [[port wg_config_path]|] eqn:Hparse;
    [|now split].
  destruct (isfile_in fs wg_config_path) eqn:Hfile; cbn [fst snd]; split; try assumption.
  - intros p path [Hin|Hin]%elem_of_app; [now apply Hsound|].
    apply list_elem_of_singleton in Hin. injection Hin as -> ->. split.
    + apply bool_decide_eq_true in Hfile as [c Hc].
      apply bool_decide_eq_true. exists c. now apply Hsub.
    + exists filename, content. repeat split; try assumption. now apply Hsub.
  - intros k v [_ Hk]%lookup_delete_Some. now apply Hsub.
Qed.

Lemma load_fold_existing (fs0 : filesystem) (names : list string) :
  forall acc : list (Z * string) * filesystem,
    (forall k v, acc.2 !! k = Some v -> fs0 !! k = Some v) ->
    (forall p path, (p, path) ∈ acc.1 ->
       isfile_in fs0 path = true
       /\ exists name content,
            Py.startswith "tunnel-" name = true /\ Py.endswith ".state" name = true
            /\ fs0 !! Py.path_join SETUP_STATE_DIR name = Some content
            /\ parse_state_record content = Some (p, path)) ->
    (forall k v, (fold_left load_state_step names acc).2 !! k = Some v -> fs0 !! k = Some v)
    /\ (forall p path, (p, path) ∈ (fold_left load_state_step names acc).1 ->
          isfile_in fs0 path = true
          /\ exists name content,
               Py.startswith "tunnel-" name = true /\ Py.endswith ".state" name = true
               /\ fs0 !! Py.path_join SETUP_STATE_DIR name = Some content
               /\ parse_state_record content = Some (p, path)).
Proof.
  induction names as [|name names IH]; intros acc Hsub Hsound; [now split|].
  cbn [fold_left].
  destruct (load_state_step_existing fs0 acc name Hsub Hsound) as [Hsub' Hsound'].
  now apply IH.
Qed.

(** X3: every tunnel [load_all_setup_states] returns is the record of a
    file [tunnel-*.state] of the state directory, read as its first two
    non-empty lines, and its configuration file is there. *)
Theorem load_all_setup_states_existing (fs : filesystem) (p : Z) (path : string) :
  (p, path) ∈ (load_all_setup_states fs).1 ->
  isfile_in fs path = true
  /\ exists name content,
       Py.startswith "tunnel-" name = true /\ Py.endswith ".state" name = true
       /\ fs !! Py.path_join SETUP_STATE_DIR name = Some content
       /\ parse_state_record content = Some (p, path).
Proof.
  unfold load_all_setup_states.
  apply (load_fold_existing fs (listdir SETUP_STATE_DIR fs) ([], fs)); cbn [fst snd].
  - auto.
  - intros ? ? Hin. now apply elem_of_nil in Hin.
Qed.

Lemma load_all_setup_states_existing_witness :
  isfile_in saved_51000 WG_CONF = true
  /\ exists name content,
       Py.startswith "tunnel-" name = true /\ Py.endswith ".state" name = true
       /\ saved_51000 !! Py.path_join SETUP_STATE_DIR name = Some content
       /\ parse_state_record content = Some (51000, WG_CONF).
Proof.
  apply (load_all_setup_states_existing saved_51000 51000 WG_CONF).
  apply (bool_decide_unpack _). vm_compute. exact I.
Defined.

(** The store [load_all_setup_states] leaves behind: files are removed,
    none is added or changed. *)
Lemma load_all_setup_states_sub (fs : filesystem) (k v : string) :
  (load_all_setup_states fs).2 !! k = Some v -> fs !! k = Some v.
Proof.
  unfold load_all_setup_states.
  apply (load_fold_existing fs (listdir SETUP_STATE_DIR fs) ([], fs)); cbn [fst snd].
  - auto.
  - intros ? ? Hin. now apply elem_of_nil in Hin.
Qed.

(** ** A saved tunnel is loaded *)

Section SavedRecord.
Context (port : Z) (wg_config_path conf : string).
Hypothesis Hplain : plain_id wg_config_path.
Hypothesis Houtside : strip_prefix (SETUP_STATE_DIR +:+ "/") wg_config_path = None.

Let record : string :=
  pretty port +:+ String Py.LF "" +:+ wg_config_path +:+ String Py.LF "".

Let kept (fs : filesystem) : Prop :=
  fs !! state_file port = Some record /\ fs !! wg_config_path = Some conf.

Lemma load_state_step_kept (acc : list (Z * string) * filesystem) (filename : string) :
  kept acc.2 ->
  kept (load_state_step acc filename).2
  /\ ((port, wg_config_path) ∈ acc.1 ->
      (port, wg_config_path) ∈ (load_state_step acc filename).1)
  /\ (filename = state_file_name port ->
      (port, wg_config_path) ∈ (load_state_step acc filename).1).
Proof.
  destruct acc as [tunnels fs]. cbn [fst snd]. intros [Hrec Hconf].
  assert (Hparse : parse_state_record record = Some (port, wg_config_path))
    by now apply parse_saved_record.
  destruct (state_file_name_listed port) as (Hstart & Hend & _ & _).
  unfold load_state_step.
  destruct (negb (Py.startswith "tunnel-" filename)
            || negb (Py.endswith ".state" filename)) eqn:Hskip.
  { split; [now split|]. split; [auto|]. intros ->. now rewrite Hstart, Hend in Hskip. }
  destruct (fs !! Py.path_join SETUP_STATE_DIR filename) as [content|] eqn:Hlook.
  2:{ split; [now split|]. split; [auto|]. intros ->.
      fold (state_file port) in Hlook. congruence. }
  destruct (parse_state_record content) as [[p w]|] eqn:Hcontent.
  2:{ split; [now split|]. split; [auto|]. intros ->.
      fold (state_file port) in Hlook. congruence. }
  destruct (isfile_in fs w) eqn:Hfile; cbn [fst snd].
  - split; [now split|]. split; [intros Hin; apply elem_of_app; now left|].
    intros ->. fold (state_file port) in Hlook.
    assert (content = record) by congruence. subst content.
    assert (p = port /\ w = wg_config_path) as [-> ->] by (split; congruence).
    apply elem_of_app. right. apply list_elem_of_singleton. reflexivity.
  - assert (Hother : filename <> state_file_name port).
    { intros ->. fold (state_file port) in Hlook.
      assert (content = record) by congruence. subst content.
      assert (w = wg_config_path) by congruence. subst w.
      apply bool_decide_eq_false in Hfile. apply Hfile. eauto. }
    split; [|split; [auto | contradiction]].
    split.
    + rewrite lookup_delete_ne; [exact Hrec|].
      intros Heq%(path_join_inj SETUP_STATE_DIR). contradiction.
    + rewrite lookup_delete_ne; [exact Hconf|].
      intros Heq. rewrite <- Heq in Houtside. unfold Py.path_join in Houtside.
      now rewrite <- app_assoc_string, strip_prefix_app in Houtside.
Qed.

Lemma load_fold_kept (names : list string) :
  forall acc : list (Z * string) * filesystem,
    kept acc.2 ->
    (port, wg_config_path) ∈ acc.1 \/ state_file_name port ∈ names ->
    (port, wg_config_path) ∈ (fold_left load_state_step names acc).1.
Proof.
  induction names as [|name names IH]; intros acc Hkept Hin.
  - destruct Hin as [Hin|Hin]; [exact Hin | now apply elem_of_nil in Hin].
  - cbn [fold_left].
    destruct (load_state_step_kept acc name Hkept) as (Hkept' & Hmono & Hhit).
    apply IH; [exact Hkept'|].
    destruct Hin as [Hin|Hin]; [left; now apply Hmono|].
    apply elem_of_cons in Hin as [Heq|Hin]; [left; apply Hhit; now symmetry | now right].
Qed.
End SavedRecord.

(** X4: a tunnel saved with [save_setup_state] whose configuration file is
    there is among the tunnels [load_all_setup_states] returns, for a path
    without white space that does not lie in the state directory. *)
Theorem load_after_save_setup_state (port : Z) (wg_config_path conf : string)
    (fs : filesystem) :
  plain_id wg_config_path ->
  strip_prefix (SETUP_STATE_DIR +:+ "/") wg_config_path = None ->
  fs !! wg_config_path = Some conf ->
  (port, wg_config_path)
    ∈ (load_all_setup_states (save_setup_state port wg_config_path fs)).1.
Proof.
  intros Hplain Houtside Hconf. unfold load_all_setup_states.
  assert (Hrec : save_setup_state port wg_config_path fs !! state_file port
                 = Some (pretty port +:+ String Py.LF "" +:+ wg_config_path
                         +:+ String Py.LF ""))
    by apply lookup_insert_eq.
  apply (load_fold_kept port wg_config_path conf Hplain Houtside); cbn [fst snd].
  - split; [exact Hrec|]. unfold save_setup_state.
    rewrite lookup_insert_ne; [exact Hconf|].
    intros Heq. rewrite <- Heq in Houtside. unfold state_file, Py.path_join in Houtside.
    now rewrite <- app_assoc_string, strip_prefix_app in Houtside.
  - right. destruct (state_file_name_listed port) as (_ & _ & Hne & Hslash).
    now apply (listdir_complete _ _ _ _ Hrec).
Qed.

Lemma load_after_save_setup_state_witness :
  (51000, WG_CONF) ∈ (load_all_setup_states saved_51000).1.
Proof.
  apply (load_after_save_setup_state 51000 WG_CONF WG_CONF_TEXT).
  - split; [discriminate | reflexivity].
  - reflexivity.
  - reflexivity.
Defined.

(** ** The invariant of the store and what it gives *)

(** X5: the store starts consistent and stays so: every record lies in
    the file named after the port it holds in the empty store, after
    [save_setup_state], after [delete_setup_state], and in the store
    [load_all_setup_states] leaves behind. *)
Theorem state_store_invariant :
  store_consistent ∅
  /\ (forall port wg_config_path fs,
        store_consistent fs -> store_consistent (save_setup_state port wg_config_path fs))
  /\ (forall port fs, store_consistent fs -> store_consistent (delete_setup_state port fs))
  /\ (forall fs, store_consistent fs -> store_consistent (load_all_setup_states fs).2).
Proof.
  split; [exact store_consistent_empty|].
  split; [exact store_consistent_save|].
  split; [exact store_consistent_delete|].
  intros fs Hcons name content p path Hlook Hparse.
  apply (Hcons name content p path); [|exact Hparse].
  now apply load_all_setup_states_sub.
Qed.

Lemma state_store_invariant_witness :
  store_consistent (load_all_setup_states (delete_setup_state 51001 saved_51000)).2.
Proof.
  destruct state_store_invariant as (Hempty & Hsave & Hdelete & Hload).
  apply Hload, Hdelete, Hsave, store_consistent_outside; [reflexivity | exact Hempty].
Defined.

Lemma NoDup_omap_inj {A B} (g : A -> option B) (l : list A) :
  (forall x y z, x ∈ l -> y ∈ l -> g x = Some z -> g y = Some z -> x = y) ->
  NoDup l -> NoDup (omap g l).
Proof.
  intros Hinj Hl. induction Hl as [|x l Hx Hl IH]; [constructor|].
  assert (Hrest : NoDup (omap g l)).
  { apply IH. intros y1 y2 z H1 H2. apply Hinj; now apply elem_of_cons; right. }
  cbn [omap list_omap]. destruct (g x) as [z|] eqn:Hz; [|exact Hrest].
  constructor; [|exact Hrest].
  intros [y [Hy Hgy]]%list_elem_of_omap.
  rewrite (Hinj x y z) in Hx; try assumption.
  - contradiction.
  - apply elem_of_cons. now left.
  - apply elem_of_cons. now right.
Qed.

(** [os.listdir] names no file twice. *)
Lemma NoDup_listdir (dir : string) (fs : filesystem) : NoDup (listdir dir fs).
Proof.
  unfold listdir. apply NoDup_omap_inj; [|apply NoDup_map_to_list].
  intros [k1 v1] [k2 v2] name Hin1 Hin2 H1 H2. cbn [fst] in *.
  destruct (strip_prefix (dir +:+ "/") k1) as [n1|] eqn:Hs1; [|discriminate].
  destruct (strip_prefix (dir +:+ "/") k2) as [n2|] eqn:Hs2; [|discriminate].
  destruct (Py.isempty n1 || Py.contains "/" n1); [discriminate|].
  destruct (Py.isempty n2 || Py.contains "/" n2); [discriminate|].
  injection H1 as ->. injection H2 as ->.
  apply strip_prefix_Some in Hs1, Hs2. subst k1 k2.
  apply elem_of_map_to_list in Hin1, Hin2. f_equal. congruence.
Qed.

Lemma load_state_step_shape (acc : list (Z * string) * filesystem) (filename : string) :
  (forall k v, (load_state_step acc filename).2 !! k = Some v -> acc.2 !! k = Some v)
  /\ ((load_state_step acc filename).1 = acc.1
      \/ exists p w content,
           (load_state_step acc filename).1 = acc.1 ++ [(p, w)]
           /\ acc.2 !! Py.path_join SETUP_STATE_DIR filename = Some content
           /\ parse_state_record content = Some (p, w)).
Proof.
  destruct acc as [tunnels fs]. cbn [fst snd]. unfold load_state_step.
  destruct (negb _ || negb _); [split; auto|].
  destruct (fs !! Py.path_join SETUP_STATE_DIR filename) as [content|] eqn:Hlook;
    [|split; auto].
  destruct (parse_state_record content) as [[p w]|] eqn:Hparse; [|split; auto].
  destruct (isfile_in fs w); cbn [fst snd]; split; auto.
  - right. now exists p, w, content.
  - now intros k v [_ Hk]%lookup_delete_Some.
Qed.

Lemma load_fold_ports_distinct (fs0 : filesystem) (names : list string) :
  store_consistent fs0 ->
  forall acc : list (Z * string) * filesystem,
    NoDup names ->
    (forall k v, acc.2 !! k = Some v -> fs0 !! k = Some v) ->
    NoDup (acc.1.*1) ->
    (forall p, p ∈ acc.1.*1 -> state_file_name p ∉ names) ->
    NoDup ((fold_left load_state_step names acc).1.*1).
Proof.
  intros Hcons. induction names as [|name names IH]; intros acc Hnames Hsub Hnodup Hdone;
    [exact Hnodup|].
  cbn [fold_left]. apply NoDup_cons in Hnames as [Hname Hnames].
  destruct (load_state_step_shape acc name) as [Hsub' Hshape].
  apply IH; [exact Hnames | auto | |].
  - destruct Hshape as [->|(p & w & content & -> & Hlook & Hparse)]; [exact Hnodup|].
    rewrite fmap_app. cbn [fmap list_fmap fst].
    apply NoDup_app. split; [exact Hnodup|]. split; [|apply NoDup_singleton].
    intros q Hq ->%list_elem_of_singleton.
    apply (Hdone p Hq). apply elem_of_cons. left.
    symmetry. exact (Hcons name content p w (Hsub _ _ Hlook) Hparse).
  - intros q Hq.
    destruct Hshape as [Heq|(p & w & content & Heq & Hlook & Hparse)]; rewrite Heq in Hq.
    + intros Hin. apply (Hdone q Hq). apply elem_of_cons. now right.
    + rewrite fmap_app in Hq. apply elem_of_app in Hq as [Hq|Hq].
      * intros Hin. apply (Hdone q Hq). apply elem_of_cons. now right.
      * apply list_elem_of_singleton in Hq. cbn [fst] in Hq. subst q.
        now rewrite <- (Hcons name content p w (Hsub _ _ Hlook) Hparse).
Qed.

(** X6: in a store where every record lies in the file named after its
    port, [load_all_setup_states] returns no port twice. *)
Theorem load_all_ports_distinct (fs : filesystem) :
  store_consistent fs -> NoDup ((load_all_setup_states fs).1.*1).
Proof.
  intros Hcons. unfold load_all_setup_states.
  apply (load_fold_ports_distinct fs); cbn [fst snd]; auto.
  - apply NoDup_listdir.
  - constructor.
  - intros p Hp. now apply elem_of_nil in Hp.
Qed.

Lemma load_all_ports_distinct_witness :
  NoDup ((load_all_setup_states (save_setup_state 51001 WG_CONF saved_51000)).1.*1).
Proof.
  apply load_all_ports_distinct.
  apply store_consistent_save, store_consistent_save, store_consistent_outside;
    [reflexivity | apply store_consistent_empty].
Defined.

(** ** Names and subnets of distinct ports *)

(** X7: two ports get the same namespace name, the same host link name
    or the same peer link name only when they are the same port, and they
    get the same subnet exactly when they agree modulo 250. *)
Theorem topology_collisions (p q : Z) :
  (t_ns_name (create_topology p) = t_ns_name (create_topology q) <-> p = q)
  /\ (t_veth_host (create_topology p) = t_veth_host (create_topology q) <-> p = q)
  /\ (t_veth_ns (create_topology p) = t_veth_ns (create_topology q) <-> p = q)
  /\ (t_subnet (create_topology p) = t_subnet (create_topology q)
      <-> p mod 250 = q mod 250).
Proof.
  unfold create_topology. cbn [t_ns_name t_veth_host t_veth_ns t_subnet].
  repeat split; try (intros ->; reflexivity).
  - intros H%string_app_inv_head. now apply (inj pretty).
  - intros H%string_app_inv_head. now apply (inj pretty).
  - intros H%string_app_inv_head. now apply (inj pretty).
  - intros H%port_name_inj. lia.
Qed.

(** ** Quoting of the derived names *)

(** X8: for every port, [shlex.quote] leaves the namespace name and both
    link names as they are: the commands name them without quotes. *)
Theorem quote_topology_names (port : Z) :
  let t := create_topology port in
  Py.quote (t_ns_name t) = t_ns_name t
  /\ Py.quote (t_veth_host t) = t_veth_host t
  /\ Py.quote (t_veth_ns t) = t_veth_ns t.
Proof.
  cbn [create_topology t_ns_name t_veth_host t_veth_ns].
  repeat split; now apply quote_port_name.
Qed.

(** ** Per-port credential files *)

(** X9: the credential files of two distinct ports are distinct: writing
    the identifiers of one port leaves what is read for any other port as
    it was. *)
Theorem uuid_files_independent (p q : Z) (uuids : list string) (fs : filesystem) :
  p <> q ->
  load_uuids_from_file p (save_uuids_to_file q uuids fs) = load_uuids_from_file p fs.
Proof.
  intros Hpq. unfold load_uuids_from_file, save_uuids_to_file.
  rewrite lookup_insert_ne; [reflexivity|].
  intros H%uuid_file_inj. congruence.
Qed.

Lemma uuid_files_independent_witness :
  load_uuids_from_file 51000 (save_uuids_to_file 51001 ["u1"] ∅) = None.
Proof.
  rewrite (uuid_files_independent 51000 51001 ["u1"] ∅) by lia. reflexivity.
Defined.

(** ** Refresh with nothing to install *)

Lemma panel_db_dbs {P : platform} (m : machine P) (path : string) (db : sqlite_db) :
  panel_db P m = Some (path, db) -> dbs P m !! path = Some db.
Proof.
  unfold panel_db. destruct (PANEL_DB_PATH P m) as [p|]; [|discriminate].
  destruct (Py.isempty p); [discriminate|].
  destruct (dbs P m !! p) as [d|] eqn:Hd; [|discriminate]. now intros [= <- <-].
Qed.

Lemma panel_db_log {P : platform} (e : event) (m : machine P) :
  panel_db P (log P e m) = panel_db P m.
Proof. reflexivity. Qed.

(** The change detector on an empty extraction: no result, and the state
    as before but for the stored hash. *)
Lemma detect_change_empty_state (P : platform) (force : bool) (path : string)
    (m : machine P) :
  extract_uuids_from_sqlite P (dbs P m !! path) = [] ->
  exists m',
    detect_change P force path m = (Ok None, m')
    /\ trace P m' = trace P m /\ world P m' = world P m
    /\ LAST_UUID_COUNT P m' = LAST_UUID_COUNT P m
    /\ LAST_UUID_HASH P m' = LAST_UUID_HASH P m
    /\ forall k, k <> UUID_HASH_FILE -> files P m' !! k = files P m !! k.
Proof.
  intros He. unfold detect_change.
  destruct (match load_last_db_mtime (files P m) with None => _ | Some _ => _ end);
    cbn [dbs set_files]; rewrite He; eexists; (split; [reflexivity|]);
    repeat split; try reflexivity; intros k Hk; cbn [files set_files].
  unfold save_last_uuid_hash. now rewrite lookup_insert_ne.
Qed.

(** X10: when the credential source is configured and there but yields no
    identifier, the refresh returns without running any command: the
    proxies and the per-port files are left as they are, the counters in
    memory are not updated, and of the files only the stored hash may
    change. *)
Theorem refresh_empty_extraction (P : platform) (force : bool) (m : machine P)
    (path : string) (db : sqlite_db) :
  panel_db P m = Some (path, db) ->
  extract_uuids_from_sqlite P (Some db) = [] ->
  exists m',
    refresh_uuids_for_all_namespaces P force m = (Ok tt, m')
    /\ trace P m' = trace P m ++ [Refresh force]
    /\ world P m' = world P m
    /\ LAST_UUID_COUNT P m' = LAST_UUID_COUNT P m
    /\ LAST_UUID_HASH P m' = LAST_UUID_HASH P m
    /\ forall k, k <> UUID_HASH_FILE -> files P m' !! k = files P m !! k.
Proof.
  intros Hdb Hempty. unfold refresh_uuids_for_all_namespaces.
  rewrite bind_modify, bind_gets, panel_db_log, Hdb.
  rewrite bind_ret, bind_gets, panel_db_log, Hdb.
  destruct (detect_change_empty_state P force path (log P (Refresh force) m))
    as (m' & Hrun & Htrace & Hworld & Hcount & Hhash & Hfiles).
  { cbn [dbs log]. now rewrite (panel_db_dbs m path db Hdb). }
  rewrite bind_unfold, Hrun. exists m'. split; [reflexivity|].
  rewrite Htrace, Hworld, Hcount, Hhash. repeat split; try reflexivity. exact Hfiles.
Qed.

Lemma refresh_empty_extraction_witness :
  exists m',
    refresh_uuids_for_all_namespaces panel_platform true
      (machine_panel (panel_db_of [] [] 1700000000)) = (Ok tt, m')
    /\ trace panel_platform m' = [Refresh true].
Proof.
  destruct (refresh_empty_extraction panel_platform true
              (machine_panel (panel_db_of [] [] 1700000000)) MARZBAN_DB
              (panel_db_of [] [] 1700000000))
    as (m' & Hrun & Htrace & _); [reflexivity | reflexivity |].
  exists m'. split; [exact Hrun | exact Htrace].
Defined.

(** ** Calls of one kind *)

Section Emits.
Context {P : platform} (Q : event -> Prop).

Lemma emits_ret {A} (a : A) : emits Q (ret P a).
Proof. intros m. exists []. now rewrite app_nil_r. Qed.

Lemma emits_raise {A} (e : exn) : emits Q (raise P e : M P A).
Proof. intros m. exists []. now rewrite app_nil_r. Qed.

Lemma emits_bind {A B} (c : M P A) (k : A -> M P B) :
  emits Q c -> (forall a, emits Q (k a)) -> emits Q (bind P c k).
Proof.
  intros Hc Hk m. rewrite bind_unfold. destruct (Hc m) as (t & Ht & HQ).
  destruct (c m) as [[a|e] m1]; cbn [snd] in *.
  - destruct (Hk a m1) as (t' & Ht' & HQ'). exists (t ++ t').
    rewrite Ht', Ht, app_assoc. split; [reflexivity | now apply Forall_app].
  - now exists t.
Qed.

Lemma emits_run_cmd (ns : option string) (cmd : string) :
  Q (Run ns cmd) -> emits Q (run_cmd P ns cmd).
Proof.
  intros HQ m. rewrite run_cmd_in_eq. destruct (run_raises ns cmd).
  - exists []. now rewrite app_nil_r.
  - exists [Run ns cmd]. split; [apply trace_after_run | now constructor].
Qed.

Lemma emits_modify (f : machine P -> machine P) :
  keeps_trace f -> emits Q (modify P f).
Proof. intros Hf m. exists []. cbn. now rewrite Hf, app_nil_r. Qed.

Lemma emits_for_each {A} (xs : list A) (body : A -> M P unit) :
  (forall x, emits Q (body x)) -> emits Q (for_each P xs body).
Proof.
  intros Hb. induction xs as [|x xs IH]; cbn [for_each].
  - apply emits_ret.
  - apply emits_bind; [apply Hb | intros _; exact IH].
Qed.
End Emits.

Lemma emits_managed_namespaces {P : platform} : emits is_query (managed_namespaces P).
Proof.
  unfold managed_namespaces.
  apply emits_bind; [apply emits_run_cmd; now left | intros res; apply emits_ret].
Qed.

(** The loop body taken when nothing changed asks for the address and the
    port and writes the per-port file. *)
Lemma emits_update_file_only {P : platform} (uuids : list string) (ns : string) :
  emits is_query (update_file_only P uuids ns).
Proof.
  unfold update_file_only.
  apply emits_bind; [apply emits_run_cmd; right; left; now exists ns|].
  intros res_ip. cbv zeta. destruct (Py.isempty _); [apply emits_ret|].
  apply emits_bind; [apply emits_run_cmd; right; right; eauto|].
  intros res_port. cbv zeta. destruct (Py.isdigit _); [|apply emits_ret].
  apply emits_bind.
  - unfold int_or_raise. destruct (Py.int _); [apply emits_ret | apply emits_raise].
  - intros port. apply emits_modify, keeps_trace_set_files.
Qed.

(** X11: when nothing changed, the refresh restarts no proxy.  With no
    restart forced, the stored modification time that of the source and
    the previous hash that of the extraction, every call it makes is a
    query: the listing of the namespaces, the address of a namespace, the
    port forwarded to it.  No process is looked up, killed or started. *)
Theorem refresh_unchanged_no_restart (P : platform) (m : machine P)
    (path : string) (db : sqlite_db) :
  panel_db P m = Some (path, db) ->
  extract_uuids_from_sqlite P (Some db) <> [] ->
  load_last_db_mtime (files P m) = Some (db_mtime db) ->
  prior_hash m = Some (get_uuids_hash P (extract_uuids_from_sqlite P (Some db))) ->
  exists t,
    trace P (refresh_uuids_for_all_namespaces P false m).2
    = trace P m ++ Refresh false :: t
    /\ Forall is_query t.
Proof.
  intros Hdb Hne Hmtime Hhash. unfold refresh_uuids_for_all_namespaces.
  rewrite bind_modify, bind_gets, panel_db_log, Hdb.
  rewrite bind_ret, bind_gets, panel_db_log, Hdb.
  set (m1 := log P (Refresh false) m).
  destruct (detect_change_decision P false path m1 db) as (m2 & Hrun);
    [exact (panel_db_dbs m path db Hdb) | exact Hne |].
  rewrite bool_decide_eq_false_2 in Hrun.
  2:{ intros [H|[H|[H|H]]]; [discriminate H | | |].
      - now apply H.
      - unfold m1 in H. change (prior_hash (log P (Refresh false) m)) with (prior_hash m) in H.
        congruence.
      - apply H. exact Hhash. }
  destruct (detect_change_ok (P:=P) false path m1) as (r & m2' & Hrun' & Htrace & _).
  rewrite Hrun in Hrun'. injection Hrun' as <- <-.
  rewrite bind_unfold, Hrun.
  destruct (emits_bind is_query (managed_namespaces P)
              (fun namespaces =>
                 for_each P namespaces
                   (update_file_only P (extract_uuids_from_sqlite P (Some db))))
              emits_managed_namespaces
              (fun namespaces =>
                 emits_for_each is_query namespaces _
                   (emits_update_file_only (extract_uuids_from_sqlite P (Some db))))
              m2) as (t & Ht & HQ).
  exists t. split; [|exact HQ].
  rewrite Ht, Htrace. unfold m1. cbn [trace log]. now rewrite <- app_assoc.
Qed.

Lemma refresh_unchanged_no_restart_witness :
  let db := panel_db_of [] [SqlText "u1"] 1700000000 in
  let m := (refresh_uuids_for_all_namespaces panel_platform false (machine_panel db)).2 in
  exists t,
    trace panel_platform (refresh_uuids_for_all_namespaces panel_platform false m).2
    = trace panel_platform m ++ Refresh false :: t
    /\ Forall is_query t.
Proof.
  intros db m.
  apply (refresh_unchanged_no_restart panel_platform m MARZBAN_DB db).
  - vm_compute. reflexivity.
  - vm_compute. discriminate.
  - vm_compute. reflexivity.
  - vm_compute. reflexivity.
Defined.

(** ** Early exits of Create *)

Lemma emits_first_answer {P : platform} (cmds : list string) :
  Forall (fun cmd => is_resolver (Run None cmd)) cmds ->
  emits is_resolver (first_answer P cmds).
Proof.
  induction 1 as [|cmd cmds Hcmd _ IH]; [apply emits_ret|].
  cbn [first_answer]. apply emits_bind; [now apply emits_run_cmd|].
  intros res. cbv zeta. destruct (Py.isempty _); [exact IH | apply emits_ret].
Qed.

Lemma emits_read_text {P : platform} (Q : event -> Prop) (path : string) :
  emits Q (read_text P path).
Proof.
  intros m. exists []. unfold read_text.
  destruct (files P m !! path); now rewrite app_nil_r.
Qed.

(** [resolve_endpoint_ip] runs resolvers and nothing else. *)
Lemma emits_resolve_endpoint_ip {P : platform} (wg_config : string) :
  emits is_resolver (resolve_endpoint_ip P wg_config).
Proof.
  unfold resolve_endpoint_ip. apply emits_bind; [apply emits_read_text|].
  intros content. cbv zeta. destruct (Py.isempty _); [apply emits_ret|].
  apply emits_bind; [|intros ip; apply emits_ret].
  apply emits_first_answer.
  repeat constructor; eexists; (split; [reflexivity|]); auto.
Qed.

(** An answer of [first_answer] is the answer of a resolver. *)
Lemma first_answer_cases {P : platform} (cmds : list string) :
  Forall (fun cmd => is_resolver (Run None cmd)) cmds ->
  forall m, exists ip m1,
    first_answer P cmds m = (Ok ip, m1)
    /\ (Py.isempty ip = false -> ~ no_resolver_answers P).
Proof.
  induction 1 as [|cmd cmds Hcmd _ IH]; intros m.
  - exists "", m. split; [reflexivity | discriminate].
  - cbn [first_answer]. rewrite bind_run_cmd. cbv zeta.
    destruct (Py.isempty (Py.strip (stdout (shell P None cmd (world P m)).1))) eqn:Hblank.
    + apply IH.
    + eexists _, _. split; [reflexivity|].
      intros _ Hnone. specialize (Hnone cmd (world P m) Hcmd). congruence.
Qed.

(** [resolve_endpoint_ip] raises only for want of the configuration, and
    an address it gives is the answer of a resolver. *)
Lemma resolve_endpoint_ip_cases {P : platform} (wg_config : string) (m : machine P) :
  match (resolve_endpoint_ip P wg_config m).1 with
  | Ok resolved => Py.isempty resolved.2 = false -> ~ no_resolver_answers P
  | Raise e => e = FileNotFoundError
  end.
Proof.
  unfold resolve_endpoint_ip. rewrite bind_unfold. unfold read_text.
  destruct (files P m !! wg_config) as [content|]; [|reflexivity].
  cbv zeta. destruct (Py.isempty _); [cbn; discriminate|].
  rewrite bind_unfold.
  match goal with
  | |- context [first_answer P ?cmds m] =>
      destruct (first_answer_cases cmds
                  ltac:(repeat constructor; eexists; (split; [reflexivity|]); auto) m)
        as (ip & m1 & -> & Hip)
  end.
  exact Hip.
Qed.

Ltac early_leaf :=
  eexists _, _; (split; [reflexivity|]);
  (split; [|split; [|split]]); intros Hr;
  first
    [ discriminate Hr
    | contradiction
    | split; [files_frame | outcome]
    | outcome ].

Ltac early_opaque c lemma :=
  rewrite bind_unfold;
  match goal with
  | |- context [c ?M] =>
      let Hm := fresh "Hm" in
      let Hf := fresh "Hf" in
      let m' := fresh "m" in
      remember M as m' eqn:Hm;
      apply (f_equal (files _)) in Hm;
      rewrite ?files_after_run in Hm;
      pose proof (lemma m') as Hf;
      destruct (c m') as [[? | ?] ?]; cbn [snd] in Hf; [|early_leaf]
  end.

Ltac early_checked :=
  match goal with
  | |- context [negb (returncode ?r =? 0)] => destruct (returncode r =? 0)
  end; cbn [negb]; repeat mstep; [|early_leaf].

Ltac early_in_namespace := repeat first [mstep | mstep_in early_leaf].

Ltac early_after_namespace P port wg_config :=
  cbn [negb]; repeat mstep;
  early_checked;
  unfold configure_veth; early_in_namespace;
  early_opaque (derive_wg_name P port) (@keeps_files_derive_wg_name P port);
  early_opaque (read_wg_address P wg_config) (@keeps_files_read_wg_address P wg_config);
  repeat mstep;
  early_checked;
  early_checked;
  unfold install_tunnel_and_rules, write_text, save_state; early_in_namespace;
  match goal with
  | |- context [start_xray_after_create P ?input ?choose ?start port ?ns ?M] =>
      let Hend := fresh "Hend" in
      let r := fresh "r" in
      let m' := fresh "m" in
      pose proof (start_xray_after_create_answers input choose start port ns M) as Hend;
      destruct (start_xray_after_create P input choose start port ns M) as [r m'];
      exists r, m'; (split; [reflexivity|]);
      (split; [|split; [|split]]); intros Hr;
      first [ contradiction | subst r; cbn [fst] in Hend; destruct Hend; discriminate ]
  end.

(** X12: the early exits of [create_setup].  When no resolver gives an
    answer the run ends at the endpoint check, or, when the configuration
    file is missing, by [FileNotFoundError]; a run that ends at the endpoint
    check has run the removal of the leftovers of the port and resolvers
    only, and the files are as before: nothing was created.  When the
    creation of the namespace cannot succeed, the files are as before and
    the run ends at the namespace check or before, at the endpoint check or
    for want of the configuration file; a run that ends at the namespace
    check has run the removal of the leftovers, resolvers, the creation of
    the namespace, its deletion and the creation once more, and nothing
    else: the creation is tried twice and no link is created.  This holds
    whatever the prompts, the choice of the panel and the start of the
    watcher do. *)
Theorem create_setup_early_exits (P : platform) (input : M P string)
    (choose_uuids_from_panel : M P (list string))
    (start_background_uuid_watcher : M P bool)
    (port : Z) (wg_config : string) (m : machine P) :
  let ns_name := ns_name_of port in
  exists r m',
    create_setup P input choose_uuids_from_panel start_background_uuid_watcher
      port wg_config m = (r, m')
    /\ (r = Ok EndpointResolutionFailed ->
        files P m' = files P m
        /\ exists t,
             trace P m' = trace P m ++ map (Run None) (create_cleanup port) ++ t
             /\ Forall is_resolver t)
    /\ (r = Ok NamespaceCreateFailed ->
        files P m' = files P m
        /\ exists t,
             trace P m' =
               trace P m ++ map (Run None) (create_cleanup port) ++ t
               ++ [Run None (netns_add ns_name);
                   Run None (netns_delete ns_name);
                   Run None (netns_add ns_name)]
             /\ Forall is_resolver t)
    /\ (no_resolver_answers P ->
        r = Ok EndpointResolutionFailed
        \/ (r = Raise FileNotFoundError /\ files P m !! wg_config = None))
    /\ (never_succeeds P (netns_add ns_name) ->
        files P m' = files P m
        /\ (r = Ok NamespaceCreateFailed
            \/ r = Ok EndpointResolutionFailed
            \/ (r = Raise FileNotFoundError /\ files P m !! wg_config = None))).
Proof.
  intros ns_name. unfold create_setup. cbv zeta. repeat mstep.
  rewrite bind_unfold.
  match goal with
  | |- context [resolve_endpoint_ip P wg_config ?M] =>
      destruct (emits_resolve_endpoint_ip wg_config M) as (t & Ht & Hresolvers);
      pose proof (keeps_files_resolve_endpoint_ip wg_config M) as Hf;
      pose proof (resolve_endpoint_ip_cases wg_config M) as Hcases;
      pose proof (resolve_endpoint_ip_raises wg_config M) as Hraise;
      rewrite !files_after_run in Hf, Hraise;
      rewrite !trace_after_run, <- !app_assoc in Ht;
      destruct (resolve_endpoint_ip P wg_config M) as [[resolved|e] m1]
  end; cbn [fst snd] in Ht, Hf, Hcases, Hraise.
  2: { destruct Hraise as [_ Hnone]. subst e. eexists _, _. split; [reflexivity|].
       split; [discriminate|]. split; [discriminate|].
       split; [intros _; now right|].
       intros _. split; [exact Hf | now do 2 right]. }
  clear Hraise. destruct (Py.isempty _).
  { eexists _, _. split; [reflexivity|].
    split; [intros _; split; [exact Hf|]; exists t; now split|].
    split; [discriminate|].
    split; [intros _; now left|].
    intros _. split; [exact Hf | right; now left]. }
  specialize (Hcases eq_refl).
  rewrite bind_run_cmd.
  match goal with
  | |- context [bind P (if returncode (shell P None ?cmd ?w).1 =? 0 then _ else _) _ _] =>
      destruct (returncode (shell P None cmd w).1 =? 0) eqn:Hadded;
      [apply ran_successfully in Hadded|clear Hadded]
  end; repeat mstep.
  - clear Ht Hresolvers. early_after_namespace P port wg_config.
  - match goal with
    | |- context [negb (returncode (shell P None ?cmd ?w).1 =? 0)] =>
        destruct (returncode (shell P None cmd w).1 =? 0) eqn:Hagain;
        [apply ran_successfully in Hagain|clear Hagain]
    end.
    + clear Ht Hresolvers. early_after_namespace P port wg_config.
    + eexists _, _. split; [reflexivity|].
      split; [discriminate|].
      split.
      { intros _. split; [now rewrite !files_after_run|].
        exists t. split; [|exact Hresolvers].
        rewrite trace_after_3, Ht. now rewrite <- !app_assoc. }
      split; [intros Hnone; contradiction|].
      intros _. split; [now rewrite !files_after_run | now left].
Qed.

Lemma quiet_no_resolver_answers : no_resolver_answers quiet_platform.
Proof. intros cmd w _. reflexivity. Qed.

Lemma no_netns_never : never_succeeds platform_no_netns (netns_add "ns-51000").
Proof. intros w. vm_compute. discriminate. Qed.

Lemma create_setup_early_exits_witness :
  no_resolver_answers quiet_platform
  /\ (exists m',
        create_setup quiet_platform (input_enter _) (choose_no_panel _) (watcher_starts _)
          51000 WG_CONF (machine_with_conf quiet_platform tt)
        = (Ok EndpointResolutionFailed, m')
        /\ files quiet_platform m' = {[ WG_CONF := WG_CONF_TEXT ]})
  /\ never_succeeds platform_no_netns (netns_add "ns-51000")
  /\ (exists m' t,
        create_setup platform_no_netns (input_enter _) (choose_no_panel _) (watcher_starts _)
          51000 WG_CONF (machine_with_conf platform_no_netns tt)
        = (Ok NamespaceCreateFailed, m')
        /\ trace platform_no_netns m' =
             map (Run None) (create_cleanup 51000) ++ t
             ++ [Run None (netns_add "ns-51000");
                 Run None (netns_delete "ns-51000");
                 Run None (netns_add "ns-51000")]
        /\ Forall is_resolver t
        /\ files platform_no_netns m' = {[ WG_CONF := WG_CONF_TEXT ]}).
Proof.
  split; [exact quiet_no_resolver_answers|]. split.
  { destruct (create_setup_early_exits quiet_platform (input_enter _) (choose_no_panel _)
                (watcher_starts _) 51000 WG_CONF (machine_with_conf quiet_platform tt))
      as (r & m' & Hrun & Hend & _ & Hnone & _).
    destruct (Hnone quiet_no_resolver_answers) as [-> | [-> _]].
    - exists m'. split; [exact Hrun|]. exact (proj1 (Hend eq_refl)).
    - vm_compute in Hrun. discriminate Hrun. }
  split; [exact no_netns_never|].
  destruct (create_setup_early_exits platform_no_netns (input_enter _) (choose_no_panel _)
              (watcher_starts _) 51000 WG_CONF (machine_with_conf platform_no_netns tt))
    as (r & m' & Hrun & _ & Hns & _ & Hnever).
  assert (Hr : r = Ok NamespaceCreateFailed).
  { vm_compute in Hrun. now injection Hrun as <- _. }
  subst r. destruct (Hns eq_refl) as (_ & t & Htr & Hres).
  exists m', t. split; [exact Hrun|]. split; [exact Htr|]. split; [exact Hres|].
  exact (proj1 (Hnever no_netns_never)).
Defined.

(** ** Failure of the restore of one tunnel *)

Ltac raise_leaf := eexists _, _; split; [reflexivity | discriminate].

Ltac restore_fail tac :=
  eexists _, _; (split; [reflexivity|]);
  intros _; (split; [files_frame|]); tac.

Ltac restore_opaque c lemma :=
  rewrite bind_unfold;
  match goal with
  | |- context [c ?M] =>
      let Hm := fresh "Hm" in
      let Hf := fresh "Hf" in
      let m' := fresh "m" in
      remember M as m' eqn:Hm;
      apply (f_equal (files _)) in Hm;
      rewrite ?files_after_run in Hm;
      pose proof (lemma m') as Hf;
      destruct (c m') as [[? | ?] ?]; cbn [snd] in Hf; [|raise_leaf]
  end.

Ltac restore_checked tac :=
  match goal with
  | |- context [negb (returncode ?r =? 0)] => destruct (returncode r =? 0)
  end; cbn [negb]; repeat mstep; [|restore_fail tac].

(** X13: whenever [restore_setup] returns [False] the files are as before
    and nothing it created is left.  Either the endpoint was not resolved
    and it has run the listing of the namespaces and resolvers only; or the
    creation of the namespace failed and was its last command; or a later
    checked step failed and what had been created was deleted in reverse
    order right after it: the namespace after the link pair, the link pair
    and the namespace after the tunnel interface, the tunnel interface, the
    link pair and the namespace after the tunnel configuration. *)
Theorem restore_setup_failure (P : platform) (port : Z) (wg_config_path : string)
    (m : machine P) :
  let ns_name := ns_name_of port in
  let veth_host := veth_host_of port in
  exists r m',
    restore_setup P port wg_config_path m = (r, m')
    /\ (r = Ok false ->
        files P m' = files P m
        /\ ((exists t,
               trace P m' = trace P m ++ Run None NETNS_LIST :: t
               /\ Forall is_resolver t)
            \/ (exists tr, trace P m' = tr ++ [Run None (netns_add ns_name)])
            \/ (exists tr,
                  trace P m' = tr ++ [Run None (veth_add veth_host (veth_ns_of port));
                                      Run None (netns_delete ns_name)])
            \/ (exists tr wg_name,
                  trace P m' = tr ++ [Run None (wg_add wg_name);
                                      Run None (link_delete veth_host);
                                      Run None (netns_delete ns_name)])
            \/ (exists tr wg_name,
                  trace P m' = tr ++ [Run None (wg_add wg_name);
                                      Run None (wg_setconf wg_config_path wg_name);
                                      Run None (link_delete wg_name);
                                      Run None (link_delete veth_host);
                                      Run None (netns_delete ns_name)]))).
Proof.
  intros ns_name veth_host. unfold restore_setup. cbv zeta.
  rewrite bind_run_cmd.
  destruct (Py.mem _ _); [raise_leaf|].
  rewrite bind_unfold.
  match goal with
  | |- context [resolve_endpoint_ip P wg_config_path ?M] =>
      destruct (emits_resolve_endpoint_ip wg_config_path M) as (t & Ht & Hresolvers);
      pose proof (keeps_files_resolve_endpoint_ip wg_config_path M) as Hf;
      rewrite !files_after_run in Hf;
      rewrite !trace_after_run, <- !app_assoc in Ht;
      destruct (resolve_endpoint_ip P wg_config_path M) as [[resolved|e] m1]
  end; cbn [snd] in Ht, Hf; [|raise_leaf].
  destruct (Py.isempty _).
  { eexists _, _. split; [reflexivity|]. intros _. split; [exact Hf|].
    left. exists t. split; [exact Ht | exact Hresolvers]. }
  clear Ht Hresolvers.
  rewrite bind_run_cmd.
  restore_checked ltac:(right; left; eexists; apply trace_after_run).
  restore_checked ltac:(do 2 right; left; eexists; apply trace_after_2).
  unfold configure_veth; repeat first [mstep | mstep_in raise_leaf].
  restore_opaque (derive_wg_name P port) (@keeps_files_derive_wg_name P port).
  restore_opaque (read_wg_address P wg_config_path)
                 (@keeps_files_read_wg_address P wg_config_path).
  repeat mstep.
  restore_checked ltac:(do 3 right; left; eexists _, _; apply trace_after_3).
  restore_checked ltac:(do 4 right; eexists _, _; apply trace_after_5).
  unfold install_tunnel_and_rules, write_text; repeat first [mstep | mstep_in raise_leaf].
  rewrite bind_unfold.
  destruct (call_ensure_xray_binary P _) as [[[]|e] m6]; [| |raise_leaf].
  - rewrite bind_unfold.
    destruct (refresh_uuids_for_all_namespaces P true m6) as [[[]|e] m7]; raise_leaf.
  - rewrite bind_ret. raise_leaf.
Qed.

Lemma restore_setup_failure_witness :
  exists m',
    restore_setup platform_no_veth 51000 WG_CONF (machine_with_conf platform_no_veth tt)
      = (Ok false, m')
    /\ files platform_no_veth m' = {[ WG_CONF := WG_CONF_TEXT ]}.
Proof.
  destruct (restore_setup_failure platform_no_veth 51000 WG_CONF
              (machine_with_conf platform_no_veth tt))
    as (r & m' & Hrun & Hfail).
  assert (Hr : r = Ok false).
  { vm_compute in Hrun. now injection Hrun as <- _. }
  subst r. exists m'. split; [exact Hrun|]. exact (proj1 (Hfail eq_refl)).
Defined.

(** ** The restore loop *)

Lemma orderly_first_answer {P : platform} (cmds : list string) :
  orderly (first_answer P cmds).
Proof.
  induction cmds as [|cmd cmds IH]; cbn [first_answer]; [apply orderly_ret|].
  apply orderly_bind; [apply orderly_run_cmd|].
  intros res. cbv zeta. destruct (Py.isempty _); [exact IH | apply orderly_ret].
Qed.

Lemma orderly_resolve_endpoint_ip {P : platform} (wg_config : string) :
  orderly (resolve_endpoint_ip P wg_config).
Proof.
  unfold resolve_endpoint_ip. apply orderly_bind; [apply orderly_read_text|].
  intros content. cbv zeta. destruct (Py.isempty _); [apply orderly_ret|].
  apply orderly_bind; [apply orderly_first_answer | intros ip; apply orderly_ret].
Qed.

Lemma orderly_restore_setup {P : platform} (port : Z) (wg_config_path : string) :
  orderly (restore_setup P port wg_config_path).
Proof.
  unfold restore_setup. cbv zeta.
  apply orderly_bind; [apply orderly_run_cmd|]. intros listing.
  destruct (Py.mem _ _); [apply orderly_ret|].
  apply orderly_bind; [apply orderly_resolve_endpoint_ip|]. intros resolved.
  unfold configure_veth, derive_wg_name, read_wg_address, install_tunnel_and_rules.
  orderly.
  all: apply orderly_refresh.
Qed.

(** One record of the loop always gives an answer: an exception of the
    restore is caught. *)
Lemma restore_one_returns {P : platform} (tunnel : Z * string) (m : machine P) :
  exists ok m', restore_one P tunnel m = (Ok ok, m').
Proof.
  destruct tunnel as [port wg_config_path]. unfold restore_one.
  apply try_except_returns. cbv zeta.
  apply orderly_bind; [apply orderly_run_cmd|]. intros listing.
  destruct (Py.mem _ _); [apply orderly_ret|].
  apply orderly_bind; [apply orderly_isfile|]. intros present.
  destruct (_ || _); [apply orderly_ret | apply orderly_restore_setup].
Qed.

(** The body lists the namespaces first, whatever follows. *)
Lemma restore_one_trace {P : platform} (tunnel : Z * string) (m : machine P) :
  exists t, trace P (restore_one P tunnel m).2 = trace P m ++ Run None NETNS_LIST :: t.
Proof.
  destruct tunnel as [port wg_config_path]. unfold restore_one, try_except.
  rewrite bind_run_cmd.
  match goal with
  | |- context [(if ?b then ?c1 else ?c2) (after_run None NETNS_LIST m)] =>
      assert (Hrest : orderly (if b then c1 else c2))
  end.
  { destruct (Py.mem _ _); [apply orderly_ret|].
    apply orderly_bind; [apply orderly_isfile|]. intros present.
    destruct (_ || _); [apply orderly_ret | apply orderly_restore_setup]. }
  destruct (Hrest (after_run None NETNS_LIST m)) as [_ [t Ht]].
  rewrite trace_after_run in Ht.
  match goal with
  | |- context [match ?c with _ => _ end] => destruct c as [[ok|e] m1]
  end; cbn [snd] in Ht |- *.
  - exists t. now rewrite Ht, <- app_assoc.
  - destruct (is_Exception e); cbn [ret snd]; exists t; now rewrite Ht, <- app_assoc.
Qed.

(** X14: the loop of [restore_all_setups] runs its body on every tunnel of
    the list, in order, whatever happens to each of them: every run of the
    body lists the namespaces and gives an answer, an exception of the
    restore being caught, and the loop returns the count it started with
    plus the number of tunnels restored. *)
Theorem restore_each_total (P : platform) (tunnels : list (Z * string)) :
  forall (restored_count : Z) (m : machine P),
    exists oks m',
      visits tunnels m oks m'
      /\ restore_each P tunnels restored_count m
         = (Ok (restored_count + Z.of_nat (length (filter (fun ok => ok = true) oks))), m').
Proof.
  induction tunnels as [|tunnel rest IH]; intros restored_count m.
  - exists [], m. split; [constructor|]. cbn. now rewrite Z.add_0_r.
  - cbn [restore_each]. rewrite bind_unfold.
    destruct (restore_one_trace tunnel m) as (t & Ht).
    destruct (restore_one_returns tunnel m) as (ok & m1 & Hone).
    rewrite Hone in Ht |- *. cbn [snd] in Ht.
    destruct (IH (if ok then restored_count + 1 else restored_count) m1)
      as (oks & m' & Hvisits & ->).
    exists (ok :: oks), m'. split; [exact (visits_cons _ _ _ _ _ _ _ _ Hone Ht Hvisits)|].
    destruct ok; [rewrite filter_cons_True by reflexivity
                 |rewrite filter_cons_False by discriminate];
      cbn [length]; do 2 f_equal; lia.
Qed.

(** The restore of the first tunnel raises [IndexError]; the loop goes on
    to the second, restores it and returns the count 1. *)
Lemma restore_each_total_witness :
  let tunnels := [(51000, WG_CONF); (51001, WG_CONF_51001)] in
  restore_setup (resolving_platform []) 51000 WG_CONF machine_two_tunnels
    = (Raise IndexError,
       (restore_setup (resolving_platform []) 51000 WG_CONF machine_two_tunnels).2)
  /\ exists oks m',
       visits tunnels machine_two_tunnels oks m'
       /\ restore_each (resolving_platform []) tunnels 0 machine_two_tunnels = (Ok 1, m').
Proof.
  intros tunnels. split; [vm_compute; reflexivity|].
  destruct (restore_each_total (resolving_platform []) tunnels 0 machine_two_tunnels)
    as (oks & m' & Hvisits & Hrun).
  exists oks, m'. split; [exact Hvisits|].
  assert (Hcount : (restore_each (resolving_platform []) tunnels 0 machine_two_tunnels).1
                   = Ok 1) by (vm_compute; reflexivity).
  rewrite Hrun in Hcount |- *. cbn [fst] in Hcount. now rewrite Hcount.
Defined.

(** ** Identifiers of the structured extraction *)

Lemma proxy_uuid_not_blank (P : platform) (row : sqlval * sqlval) (u : string) :
  proxy_uuid P row = Some u -> u <> "".
Proof.
  destruct row as [settings_json user_id]. unfold proxy_uuid.
  destruct (sql_truthy settings_json && sql_truthy user_id); [|discriminate].
  destruct settings_json as [| | |text|]; try discriminate.
  destruct (json_loads P text) as [[| | | | |settings]|]; try discriminate.
  destruct (dict_get "id" settings) as [[| | |uuid_val| |]|]; try discriminate.
  destruct (Py.strip uuid_val) as [|c s]; cbn; [discriminate|].
  now intros [= <-].
Qed.

Lemma add_user_not_blank (uuids : list string) (val : sqlval) :
  Forall (fun u => u <> "") uuids -> Forall (fun u => u <> "") (add_user uuids val).
Proof.
  intros Huuids. unfold add_user. destruct val as [| | |s|]; try exact Huuids.
  cbv zeta. destruct (Py.strip s) as [|c v] eqn:Hv; cbn [Py.isempty negb andb];
    [exact Huuids|].
  destruct (negb (Py.mem _ uuids)); [|exact Huuids].
  apply Forall_app. split; [exact Huuids|]. now repeat constructor.
Qed.

Lemma fold_add_user_not_blank (vals : list sqlval) :
  forall uuids,
    Forall (fun u => u <> "") uuids ->
    Forall (fun u => u <> "") (fold_left add_user vals uuids).
Proof.
  induction vals as [|val vals IH]; intros uuids Huuids; [exact Huuids|].
  cbn [fold_left]. now apply IH, add_user_not_blank.
Qed.

(** X15: no identifier of the structured extraction is empty: the rows of
    [proxies] and of [users] whose identifier is missing, empty or white
    space only contribute nothing, whatever the tables hold. *)
Theorem extract_structured_not_blank (P : platform) (db : sqlite_db) :
  Forall (fun u => u <> "") (extract_structured P db).
Proof.
  unfold extract_structured.
  destruct (db_tables db) as [tables|]; [|constructor].
  set (proxies := if Py.mem "proxies" tables then _ else _).
  assert (Hproxies : forall uuids, proxies = Some uuids -> Forall (fun u => u <> "") uuids).
  { subst proxies. intros uuids.
    destruct (Py.mem "proxies" tables); [|intros [= <-]; constructor].
    destruct (db_proxies_columns db) as [cols|]; [|discriminate].
    destruct (_ && _); [|intros [= <-]; constructor].
    destruct (db_proxies_vless db) as [rows|]; [|discriminate].
    intros [= <-]. apply Forall_forall. intros u [row [_ Hrow]]%list_elem_of_omap.
    exact (proxy_uuid_not_blank P row u Hrow). }
  destruct proxies as [uuids|]; [|constructor].
  specialize (Hproxies uuids eq_refl).
  destruct (Py.mem "users" tables); [|exact Hproxies].
  destruct (db_users_columns db) as [cols|]; [|exact Hproxies].
  destruct (Py.mem "uuid" cols); [|exact Hproxies].
  destruct (db_users_uuid db) as [vals|]; [|exact Hproxies].
  now apply fold_add_user_not_blank.
Qed.
